(** * NodeHub API: the reconciliation core

    A shallow embedding of the four components the specification singles
    out, and the properties it states about them:

    - the template renderer      ([src/modules/config/service.ts]),
    - the Cloudflare DNS adapter ([src/modules/dns/providers/cloudflare.ts]),
    - the DNS service and worker ([src/modules/dns/service.ts], the DNS worker),
    - the availability monitor   (the monitor worker, [markOfflineHosts] of the
      host service, the Telegram helpers).

    Part I holds the definitions, each one a transcription of the
    TypeScript function of the same name.  Part II holds the lemmas. *)

From Stdlib Require Import ZArith List String Ascii Bool Lia Permutation.
From Stdlib Require Import DecimalString.
From Stdlib Require QArith_base.
Import ListNotations.
Open Scope string_scope.
Open Scope Z_scope.

(* ================================================================== *)
(** * Part I.  The embedding                                            *)
(* ================================================================== *)

(** ** JavaScript values the code relies on *)

Module Js.

(** A property that may hold a value, [null] or [undefined]. *)
Inductive opt (A : Type) : Type :=
| Undefined
| Null
| Val (a : A).
Arguments Undefined {A}.
Arguments Null {A}.
Arguments Val {A} a.

(** The numbers the modelled code meets are integer columns of the
    store and results of [parseInt]: an integer or [NaN].  ([Int z]
    stands for the double of value [z]; printing is decimal for
    [|z| < 10^21].) *)
Inductive number : Type :=
| Int (z : Z)
| NaN.

(** [String(n)]. *)
Definition String_ (n : number) : string :=
  match n with
  | Int z => NilZero.string_of_int (Z.to_int z)
  | NaN => "NaN"
  end.

(** Truthiness of a string: only [''] is falsy. *)
Definition truthy_string (s : string) : bool :=
  match s with
  | EmptyString => false
  | String _ _ => true
  end.

(** Truthiness of an integer-valued number: only [0] is falsy. *)
Definition truthy_int (z : Z) : bool := negb (z =? 0).

(** [x || d] for an optional string [x]. *)
Definition or_string (x : option string) (d : string) : string :=
  match x with
  | Some s => if truthy_string s then s else d
  | None => d
  end.

(** [x || d] for a nullable integer property. *)
Definition or_int (x : opt Z) (d : Z) : Z :=
  match x with
  | Val z => if truthy_int z then z else d
  | _ => d
  end.

(** [s.split(sep)] for a non-empty separator: the pieces between the
    non-overlapping occurrences of [sep], found left to right.
    [split_from sep skip s] returns the piece being read and the pieces
    after it; [skip] counts the characters of a matched separator still
    to be passed over. *)
Fixpoint split_from (sep : string) (skip : nat) (s : string)
  : string * list string :=
  match s with
  | EmptyString => (EmptyString, [])
  | String c s' =>
      match skip with
      | S k => split_from sep k s'
      | O =>
          if String.prefix sep s
          then let (p, ps) := split_from sep (String.length sep - 1) s' in
               (EmptyString, p :: ps)
          else let (p, ps) := split_from sep 0 s' in
               (String c p, ps)
      end
  end.

Definition split (sep s : string) : list string :=
  let (p, ps) := split_from sep 0 s in p :: ps.

(** [pieces.join(sep)]. *)
Definition join (sep : string) (pieces : list string) : string :=
  String.concat sep pieces.

(** [s.split(k).join(v)]. *)
Definition replace_all (k v s : string) : string := join v (split k s).

(** [s.includes(sub)]. *)
Fixpoint includes (sub s : string) : bool :=
  String.prefix sub s ||
  match s with
  | EmptyString => false
  | String _ s' => includes sub s'
  end.

End Js.

(** ** Effects: state passing with exceptions

    An [async] function that may [throw] is a state transformer that
    returns normally or raises; [try_catch] is [try { } catch (error) { }]. *)

Module Eff.

Inductive outcome (A : Type) : Type :=
| Return (a : A)
| Throw (error : string).
Arguments Return {A} a.
Arguments Throw {A} error.

Definition M (S A : Type) : Type := S -> outcome A * S.

Definition ret {S A} (a : A) : M S A := fun s => (Return a, s).

Definition throw {S A} (error : string) : M S A := fun s => (Throw error, s).

Definition bind {S A B} (c : M S A) (k : A -> M S B) : M S B :=
  fun s =>
    match c s with
    | (Return a, s') => k a s'
    | (Throw e, s') => (Throw e, s')
    end.

Definition try_catch {S A} (body : M S A) (handler : string -> M S A) : M S A :=
  fun s =>
    match body s with
    | (Return a, s') => (Return a, s')
    | (Throw e, s') => handler e s'
    end.

Definition gets {S A} (f : S -> A) : M S A := fun s => (Return (f s), s).

Definition modify {S} (f : S -> S) : M S unit := fun s => (Return tt, f s).

(** [for (const x of xs) { body }]: a throwing iteration ends the loop. *)
Fixpoint for_each {S A} (xs : list A) (body : A -> M S unit) : M S unit :=
  match xs with
  | [] => ret tt
  | x :: xs' => bind (body x) (fun _ => for_each xs' body)
  end.

(** [Promise.all(xs.map(f))] for tasks that run one after another. *)
Fixpoint map_each {S A B} (xs : list A) (f : A -> M S B) : M S (list B) :=
  match xs with
  | [] => ret []
  | x :: xs' =>
      bind (f x) (fun b => bind (map_each xs' f) (fun bs => ret (b :: bs)))
  end.

Declare Scope eff_scope.
Delimit Scope eff_scope with eff.
Notation "x <- c ;; k" := (bind c (fun x => k))
  (at level 61, c at next level, right associativity) : eff_scope.
Notation "c ;; k" := (bind c (fun _ => k))
  (at level 61, right associativity) : eff_scope.

End Eff.

(** ** Template renderer: [src/modules/config/service.ts] *)

Module Template.
Import Js.

(** [NodeConfigContext.host]. *)
Record HostContext : Type := {
  ip : string;
  ipv6 : option string;
  region : option string
}.

(** [NodeConfigContext] ([proxyConfig] is carried by the source but
    never read by the renderer). *)
Record NodeConfigContext : Type := {
  id : number;
  name : string;
  domain : string;
  port : number;
  additionalPorts : list number;
  proxyType : string;
  host : option HostContext
}.

(** [context.host?.ip || ''] and its two siblings. *)
Definition host_ip (context : NodeConfigContext) : string :=
  or_string (option_map ip (host context)) EmptyString.
Definition host_ipv6 (context : NodeConfigContext) : string :=
  or_string (match host context with Some h => ipv6 h | None => None end) EmptyString.
Definition host_region (context : NodeConfigContext) : string :=
  or_string (match host context with Some h => region h | None => None end) EmptyString.

(** The [replacements] object, in the insertion order that
    [Object.entries] enumerates. *)
Definition replacements (context : NodeConfigContext)
  : list (string * string) :=
  [ ("{{NODE_ID}}", String_ (id context));
    ("{{NODE_NAME}}", name context);
    ("{{DOMAIN}}", domain context);
    ("{{PORT}}", String_ (port context));
    ("{{PROXY_TYPE}}", proxyType context);
    ("{{HOST_IP}}", host_ip context);
    ("{{HOST_IPV6}}", host_ipv6 context);
    ("{{HOST_REGION}}", host_region context);
    ("{{ADDITIONAL_PORTS}}", join "," (map String_ (additionalPorts context))) ].

(** The loop [for (const [key, value] of entries) result =
    result.split(key).join(value)], over any list of entries. *)
Definition substitute (entries : list (string * string)) (template : string)
  : string :=
  fold_left (fun result kv => replace_all (fst kv) (snd kv) result)
            entries template.

Definition replaceVariables (template : string) (context : NodeConfigContext)
  : string :=
  substitute (replacements context) template.

(** *** [getNodeContext]: the context of a stored node *)

(** Rows of tables [nodes] and [hosts], with the columns the context is
    built from. *)
Record NodeRow : Type := {
  node_id : Z;
  node_name : string;
  node_hostId : option Z;
  node_domain : option string;
  node_port : Z;
  node_additionalPorts : option string;
  node_proxyType : string
}.

Record HostRow : Type := {
  host_id : Z;
  host_ip_column : string;
  host_ipv6_column : option string;
  host_region_column : option string
}.

Record Store : Type := {
  nodes : list NodeRow;
  hosts : list HostRow
}.

(** [x || undefined] for a nullable text column. *)
Definition or_undefined (x : option string) : option string :=
  match x with
  | Some s => if truthy_string s then Some s else None
  | None => None
  end.

Section Context.

(** [parseInt(p.trim())], a builtin, is a parameter. *)
Variable parsePort : string -> number.

Definition getNodeContext (store : Store) (nodeId : Z)
  : Eff.outcome NodeConfigContext :=
  match filter (fun n => node_id n =? nodeId) (nodes store) with
  | [] => Eff.Throw ("Node with ID " ++ String_ (Int nodeId) ++ " not found")
  | nodeData :: _ =>
      let hostContext :=
        match node_hostId nodeData with
        | Some hid =>
            if truthy_int hid then
              match filter (fun h => host_id h =? hid) (hosts store) with
              | h :: _ =>
                  Some {| ip := host_ip_column h;
                          ipv6 := or_undefined (host_ipv6_column h);
                          region := or_undefined (host_region_column h) |}
              | [] => None
              end
            else None
        | None => None
        end in
      let additionalPorts :=
        match node_additionalPorts nodeData with
        | Some ports =>
            if truthy_string ports then map parsePort (split "," ports) else []
        | None => []
        end in
      Eff.Return
        {| id := Int (node_id nodeData);
           name := node_name nodeData;
           domain := or_string (node_domain nodeData) EmptyString;
           port := Int (node_port nodeData);
           additionalPorts := additionalPorts;
           proxyType := node_proxyType nodeData;
           host := hostContext |}
  end.

End Context.

(** The context of the specification's scenario. *)
Definition scenario_context : NodeConfigContext :=
  {| id := Int 1; name := "node-1"; domain := "a.example.com";
     port := Int 443; additionalPorts := [Int 8443]; proxyType := "vless";
     host := None |}.

(** *** The known placeholders, and templates seen as segments

    Used to state what the loop computes: the nine keys of
    [replacements], a template cut into literal text and placeholders,
    and the substitution that resolves every placeholder at once. *)

Inductive key : Type :=
| NODE_ID | NODE_NAME | DOMAIN | PORT | PROXY_TYPE
| HOST_IP | HOST_IPV6 | HOST_REGION | ADDITIONAL_PORTS.

Definition all_keys : list key :=
  [NODE_ID; NODE_NAME; DOMAIN; PORT; PROXY_TYPE;
   HOST_IP; HOST_IPV6; HOST_REGION; ADDITIONAL_PORTS].

Definition token (k : key) : string :=
  match k with
  | NODE_ID => "{{NODE_ID}}"
  | NODE_NAME => "{{NODE_NAME}}"
  | DOMAIN => "{{DOMAIN}}"
  | PORT => "{{PORT}}"
  | PROXY_TYPE => "{{PROXY_TYPE}}"
  | HOST_IP => "{{HOST_IP}}"
  | HOST_IPV6 => "{{HOST_IPV6}}"
  | HOST_REGION => "{{HOST_REGION}}"
  | ADDITIONAL_PORTS => "{{ADDITIONAL_PORTS}}"
  end.

Definition value_of (context : NodeConfigContext) (k : key) : string :=
  match k with
  | NODE_ID => String_ (id context)
  | NODE_NAME => name context
  | DOMAIN => domain context
  | PORT => String_ (port context)
  | PROXY_TYPE => proxyType context
  | HOST_IP => host_ip context
  | HOST_IPV6 => host_ipv6 context
  | HOST_REGION => host_region context
  | ADDITIONAL_PORTS => join "," (map String_ (additionalPorts context))
  end.

Definition entry (context : NodeConfigContext) (k : key) : string * string :=
  (token k, value_of context k).

Definition key_eqb (a b : key) : bool :=
  match a, b with
  | NODE_ID, NODE_ID | NODE_NAME, NODE_NAME | DOMAIN, DOMAIN | PORT, PORT
  | PROXY_TYPE, PROXY_TYPE | HOST_IP, HOST_IP | HOST_IPV6, HOST_IPV6
  | HOST_REGION, HOST_REGION | ADDITIONAL_PORTS, ADDITIONAL_PORTS => true
  | _, _ => false
  end.

Inductive segment : Type :=
| Lit (s : string)
| Var (k : key).

Definition text (seg : segment) : string :=
  match seg with
  | Lit s => s
  | Var k => token k
  end.

(** The template a list of segments spells. *)
Fixpoint flat (segs : list segment) : string :=
  match segs with
  | [] => EmptyString
  | seg :: rest => text seg ++ flat rest
  end.

(** Every placeholder resolved at once, nothing scanned twice. *)
Definition resolve (context : NodeConfigContext) (seg : segment) : string :=
  match seg with
  | Lit s => s
  | Var k => value_of context k
  end.

Fixpoint simultaneous (context : NodeConfigContext) (segs : list segment)
  : string :=
  match segs with
  | [] => EmptyString
  | seg :: rest => resolve context seg ++ simultaneous context rest
  end.

(** No opening brace of [s] is followed by another one or ends [s]:
    the text holds no [{{] and cannot start one with what follows it. *)
Fixpoint brace_safe (s : string) : bool :=
  match s with
  | EmptyString => true
  | String c s' =>
      (if Ascii.eqb c "{"
       then match s' with
            | EmptyString => false
            | String c' _ => negb (Ascii.eqb c' "{")
            end
       else true)
      && brace_safe s'
  end.

(** No opening brace at all. *)
Fixpoint brace_free (s : string) : bool :=
  match s with
  | EmptyString => true
  | String c s' => negb (Ascii.eqb c "{") && brace_free s'
  end.

(** One pass of the loop, seen on segments: the placeholders of [k]
    become the literal [v]. *)
Definition subst_key (k : key) (v : string) (seg : segment) : segment :=
  match seg with
  | Lit s => Lit s
  | Var k' => if key_eqb k k' then Lit v else Var k'
  end.

(** The passes for the keys [ks], seen on segments. *)
Definition resolve_keys (context : NodeConfigContext) (ks : list key)
           (seg : segment) : segment :=
  match seg with
  | Lit s => Lit s
  | Var k => if existsb (key_eqb k) ks then Lit (value_of context k) else Var k
  end.

Definition safe_segment (seg : segment) : bool :=
  match seg with
  | Lit s => brace_safe s
  | Var _ => true
  end.

(** The string fields of a context are brace-safe. *)
Definition safe_context (context : NodeConfigContext) : bool :=
  brace_safe (name context) && brace_safe (domain context)
  && brace_safe (proxyType context) && brace_safe (host_ip context)
  && brace_safe (host_ipv6 context) && brace_safe (host_region context).

(** What the specification gives a placeholder when no host is
    linked: the empty string for the three host keys, the value of the
    context for the node keys; and a template, cut into segments, with
    every placeholder replaced by that. *)
Definition unlinked_value (context : NodeConfigContext) (k : key) : string :=
  match k with
  | NODE_ID => String_ (id context)
  | NODE_NAME => name context
  | DOMAIN => domain context
  | PORT => String_ (port context)
  | PROXY_TYPE => proxyType context
  | HOST_IP | HOST_IPV6 | HOST_REGION => EmptyString
  | ADDITIONAL_PORTS => join "," (map String_ (additionalPorts context))
  end.

Fixpoint render_unlinked (context : NodeConfigContext) (segs : list segment)
  : string :=
  match segs with
  | [] => EmptyString
  | Lit s :: rest => s ++ render_unlinked context rest
  | Var k :: rest => unlinked_value context k ++ render_unlinked context rest
  end.

End Template.

(** ** Logging: [createLogger(name)] *)

Inductive Level : Type := Debug | Info | Warn | Error.

Record LogEntry : Type := {
  logger : string;
  level : Level;
  message : string
}.

(** ** DNS: the Cloudflare adapter, the service and the worker *)

Module Dns.
Import Js Eff.
Local Open Scope eff_scope.

(** *** The vendor on the other side of [fetch]

    The adapter only sees the vendor through four requests.  The vendor
    is modelled by the state those requests read and write: its zones and
    its DNS records.  Record identifiers are opaque to the adapter; the
    vendor hands out fresh ones. *)

Record CfRecord : Type := {
  rec_id : nat;
  rec_zone : string;
  rec_type : string;
  rec_name : string;
  rec_content : string
}.

Record Vendor : Type := {
  zones : list (string * string);   (* zone name, zone identifier *)
  records : list CfRecord;
  next_id : nat
}.

Inductive Request : Type :=
| GetZones (name : string)
    (* GET /zones?name= *)
| GetRecords (zone type name : string)
    (* GET /zones/:zone/dns_records?type=&name= *)
| PutRecord (zone : string) (recordId : nat) (content : string)
    (* PUT /zones/:zone/dns_records/:id  { content } *)
| PostRecord (zone type name content : string).
    (* POST /zones/:zone/dns_records  { type, name, content, ttl } *)

(** What [response.json()] yields: the [success] flag and [result]. *)
Inductive Body : Type :=
| ZoneList (success : bool) (result : list string)
| RecordList (success : bool) (result : list CfRecord)
| Single (success : bool).

(** What can happen to one [fetch]: the vendor serves it; the transport
    fails and [fetch] rejects; the vendor refuses it and answers with
    [success: false]. *)
Inductive Fault : Type := Healthy | TransportError | VendorError.

Definition matches_record (zone type name : string) (r : CfRecord) : bool :=
  String.eqb (rec_zone r) zone && String.eqb (rec_type r) type
  && String.eqb (rec_name r) name.

Definition set_content (zone : string) (recordId : nat) (content : string)
           (r : CfRecord) : CfRecord :=
  if String.eqb (rec_zone r) zone && Nat.eqb (rec_id r) recordId
  then {| rec_id := rec_id r; rec_zone := rec_zone r; rec_type := rec_type r;
          rec_name := rec_name r; rec_content := content |}
  else r.

(** A served request. *)
Definition serve (req : Request) (v : Vendor) : Body * Vendor :=
  match req with
  | GetZones name =>
      (ZoneList true
         (map snd (filter (fun z => String.eqb (fst z) name) (zones v))), v)
  | GetRecords zone type name =>
      (RecordList true (filter (matches_record zone type name) (records v)), v)
  | PutRecord zone recordId content =>
      (Single true,
       {| zones := zones v;
          records := map (set_content zone recordId content) (records v);
          next_id := next_id v |})
  | PostRecord zone type name content =>
      (Single true,
       {| zones := zones v;
          records := (records v ++
                      [ {| rec_id := next_id v; rec_zone := zone;
                           rec_type := type; rec_name := name;
                           rec_content := content |} ])%list;
          next_id := S (next_id v) |})
  end.

(** A refused request: nothing changes at the vendor. *)
Definition refuse (req : Request) : Body :=
  match req with
  | GetZones _ => ZoneList false []
  | GetRecords _ _ _ => RecordList false []
  | PutRecord _ _ _ | PostRecord _ _ _ _ => Single false
  end.

(** The vendor's records for [(zone, name, type)]. *)
Definition matching (zone type name : string) (v : Vendor) : list CfRecord :=
  filter (matches_record zone type name) (records v).

(** The zones the vendor lists under a name. *)
Definition zones_named (name : string) (v : Vendor) : list string :=
  map snd (filter (fun z => String.eqb (fst z) name) (zones v)).

(** The write [updateRecord] issues once the lookup has answered. *)
Definition write_request (zone type name value : string) (v : Vendor)
  : Request :=
  match matching zone type name v with
  | r :: _ => PutRecord zone (rec_id r) value
  | [] => PostRecord zone type name value
  end.

(** *** The store: table [dns_records] and the node ids it references *)

Record DnsRow : Type := {
  row_id : Z;
  nodeId : Z;
  domain : string;
  type : string;
  value : string;
  isActive : bool;
  lastChecked : option Z;
  lastUpdated : option Z;
  createdAt : Z;
  updatedAt : Z
}.

(** [new CloudflareProvider(apiToken, zoneId)]. *)
Record CloudflareProvider : Type := {
  apiToken : string;
  zoneId : option string
}.

Record World : Type := {
  vendor : Vendor;
  faults : list Fault;              (* what happens to the coming fetches *)
  sent : list Request;              (* every request issued, oldest first *)
  log : list LogEntry;              (* oldest first *)
  defaultProvider : option CloudflareProvider;
  nodeIds : list Z;                 (* primary keys of table [nodes] *)
  dnsRecords : list DnsRow;
  nextRowId : Z;
  now : Z                           (* Math.floor(Date.now() / 1000) *)
}.

Definition with_net (v : Vendor) (fs : list Fault) (rs : list Request)
           (w : World) : World :=
  {| vendor := v; faults := fs; sent := rs; log := log w;
     defaultProvider := defaultProvider w; nodeIds := nodeIds w;
     dnsRecords := dnsRecords w; nextRowId := nextRowId w; now := now w |}.

Definition with_log (l : list LogEntry) (w : World) : World :=
  {| vendor := vendor w; faults := faults w; sent := sent w; log := l;
     defaultProvider := defaultProvider w; nodeIds := nodeIds w;
     dnsRecords := dnsRecords w; nextRowId := nextRowId w; now := now w |}.

Definition with_rows (rows : list DnsRow) (next : Z) (w : World) : World :=
  {| vendor := vendor w; faults := faults w; sent := sent w; log := log w;
     defaultProvider := defaultProvider w; nodeIds := nodeIds w;
     dnsRecords := rows; nextRowId := next; now := now w |}.

Definition write_log (name : string) (lvl : Level) (msg : string)
  : M World unit :=
  modify (fun w =>
    with_log (log w ++ [ {| logger := name; level := lvl; message := msg |} ])%list w).

(** [await fetch(...)] followed, where the code does so, by
    [await response.json()]. *)
Definition fetch (req : Request) : M World Body :=
  fun w =>
    let rs := (sent w ++ [req])%list in
    match faults w with
    | TransportError :: fs =>
        (Throw "fetch failed", with_net (vendor w) fs rs w)
    | VendorError :: fs =>
        (Return (refuse req), with_net (vendor w) fs rs w)
    | Healthy :: fs =>
        let (body, v') := serve req (vendor w) in
        (Return body, with_net v' fs rs w)
    | [] =>
        let (body, v') := serve req (vendor w) in
        (Return body, with_net v' [] rs w)
    end.

(** *** [CloudflareProvider] *)

Definition getBaseDomain (domain : string) : string :=
  let parts := split "." domain in
  if (2 <=? List.length parts)%nat
  then join "." (skipn (List.length parts - 2) parts)
  else domain.

Definition getZoneId (this : CloudflareProvider) (domain : string)
  : M World (option string) :=
  try_catch
    (let baseDomain := getBaseDomain domain in
     data <- fetch (GetZones baseDomain) ;;
     match data with
     | ZoneList true (zid :: _) => ret (Some zid)
     | _ => ret None
     end)
    (fun error => write_log "CloudflareDNS" Error "Failed to get zone ID" ;;
                  ret None).

Definition findRecord (this : CloudflareProvider) (zone domain type : string)
  : M World (option CfRecord) :=
  try_catch
    (data <- fetch (GetRecords zone type domain) ;;
     match data with
     | RecordList true (r :: _) => ret (Some r)
     | _ => ret None
     end)
    (fun error => write_log "CloudflareDNS" Error "Failed to find DNS record" ;;
                  ret None).

Definition updateExistingRecord (this : CloudflareProvider)
           (zone : string) (recordId : nat) (value : string) : M World unit :=
  fetch (PutRecord zone recordId value) ;; ret tt.

Definition createNewRecord (this : CloudflareProvider)
           (zone domain type value : string) : M World unit :=
  fetch (PostRecord zone type domain value) ;; ret tt.

(** [this.zoneId || (await this.getZoneId(domain))]. *)
Definition resolveZone (this : CloudflareProvider) (domain : string)
  : M World (option string) :=
  match zoneId this with
  | Some z => if truthy_string z then ret (Some z) else getZoneId this domain
  | None => getZoneId this domain
  end.

(** What [resolveZone] yields when the vendor serves the request, and
    the requests it takes. *)
Definition zone_of (this : CloudflareProvider) (domain : string) (v : Vendor)
  : option string :=
  let looked_up := hd_error (zones_named (getBaseDomain domain) v) in
  match zoneId this with
  | Some z => if truthy_string z then Some z else looked_up
  | None => looked_up
  end.

Definition zone_requests (this : CloudflareProvider) (domain : string)
  : list Request :=
  match zoneId this with
  | Some z => if truthy_string z then [] else [GetZones (getBaseDomain domain)]
  | None => [GetZones (getBaseDomain domain)]
  end.

(** [!zoneId]. *)
Definition falsy_zone (z : option string) : bool :=
  match z with
  | Some s => negb (truthy_string s)
  | None => true
  end.

Definition updateRecord (this : CloudflareProvider)
           (domain type value : string) : M World bool :=
  try_catch
    (z <- resolveZone this domain ;;
     match z with
     | Some zone =>
         if falsy_zone z then throw "Could not determine zone ID" else
         existingRecord <- findRecord this zone domain type ;;
         match existingRecord with
         | Some r =>
             updateExistingRecord this zone (rec_id r) value ;;
             write_log "CloudflareDNS" Info
               ("Updated DNS record: " ++ domain ++ " (" ++ type ++ ") -> " ++ value)
         | None =>
             createNewRecord this zone domain type value ;;
             write_log "CloudflareDNS" Info
               ("Created DNS record: " ++ domain ++ " (" ++ type ++ ") -> " ++ value)
         end ;;
         ret true
     | None => throw "Could not determine zone ID"
     end)
    (fun error =>
       write_log "CloudflareDNS" Error
         ("Failed to update DNS record for " ++ domain) ;;
       ret false).

(** [record?.content || null]. *)
Definition content_or_null (record : option CfRecord) : option string :=
  match record with
  | Some r => if truthy_string (rec_content r) then Some (rec_content r) else None
  | None => None
  end.

Definition getRecord (this : CloudflareProvider) (domain type : string)
  : M World (option string) :=
  try_catch
    (z <- resolveZone this domain ;;
     match z with
     | Some zone =>
         if falsy_zone z then ret None else
         record <- findRecord this zone domain type ;;
         ret (content_or_null record)
     | None => ret None
     end)
    (fun error =>
       write_log "CloudflareDNS" Error
         ("Failed to get DNS record for " ++ domain) ;;
       ret None).

(** *** The service: [src/modules/dns/service.ts] *)

Record DnsUpdateRequest : Type := {
  req_nodeId : Z;
  req_domain : string;
  req_type : string;                 (* 'A' | 'AAAA' | 'CNAME' *)
  req_value : string
}.

Record DnsCheckRequest : Type := {
  chk_domain : string;
  expectedValue : option string      (* [None] when not supplied *)
}.

Record DnsCheckResult : Type := {
  res_domain : string;
  currentValue : option string;
  matches : bool
}.

(** [db.select().from(dnsRecords).where(eq(dnsRecords.nodeId, id)).limit(1)]. *)
Definition select_by_node (id : Z) : M World (list DnsRow) :=
  gets (fun w => firstn 1 (filter (fun r => nodeId r =? id) (dnsRecords w))).

(** [db.update(dnsRecords).set({...}).where(eq(dnsRecords.id, id))]. *)
Definition update_row (id : Z) (request : DnsUpdateRequest) (t : Z)
  : M World unit :=
  modify (fun w =>
    with_rows
      (map (fun r =>
              if row_id r =? id
              then {| row_id := row_id r; nodeId := nodeId r;
                      domain := req_domain request; type := req_type request;
                      value := req_value request; isActive := isActive r;
                      lastChecked := lastChecked r; lastUpdated := Some t;
                      createdAt := createdAt r; updatedAt := t |}
              else r)
           (dnsRecords w))
      (nextRowId w) w).

(** [db.insert(dnsRecords).values({...})]: [node_id] references
    [nodes.id] and foreign keys are enforced, so the insert raises when
    the node does not exist. *)
Definition insert_row (request : DnsUpdateRequest) (t : Z) : M World unit :=
  fun w =>
    if existsb (Z.eqb (req_nodeId request)) (nodeIds w)
    then (Return tt,
          with_rows
            (dnsRecords w ++
             [ {| row_id := nextRowId w; nodeId := req_nodeId request;
                  domain := req_domain request; type := req_type request;
                  value := req_value request; isActive := true;
                  lastChecked := Some t; lastUpdated := Some t;
                  createdAt := t; updatedAt := t |} ])%list
            (nextRowId w + 1) w)
    else (Throw "FOREIGN KEY constraint failed", w).

Definition updateDnsRecord (request : DnsUpdateRequest) : M World bool :=
  try_catch
    (p <- gets defaultProvider ;;
     match p with
     | None => throw "DNS provider not initialized"
     | Some provider =>
         node <- select_by_node (req_nodeId request) ;;
         success <- updateRecord provider (req_domain request)
                      (req_type request) (req_value request) ;;
         if success then
           t <- gets now ;;
           match node with
           | n :: _ => update_row (row_id n) request t
           | [] => insert_row request t
           end ;;
           write_log "DnsService" Info
             ("DNS record updated: " ++ req_domain request ++ " -> "
              ++ req_value request) ;;
           ret true
         else ret false
     end)
    (fun error =>
       write_log "DnsService" Error
         ("Failed to update DNS record for " ++ req_domain request) ;;
       throw error).

(** [currentValue === request.expectedValue]. *)
Definition strict_eq (current : option string) (expected : string) : bool :=
  match current with
  | Some c => String.eqb c expected
  | None => false
  end.

Definition checkDnsRecord (request : DnsCheckRequest)
  : M World DnsCheckResult :=
  try_catch
    (p <- gets defaultProvider ;;
     match p with
     | None => throw "DNS provider not initialized"
     | Some provider =>
         current <- getRecord provider (chk_domain request) "A" ;;
         let m :=
           match expectedValue request with
           | Some e => if truthy_string e then strict_eq current e else true
           | None => true
           end in
         ret {| res_domain := chk_domain request;
                currentValue := current;
                matches := m |}
     end)
    (fun error =>
       write_log "DnsService" Error
         ("Failed to check DNS record for " ++ chk_domain request) ;;
       throw error).

(** *** The worker: [DnsWorker] over a [PQueue]

    The queue is the third-party [p-queue], which is not part of the
    repository.  What is stated of it below follows its documentation:
    [add] puts a task at the end of the queue and returns a promise that
    settles as the task does; a queue that is not paused starts the
    waiting tasks in admission order, each as soon as fewer than
    [concurrency] tasks run and the cap of the current interval is not
    reached; when a task throws the queue emits ['error'] and goes on;
    when a task has settled and none waits or runs it emits ['idle'];
    [pause] stops the queue from starting tasks and [clear] drops the
    waiting ones, whose promises then never settle. *)

(** The options of [new PQueue({...})].  An absent [intervalCap] is
    the library's default, [Infinity]. *)
Record QueueOptions : Type := {
  concurrency : nat;
  interval : Z;                     (* ms *)
  intervalCap : option nat;
  autoStart : bool
}.

(** The options the constructor of [DnsWorker] passes: [concurrency],
    [interval] and [autoStart: true], and no [intervalCap]. *)
Definition worker_options (concurrency : nat) (interval : Z) : QueueOptions :=
  {| concurrency := concurrency; interval := interval;
     intervalCap := None; autoStart := true |}.

(** **** When the queue starts its tasks

    [interval] is the length of time before the count of runs is reset
    and [intervalCap] the number of runs allowed in that time: without a
    cap, or with an interval of 0, the interval limits nothing. *)
Definition interval_ignored (options : QueueOptions) : bool :=
  match intervalCap options with
  | None => true
  | Some _ => interval options <=? 0
  end.

Definition earliest (times : list Z) (otherwise : Z) : Z :=
  match times with
  | [] => otherwise
  | f :: fs => fold_left Z.min fs f
  end.

(** The time at which a slot is free for the next task: [now] when
    fewer than [concurrency] tasks run, else the first time one of them
    has settled.  [running] holds the times at which the running tasks
    settle. *)
Definition slot_time (options : QueueOptions) (now : Z) (running : list Z) : Z :=
  if (List.length running <? concurrency options)%nat then now
  else Z.max now (earliest running now).

(** The start of the next task under the interval: [window] is the end
    of the current interval and the runs counted in it. *)
Definition interval_start (options : QueueOptions) (free : Z)
           (window : option (Z * nat)) : Z * option (Z * nat) :=
  if interval_ignored options then (free, window) else
  match window, intervalCap options with
  | Some (ends, runs), Some cap =>
      if free <? ends then
        if (runs <? cap)%nat then (free, Some (ends, S runs))
        else (ends, Some (ends + interval options, 1%nat))
      else
        let passed := (free - ends) / interval options + 1 in
        (free, Some (ends + passed * interval options, 1%nat))
  | _, _ => (free, Some (free + interval options, 1%nat))
  end.

(** The start times of tasks admitted together at [now], in admission
    order; a task started at [s] that takes [d] ms settles at [s + d]. *)
Fixpoint schedule (options : QueueOptions) (now : Z) (running : list Z)
         (window : option (Z * nat)) (durations : list Z) : list Z :=
  match durations with
  | [] => []
  | d :: rest =>
      let free := slot_time options now running in
      let (start, window') := interval_start options free window in
      start :: schedule options start
                 ((start + d) :: filter (fun f => start <? f) running)
                 window' rest
  end.

Definition starts (options : QueueOptions) (now : Z) (durations : list Z)
  : list Z :=
  schedule options now [] None durations.

(** **** What the queue and the worker do with a task

    The steps below are those of a queue of concurrency 1, the default
    of the constructor and of the singleton.  A task is run as one step,
    from its start to the point where its caller has resumed: the world
    it leaves and the order of the lines of one call are as in the code;
    how the last line of a call is interleaved with the first lines of
    the task that starts next is not modelled. *)

(** The listeners the constructor registers on the queue. *)
Definition on_idle : M World unit :=
  write_log "DnsWorker" Debug "DNS queue is idle".

Definition on_error (error : string) : M World unit :=
  write_log "DnsWorker" Error "DNS queue error".

(** What the queue does when a task has settled and [behind] tasks
    wait: it starts the next one, or, with none, emits ['idle']. *)
Definition after_task (behind : nat) : M World unit :=
  match behind with
  | O => on_idle
  | S _ => ret tt
  end.

(** [await this.queue.add(task)], from the start of the task to the
    settling of the promise; [behind] is the number of tasks that wait
    in the queue at that moment. *)
Definition queue_add {A} (behind : nat) (task : M World A) : M World A :=
  fun w =>
    match task w with
    | (Return a, w1) => (Return a, snd (after_task behind w1))
    | (Throw error, w1) =>
        (Throw error, snd (after_task behind (snd (on_error error w1))))
    end.

(** The task handed to the queue. *)
Definition task (request : DnsUpdateRequest) : M World bool :=
  write_log "DnsWorker" Info
    ("Processing DNS update: " ++ req_domain request
     ++ " (" ++ req_type request ++ ")") ;;
  updateDnsRecord request.

(** [addUpdateTask] for a task that [behind] others follow in the
    queue. *)
Definition addUpdateTask_behind (behind : nat) (request : DnsUpdateRequest)
  : M World bool :=
  try_catch
    (result <- queue_add behind (task request) ;;
     ret (result || false))
    (fun error =>
       write_log "DnsWorker" Error
         ("Failed to queue DNS update for " ++ req_domain request) ;;
       ret false).

(** [addUpdateTask] on a worker whose queue holds nothing else. *)
Definition addUpdateTask (request : DnsUpdateRequest) : M World bool :=
  addUpdateTask_behind 0 request.

(** The worker with its queue: the world outside it, the waiting tasks
    with the ticket of the call that added each, whether the queue is
    paused, and what the calls that have returned were answered. *)
Record DnsWorker : Type := {
  options : QueueOptions;
  world : World;
  queue : list (nat * DnsUpdateRequest);
  isPaused : bool;
  answers : list (nat * bool);
  calls : nat
}.

(** [new DnsWorker(concurrency, interval)]. *)
Definition new_DnsWorker (concurrency : nat) (interval : Z) (w : World)
  : DnsWorker :=
  {| options := worker_options concurrency interval;
     world := w; queue := [];
     isPaused := negb (autoStart (worker_options concurrency interval));
     answers := []; calls := 0 |}.

(** The part of [addUpdateTask] that runs at once: [queue.add] puts the
    task at the end of the queue. *)
Definition enqueue (request : DnsUpdateRequest) (p : DnsWorker) : DnsWorker :=
  {| options := options p; world := world p;
     queue := (queue p ++ [(calls p, request)])%list;
     isPaused := isPaused p; answers := answers p; calls := S (calls p) |}.

(** One step of the queue: unless paused, the first waiting task is
    run and its call answered. *)
Definition run_next (p : DnsWorker) : DnsWorker :=
  if isPaused p then p else
  match queue p with
  | [] => p
  | (ticket, request) :: rest =>
      match addUpdateTask_behind (List.length rest) request (world p) with
      | (Return answer, w') =>
          {| options := options p; world := w'; queue := rest;
             isPaused := isPaused p;
             answers := (answers p ++ [(ticket, answer)])%list;
             calls := calls p |}
      | (Throw _, w') =>
          {| options := options p; world := w'; queue := rest;
             isPaused := isPaused p; answers := answers p;
             calls := calls p |}
      end
  end.

Fixpoint run (steps : nat) (p : DnsWorker) : DnsWorker :=
  match steps with
  | O => p
  | S k => run k (run_next p)
  end.

(** The queue runs until nothing waits (or it is paused). *)
Definition process (p : DnsWorker) : DnsWorker :=
  run (List.length (queue p)) p.

(** [addUpdateTasks] on a new worker: every request is enqueued, the
    queue runs, and [Promise.all] gives the answers in admission
    order. *)
Definition addUpdateTasks (requests : list DnsUpdateRequest)
  : M World (list bool) :=
  fun w =>
    let p := process (fold_left (fun p request => enqueue request p) requests
                                (new_DnsWorker 1 1000 w)) in
    (Return (map snd (answers p)), world p).

(** [pause], [clear] and [shutdownDnsWorker]. *)
Definition with_world (w : World) (p : DnsWorker) : DnsWorker :=
  {| options := options p; world := w; queue := queue p;
     isPaused := isPaused p; answers := answers p; calls := calls p |}.

Definition pause (p : DnsWorker) : DnsWorker :=
  with_world (snd (write_log "DnsWorker" Info "DNS queue paused" (world p)))
    {| options := options p; world := world p; queue := queue p;
       isPaused := true; answers := answers p; calls := calls p |}.

Definition clear (p : DnsWorker) : DnsWorker :=
  with_world (snd (write_log "DnsWorker" Info "DNS queue cleared" (world p)))
    {| options := options p; world := world p; queue := [];
       isPaused := isPaused p; answers := answers p; calls := calls p |}.

Definition shutdownDnsWorker (p : DnsWorker) : DnsWorker :=
  let p' := clear (pause p) in
  with_world (snd (write_log "DnsWorker" Info "DNS Worker shutdown" (world p')))
    p'.

(** The calls of a batch, one after another, without the queue: each
    task is followed by the tasks after it in the batch and by [behind]
    more. *)
Fixpoint batch (behind : nat) (requests : list DnsUpdateRequest)
  : M World (list bool) :=
  match requests with
  | [] => ret []
  | request :: rest =>
      answer <- addUpdateTask_behind (List.length rest + behind) request ;;
      others <- batch behind rest ;;
      ret (answer :: others)
  end.

(** The lines of the worker's logger. *)
Definition line (lvl : Level) (msg : string) : LogEntry :=
  {| logger := "DnsWorker"; level := lvl; message := msg |}.

Definition idle_line (behind : nat) : list LogEntry :=
  match behind with
  | O => [line Debug "DNS queue is idle"]
  | S _ => []
  end.

(** The requests of a batch with the tickets of their calls. *)
Definition tickets (first : nat) (requests : list DnsUpdateRequest)
  : list (nat * DnsUpdateRequest) :=
  combine (seq first (List.length requests)) requests.

(** *** The rest of the service, the provider factory and its configuration *)

Definition getNodeDnsRecords (node : Z) : M World (list DnsRow) :=
  try_catch
    (gets (fun w => filter (fun r => nodeId r =? node) (dnsRecords w)))
    (fun error =>
       write_log "DnsService" Error
         ("Failed to get DNS records for node " ++ String_ (Int node)) ;;
       throw error).

(** [db.delete(dnsRecords).where(eq(dnsRecords.id, recordId)).returning()]
    and [result.length > 0]. *)
Definition deleteDnsRecord (recordId : Z) : M World bool :=
  try_catch
    (fun w =>
       let result := filter (fun r => row_id r =? recordId) (dnsRecords w) in
       (Return (0 <? List.length result)%nat,
        with_rows (filter (fun r => negb (row_id r =? recordId)) (dnsRecords w))
                  (nextRowId w) w))
    (fun error =>
       write_log "DnsService" Error
         ("Failed to delete DNS record " ++ String_ (Int recordId)) ;;
       throw error).

(** [DnsProviderConfig]. *)
Record DnsProviderConfig : Type := {
  provider : string;
  apiKey : string;
  apiSecret : option string;
  config_zoneId : option string
}.

(** [createDnsProvider] of the provider factory. *)
Definition createDnsProvider (config : DnsProviderConfig)
  : outcome CloudflareProvider :=
  if String.eqb (provider config) "cloudflare" then
    if negb (truthy_string (apiKey config))
    then Throw "Cloudflare requires CLOUDFLARE_API_TOKEN to be set"
    else Return {| apiToken := apiKey config; zoneId := config_zoneId config |}
  else if String.eqb (provider config) "godaddy" then
    Throw "GoDaddy provider not yet implemented. Please use Cloudflare or implement the provider."
  else if String.eqb (provider config) "namecheap" then
    Throw "Namecheap provider not yet implemented. Please use Cloudflare or implement the provider."
  else Throw ("Unsupported DNS provider: " ++ provider config).

Definition with_provider (p : option CloudflareProvider) (w : World) : World :=
  {| vendor := vendor w; faults := faults w; sent := sent w; log := log w;
     defaultProvider := p; nodeIds := nodeIds w;
     dnsRecords := dnsRecords w; nextRowId := nextRowId w; now := now w |}.

Definition initializeDnsProvider (config : DnsProviderConfig) : M World unit :=
  try_catch
    (fun w =>
       match createDnsProvider config with
       | Return p =>
           write_log "DnsService" Info
             ("DNS provider initialized: " ++ provider config)
             (with_provider (Some p) w)
       | Throw e => (Throw e, w)
       end)
    (fun error =>
       write_log "DnsService" Error "Failed to initialize DNS provider" ;;
       throw error).

(** [!!x] for an optional string. *)
Definition present (x : option string) : bool :=
  match x with
  | Some s => truthy_string s
  | None => false
  end.

Section Environment.

(** [process.env], and the builtin [toLowerCase]. *)
Variable env : string -> option string.
Variable toLowerCase : string -> string.

(** [getDnsConfig] of [src/modules/dns/config.ts]. *)
Definition getDnsConfig : outcome DnsProviderConfig :=
  let provider := toLowerCase (or_string (env "DNS_PROVIDER") "cloudflare") in
  if String.eqb provider "cloudflare" then
    Return {| provider := "cloudflare";
              apiKey := or_string (env "CLOUDFLARE_API_TOKEN") EmptyString;
              apiSecret := None;
              config_zoneId := env "CLOUDFLARE_ZONE_ID" |}
  else if String.eqb provider "godaddy" then
    Return {| provider := "godaddy";
              apiKey := or_string (env "GODADDY_API_KEY") EmptyString;
              apiSecret := Some (or_string (env "GODADDY_API_SECRET") EmptyString);
              config_zoneId := None |}
  else if String.eqb provider "namecheap" then
    Return {| provider := "namecheap";
              apiKey := or_string (env "NAMECHEAP_API_KEY") EmptyString;
              apiSecret := env "NAMECHEAP_USERNAME";
              config_zoneId := None |}
  else Throw ("Unsupported DNS provider: " ++ provider
              ++ ". Supported providers: cloudflare, godaddy, namecheap").

End Environment.

Definition validateDnsConfig (config : DnsProviderConfig) : bool :=
  if String.eqb (provider config) "cloudflare" then truthy_string (apiKey config)
  else if String.eqb (provider config) "godaddy"
       then truthy_string (apiKey config) && present (apiSecret config)
  else if String.eqb (provider config) "namecheap"
       then truthy_string (apiKey config) && present (apiSecret config)
  else false.

(** No dot in the text: a single label. *)
Fixpoint dot_free (s : string) : bool :=
  match s with
  | EmptyString => true
  | String c s' => negb (Ascii.eqb c ".") && dot_free s'
  end.

(** *** Frames: what a run leaves alone *)

Definition is_read (req : Request) : bool :=
  match req with
  | GetZones _ | GetRecords _ _ _ => true
  | PutRecord _ _ _ | PostRecord _ _ _ _ => false
  end.

(** The store and the provider are the same in both worlds. *)
Definition same_store (w w' : World) : Prop :=
  defaultProvider w' = defaultProvider w
  /\ nodeIds w' = nodeIds w
  /\ dnsRecords w' = dnsRecords w
  /\ nextRowId w' = nextRowId w
  /\ now w' = now w.

(** From [w] to [w'] only requests were issued, all of them reads, and
    the vendor holds what it held. *)
Definition only_read (w w' : World) : Prop :=
  same_store w w'
  /\ vendor w' = vendor w
  /\ exists added, sent w' = (sent w ++ added)%list
                   /\ forallb is_read added = true.

(** The rows of a node, and the rows of the other nodes. *)
Definition rows_of (node : Z) (rows : list DnsRow) : list DnsRow :=
  filter (fun r => nodeId r =? node) rows.

Definition rows_of_others (node : Z) (rows : list DnsRow) : list DnsRow :=
  filter (fun r => negb (nodeId r =? node)) rows.

(** *** Concrete worlds used in examples *)

Definition example_vendor (rs : list CfRecord) : Vendor :=
  {| zones := [("example.com", "zone-1")]; records := rs;
     next_id := List.length rs |}.

Definition example_record : CfRecord :=
  {| rec_id := 0; rec_zone := "zone-1"; rec_type := "A";
     rec_name := "hk01.example.com"; rec_content := "192.0.2.1" |}.

Definition example_world (p : option CloudflareProvider)
           (rs : list CfRecord) (fs : list Fault) : World :=
  {| vendor := example_vendor rs; faults := fs; sent := []; log := [];
     defaultProvider := p; nodeIds := [1]; dnsRecords := [];
     nextRowId := 1; now := 1700000000 |}.

Definition example_provider : CloudflareProvider :=
  {| apiToken := "token"; zoneId := None |}.

Definition example_request (node : Z) (value : string) : DnsUpdateRequest :=
  {| req_nodeId := node; req_domain := "hk01.example.com"; req_type := "A";
     req_value := value |}.

End Dns.

(** ** The availability monitor *)

Module Monitor.
Import Js Eff.
Local Open Scope eff_scope.

(** A row of table [hosts], with the columns the monitor reads or
    [markOfflineHosts] writes. *)
Record Host : Type := {
  name : string;
  status : string;
  lastHeartbeat : opt Z;
  diskTotal : opt Z;
  diskUsed : opt Z;
  updatedAt : Z
}.

Record MonitorConfig : Type := {
  hostHeartbeatTimeout : Z;          (* seconds *)
  checkInterval : Z;                 (* milliseconds *)
  notifyOnHostOffline : bool;
  notifyOnLowDisk : bool;
  diskThreshold : Z                  (* percentage *)
}.

Definition defaultConfig : MonitorConfig :=
  {| hostHeartbeatTimeout := 300;
     checkInterval := 60000;
     notifyOnHostOffline := true;
     notifyOnLowDisk := true;
     diskThreshold := 90 |}.

(** What a sweep does to the outside: log lines, and notifications
    handed to [TelegramNotifier.send] (title and host; [send] itself
    catches every failure and returns a boolean nobody reads). *)
Inductive Event : Type :=
| Logged (entry : LogEntry)
| Notification (title : string) (hostName : string).

Record World : Type := {
  hosts : list Host;
  telegramEnabled : bool;            (* telegram.isEnabled() *)
  trace : list Event                 (* oldest first *)
}.

Definition emit (e : Event) : M World unit :=
  modify (fun w =>
    {| hosts := hosts w; telegramEnabled := telegramEnabled w;
       trace := (trace w ++ [e])%list |}).

Definition write_log (name : string) (lvl : Level) (msg : string)
  : M World unit :=
  emit (Logged {| logger := name; level := lvl; message := msg |}).

(** Modelled from the spec: [getHosts], which the worker imports from
    the host service and the host service does not define (it exports
    [getAllHosts]).  It is the specification's [list-hosts] of the record
    store: the rows of table [hosts].  The Telegram notifier is taken as
    already constructed. *)
Definition getHosts : M World (list Host) := gets hosts.

(** [new Date(ms).toISOString()] raises a [RangeError] outside the
    range of [Date], 8.64e15 ms either side of the epoch. *)
Definition date_in_range (ms : Z) : bool := Z.abs ms <=? 8640000000000000.

(** [notifyHostOffline(hostName, lastHeartbeat)]: the metadata
    [lastHeartbeat ? { lastHeartbeat: new Date(lastHeartbeat * 1000)
    .toISOString() } : undefined] is built before [sendNotification]
    is called. *)
Definition notifyHostOffline (hostName : string) (lastHeartbeat : Z)
  : M World unit :=
  if truthy_int lastHeartbeat && negb (date_in_range (lastHeartbeat * 1000))
  then throw "RangeError: Invalid time value"
  else emit (Notification "Host Offline" hostName).

Definition notifyLowDisk (hostName : string) : M World unit :=
  emit (Notification "Low Disk Space" hostName).

(** [markOfflineHosts(timeoutSeconds)] of the host service, run at
    time [t]:
    UPDATE hosts SET status = 'offline', updated_at = t
    WHERE last_heartbeat < t - timeoutSeconds AND status = 'online'.
    A NULL [last_heartbeat] satisfies no comparison. *)
Definition stale_in_store (threshold : Z) (h : Host) : bool :=
  match lastHeartbeat h with
  | Val lh => (lh <? threshold) && String.eqb (status h) "online"
  | _ => false
  end.

Definition mark (t : Z) (h : Host) : Host :=
  {| name := name h; status := "offline"; lastHeartbeat := lastHeartbeat h;
     diskTotal := diskTotal h; diskUsed := diskUsed h; updatedAt := t |}.

Definition markOfflineHosts (t : Z) (timeoutSeconds : Z) : M World unit :=
  let threshold := t - timeoutSeconds in
  result <- gets (fun w => filter (stale_in_store threshold) (hosts w)) ;;
  modify (fun w =>
    {| hosts := map (fun h => if stale_in_store threshold h then mark t h else h)
                    (hosts w);
       telegramEnabled := telegramEnabled w;
       trace := trace w |}) ;;
  if (0 <? List.length result)%nat
  then write_log "HostService" Info
         ("Marked " ++ NilZero.string_of_uint (Nat.to_uint (List.length result))
          ++ " hosts as offline")
  else ret tt.

(** [!host.diskTotal] and [host.diskUsed === undefined]. *)
Definition falsy (x : opt Z) : bool :=
  match x with
  | Val z => negb (truthy_int z)
  | _ => true
  end.

Definition is_undefined (x : opt Z) : bool :=
  match x with
  | Undefined => true
  | _ => false
  end.

(** The operand a property becomes in an arithmetic expression. *)
Definition to_number (x : opt Z) : number :=
  match x with
  | Val z => Int z
  | Null => Int 0
  | Undefined => NaN
  end.

Section Worker.

Variable config : MonitorConfig.

(** [(diskUsed / diskTotal) * 100 >= diskThreshold] as IEEE-754
    doubles evaluate it, from the two operands of the division and the
    threshold.  Floating point is not modelled: the comparison is a
    parameter of the worker. *)
Variable usageAtLeast : number -> number -> Z -> bool.

(** The body of the loop of [checkHostHeartbeats]; [t] is what
    [Date.now()] gave before the loop. *)
Definition heartbeat_body (t : Z) (host : Host) : M World unit :=
  if String.eqb (status host) "offline" then ret tt else
  let lastHeartbeat := or_int (lastHeartbeat host) 0 in
  let timeSinceHeartbeat := t - lastHeartbeat in
  if timeSinceHeartbeat >? hostHeartbeatTimeout config then
    write_log "MonitorWorker" Warn
      ("Host offline detected: " ++ name host) ;;
    enabled <- gets telegramEnabled ;;
    if notifyOnHostOffline config && enabled
    then notifyHostOffline (name host) lastHeartbeat
    else ret tt
  else ret tt.

(** [checkHostHeartbeats]; [t_mark] is what [Date.now()] gives
    [markOfflineHosts] after the loop. *)
Definition checkHostHeartbeats (t t_mark : Z) : M World unit :=
  try_catch
    (hs <- getHosts ;;
     for_each hs (heartbeat_body t) ;;
     markOfflineHosts t_mark (hostHeartbeatTimeout config))
    (fun error =>
       write_log "MonitorWorker" Error "Failed to check host heartbeats").

(** The body of the loop of [checkDiskSpace]; the percentage printed
    in the warning is left out of the log line. *)
Definition disk_body (host : Host) : M World unit :=
  if falsy (diskTotal host) || is_undefined (diskUsed host)
  then ret tt else
  if usageAtLeast (to_number (diskUsed host))
                  (to_number (diskTotal host))
                  (diskThreshold config)
  then
    write_log "MonitorWorker" Warn ("Low disk space: " ++ name host) ;;
    enabled <- gets telegramEnabled ;;
    if notifyOnLowDisk config && enabled
    then notifyLowDisk (name host)
    else ret tt
  else ret tt.

Definition checkDiskSpace : M World unit :=
  try_catch
    (hs <- getHosts ;;
     for_each hs disk_body)
    (fun error =>
       write_log "MonitorWorker" Error "Failed to check disk space").

(** [logStatistics]: one debug line with the node statistics, whose
    figures are left out. *)
Definition logStatistics : M World unit :=
  try_catch
    (write_log "MonitorWorker" Debug "System statistics")
    (fun error =>
       write_log "MonitorWorker" Error "Failed to log statistics").

Definition runCheck (t t_mark : Z) : M World unit :=
  try_catch
    (write_log "MonitorWorker" Debug "Running monitoring check" ;;
     checkHostHeartbeats t t_mark ;;
     checkDiskSpace ;;
     logStatistics)
    (fun error =>
       write_log "MonitorWorker" Error "Monitoring check failed").

(** Sweeps run one after another, each at its two clock readings, on
    the world the one before left: nothing else writes the table in
    between. *)
Definition sweeps (times : list (Z * Z)) (w : World) : World :=
  fold_left (fun w' s => snd (runCheck (fst s) (snd s) w')) times w.

End Worker.

(** *** What a sweep emits, host by host

    The functions below say, without the monad, which events each
    check produces; Part II proves that the checks produce them. *)

Definition add_events (es : list Event) (w : World) : World :=
  {| hosts := hosts w; telegramEnabled := telegramEnabled w;
     trace := (trace w ++ es)%list |}.

Definition log_event (name : string) (lvl : Level) (msg : string) : Event :=
  Logged {| logger := name; level := lvl; message := msg |}.

(** The host is not stored as offline and its heartbeat, 0 when
    absent, is older than the timeout at time [t]. *)
Definition stale (config : MonitorConfig) (t : Z) (h : Host) : bool :=
  negb (String.eqb (status h) "offline")
  && (t - or_int (lastHeartbeat h) 0 >? hostHeartbeatTimeout config).

(** The heartbeat of the host is a time [Date] cannot represent: its
    offline notification raises. *)
Definition notice_fails (h : Host) : bool :=
  let lh := or_int (lastHeartbeat h) 0 in
  truthy_int lh && negb (date_in_range (lh * 1000)).

(** The events of the heartbeat loop and whether it ended by a
    failure. *)
Fixpoint heartbeat_scan (config : MonitorConfig) (t : Z) (enabled : bool)
         (hs : list Host) : list Event * bool :=
  match hs with
  | [] => ([], false)
  | h :: rest =>
      if stale config t h then
        let warn := log_event "MonitorWorker" Warn
                      ("Host offline detected: " ++ name h) in
        if notifyOnHostOffline config && enabled then
          if notice_fails h then ([warn], true)
          else let (es, failed) := heartbeat_scan config t enabled rest in
               (warn :: Notification "Host Offline" (name h) :: es, failed)
        else let (es, failed) := heartbeat_scan config t enabled rest in
             (warn :: es, failed)
      else heartbeat_scan config t enabled rest
  end.

(** The events of the disk check for one host. *)
Definition disk_events (config : MonitorConfig)
           (usageAtLeast : number -> number -> Z -> bool) (enabled : bool)
           (h : Host) : list Event :=
  if falsy (diskTotal h) || is_undefined (diskUsed h) then []
  else if usageAtLeast (to_number (diskUsed h)) (to_number (diskTotal h))
                       (diskThreshold config)
       then log_event "MonitorWorker" Warn ("Low disk space: " ++ name h)
            :: (if notifyOnLowDisk config && enabled
                then [Notification "Low Disk Space" (name h)]
                else [])
       else [].

(** The table after [markOfflineHosts] ran at [t]. *)
Definition marked (t timeoutSeconds : Z) (hs : list Host) : list Host :=
  map (fun h => if stale_in_store (t - timeoutSeconds) h then mark t h else h) hs.

(** The log line of [markOfflineHosts], written when it updated rows. *)
Definition mark_events (t timeoutSeconds : Z) (hs : list Host) : list Event :=
  let result := filter (stale_in_store (t - timeoutSeconds)) hs in
  if (0 <? List.length result)%nat
  then [log_event "HostService" Info
          ("Marked " ++ NilZero.string_of_uint (Nat.to_uint (List.length result))
           ++ " hosts as offline")]
  else [].

(** The events of [checkHostHeartbeats] and the table it leaves: when
    the loop fails, the failure is logged and nothing is marked. *)
Definition heartbeat_events (config : MonitorConfig) (t t_mark : Z)
           (enabled : bool) (hs : list Host) : list Event :=
  let (es, failed) := heartbeat_scan config t enabled hs in
  if failed
  then (es ++ [log_event "MonitorWorker" Error
                 "Failed to check host heartbeats"])%list
  else (es ++ mark_events t_mark (hostHeartbeatTimeout config) hs)%list.

Definition hosts_after (config : MonitorConfig) (t t_mark : Z)
           (enabled : bool) (hs : list Host) : list Host :=
  if snd (heartbeat_scan config t enabled hs) then hs
  else marked t_mark (hostHeartbeatTimeout config) hs.

Definition is_offline_notice (hostName : string) (e : Event) : bool :=
  match e with
  | Notification title n => String.eqb title "Host Offline" && String.eqb n hostName
  | Logged _ => false
  end.

Definition is_disk_notice (hostName : string) (e : Event) : bool :=
  match e with
  | Notification title n => String.eqb title "Low Disk Space" && String.eqb n hostName
  | Logged _ => false
  end.

(** The line the [catch] of [checkHostHeartbeats] logs. *)
Definition is_heartbeat_failure (e : Event) : bool :=
  match e with
  | Logged l => String.eqb (message l) "Failed to check host heartbeats"
  | Notification _ _ => false
  end.

(** *** Concrete inputs used in examples *)

(** The comparison evaluated over the rationals, for integer operands
    and a non-zero total. *)
Definition usageAtLeast_exact (used total : number) (threshold : Z) : bool :=
  match used, total with
  | Int u, Int t =>
      if 0 <? t then threshold * t <=? 100 * u
      else if t <? 0 then 100 * u <=? threshold * t
      else false
  | _, _ => false
  end.

Definition example_host (n st : string) (lh : opt Z) (total used : opt Z)
  : Host :=
  {| name := n; status := st; lastHeartbeat := lh; diskTotal := total;
     diskUsed := used; updatedAt := 0 |}.

Definition example_world (hs : list Host) : World :=
  {| hosts := hs; telegramEnabled := true; trace := [] |}.

(** *** The worker object: [start], [stop], [isActive] *)

(** [isRunning] and [intervalId] of a [MonitorWorker]. *)
Record Worker : Type := {
  isRunning : bool;
  intervalId : option nat
}.

(** The worker, the world it sweeps, and the interval timers that are
    set: identifier and period. *)
Record Process : Type := {
  world : World;
  worker : Worker;
  timers : list (nat * Z);
  nextTimer : nat
}.

Section Lifecycle.

Variable config : MonitorConfig.
Variable usageAtLeast : number -> number -> Z -> bool.

(** [start()]: the first sweep is started at once, then the interval is
    set.  [t] and [t_mark] are the times that sweep reads. *)
Definition start (t t_mark : Z) (p : Process) : Process :=
  if isRunning (worker p) then
    {| world := snd (write_log "MonitorWorker" Warn
                       "Monitor worker is already running" (world p));
       worker := worker p; timers := timers p; nextTimer := nextTimer p |}
  else
    let started := snd (write_log "MonitorWorker" Info
                          "Monitor worker started" (world p)) in
    {| world := snd (runCheck config usageAtLeast t t_mark started);
       worker := {| isRunning := true; intervalId := Some (nextTimer p) |};
       timers := (timers p ++ [(nextTimer p, checkInterval config)])%list;
       nextTimer := S (nextTimer p) |}.

(** [stop()]. *)
Definition stop (p : Process) : Process :=
  if negb (isRunning (worker p)) then p
  else
    {| world := snd (write_log "MonitorWorker" Info
                       "Monitor worker stopped" (world p));
       worker := {| isRunning := false; intervalId := None |};
       timers := match intervalId (worker p) with
                 | Some i => filter (fun tm => negb (Nat.eqb (fst tm) i)) (timers p)
                 | None => timers p
                 end;
       nextTimer := nextTimer p |}.

Definition isActive (p : Process) : bool := isRunning (worker p).

(** A call of the worker's interface. *)
Inductive Call : Type :=
| Start (t t_mark : Z)
| Stop.

Definition call (c : Call) (p : Process) : Process :=
  match c with
  | Start t t_mark => start t t_mark p
  | Stop => stop p
  end.

Definition calls (cs : list Call) (p : Process) : Process :=
  fold_left (fun q c => call c q) cs p.

End Lifecycle.

(** [new MonitorWorker()] in a process that has no timer yet. *)
Definition fresh_process (w : World) : Process :=
  {| world := w; worker := {| isRunning := false; intervalId := None |};
     timers := []; nextTimer := 0 |}.

End Monitor.

(** ** The host service: [src/modules/host/service.ts] *)

Module Hosts.
Import Js Eff.
Local Open Scope eff_scope.

(** A row of table [hosts].  [cpu_usage] is a real column: a finite
    double is a rational.  The other numeric columns are integers. *)
Record Host : Type := {
  id : Z;
  name : string;
  ip : string;
  ipv6 : option string;
  cpuCores : Z;
  cpuUsage : option QArith_base.Q;
  memoryTotal : Z;
  memoryUsed : option Z;
  diskTotal : Z;
  diskUsed : option Z;
  uploadTotal : Z;
  downloadTotal : Z;
  lastNetworkReset : option Z;
  region : option string;
  city : option string;
  isp : option string;
  status : string;
  uptime : option Z;
  lastHeartbeat : option Z;
  createdAt : Z;
  updatedAt : Z
}.

(** [HostInfo]; [None] is an absent property. *)
Record HostInfo : Type := {
  i_name : string;
  i_ip : string;
  i_ipv6 : option string;
  i_cpuCores : Z;
  i_cpuUsage : option QArith_base.Q;
  i_memoryTotal : Z;
  i_memoryUsed : option Z;
  i_diskTotal : Z;
  i_diskUsed : option Z;
  i_uploadTotal : option Z;
  i_downloadTotal : option Z;
  i_lastNetworkReset : option Z;
  i_region : option string;
  i_city : option string;
  i_isp : option string;
  i_status : option string;
  i_uptime : option Z;
  i_lastHeartbeat : option Z
}.

(** [HostUpdate]. *)
Record HostUpdate : Type := {
  u_cpuUsage : option QArith_base.Q;
  u_memoryUsed : option Z;
  u_diskUsed : option Z;
  u_uploadTotal : option Z;
  u_downloadTotal : option Z;
  u_status : option string;
  u_uptime : option Z;
  u_lastHeartbeat : option Z
}.

(** [HostHeartbeat]. *)
Record HostHeartbeat : Type := {
  hb_name : string;
  hb_cpuUsage : QArith_base.Q;
  hb_memoryUsed : Z;
  hb_diskUsed : Z;
  hb_uploadTotal : Z;
  hb_downloadTotal : Z;
  hb_uptime : Z;
  hb_timestamp : Z
}.

(** [HostStats]. *)
Record HostStats : Type := {
  totalHosts : Z;
  onlineHosts : Z;
  offlineHosts : Z;
  unknownHosts : Z;
  totalTrafficUpload : Z;
  totalTrafficDownload : Z
}.

(** The table, the next value of its autoincrement key, and the log. *)
Record Db : Type := {
  table : list Host;
  nextId : Z;
  log : list LogEntry
}.

Definition write_log (lvl : Level) (msg : string) : M Db unit :=
  modify (fun db =>
    {| table := table db; nextId := nextId db;
       log := (log db ++ [ {| logger := "HostService"; level := lvl;
                              message := msg |} ])%list |}).

(** [x || null] for optional texts and numbers, [x || d] for numbers. *)
Definition text_or_null (x : option string) : option string :=
  match x with
  | Some s => if truthy_string s then Some s else None
  | None => None
  end.

Definition int_or_null (x : option Z) : option Z :=
  match x with
  | Some z => if truthy_int z then Some z else None
  | None => None
  end.

Definition real_or_null (x : option QArith_base.Q) : option QArith_base.Q :=
  match x with
  | Some q => if truthy_int (QArith_base.Qnum q) then Some q else None
  | None => None
  end.

Definition int_or (x : option Z) (d : Z) : Z :=
  match x with
  | Some z => if truthy_int z then z else d
  | None => d
  end.

(** [result[0] || null] of a select with [limit(1)]. *)
Definition getHostById (i : Z) : M Db (option Host) :=
  try_catch
    (gets (fun db => hd_error (filter (fun h => id h =? i) (table db))))
    (fun error =>
       write_log Error ("Failed to get host by id " ++ String_ (Int i)) ;;
       throw error).

Definition getHostByName (n : string) : M Db (option Host) :=
  try_catch
    (gets (fun db => hd_error (filter (fun h => String.eqb (name h) n) (table db))))
    (fun error =>
       write_log Error ("Failed to get host by name " ++ n) ;;
       throw error).

(** [db.insert(hosts).values(newHost).returning()]: the key is assigned
    and [name] is unique. *)
Definition insert_host (make : Z -> Host) : M Db Host :=
  fun db =>
    let created := make (nextId db) in
    if existsb (fun h => String.eqb (name h) (name created)) (table db)
    then (Throw "UNIQUE constraint failed: hosts.name", db)
    else (Return created,
          {| table := (table db ++ [created])%list;
             nextId := nextId db + 1;
             log := log db |}).

Definition createHost (hostInfo : HostInfo) (now : Z) : M Db Host :=
  try_catch
    (existing <- getHostByName (i_name hostInfo) ;;
     match existing with
     | Some _ =>
         throw ("Host with name '" ++ i_name hostInfo ++ "' already exists")
     | None =>
         created <- insert_host (fun key =>
           {| id := key;
              name := i_name hostInfo;
              ip := i_ip hostInfo;
              ipv6 := text_or_null (i_ipv6 hostInfo);
              cpuCores := i_cpuCores hostInfo;
              cpuUsage := real_or_null (i_cpuUsage hostInfo);
              memoryTotal := i_memoryTotal hostInfo;
              memoryUsed := int_or_null (i_memoryUsed hostInfo);
              diskTotal := i_diskTotal hostInfo;
              diskUsed := int_or_null (i_diskUsed hostInfo);
              uploadTotal := int_or (i_uploadTotal hostInfo) 0;
              downloadTotal := int_or (i_downloadTotal hostInfo) 0;
              lastNetworkReset := Some (int_or (i_lastNetworkReset hostInfo) now);
              region := text_or_null (i_region hostInfo);
              city := text_or_null (i_city hostInfo);
              isp := text_or_null (i_isp hostInfo);
              status := or_string (i_status hostInfo) "unknown";
              uptime := int_or_null (i_uptime hostInfo);
              lastHeartbeat := Some (int_or (i_lastHeartbeat hostInfo) now);
              createdAt := now;
              updatedAt := now |}) ;;
         write_log Info
           ("Created new host: " ++ name created ++ " (ID: "
            ++ String_ (Int (id created)) ++ ")") ;;
         ret created
     end)
    (fun error => write_log Error "Failed to create host" ;; throw error).

(** [{ ...update, updatedAt: now }] applied to a row. *)
Definition apply_update (update : HostUpdate) (now : Z) (h : Host) : Host :=
  {| id := id h; name := name h; ip := ip h; ipv6 := ipv6 h;
     cpuCores := cpuCores h;
     cpuUsage := match u_cpuUsage update with
                 | Some q => Some q | None => cpuUsage h end;
     memoryTotal := memoryTotal h;
     memoryUsed := match u_memoryUsed update with
                   | Some z => Some z | None => memoryUsed h end;
     diskTotal := diskTotal h;
     diskUsed := match u_diskUsed update with
                 | Some z => Some z | None => diskUsed h end;
     uploadTotal := match u_uploadTotal update with
                    | Some z => z | None => uploadTotal h end;
     downloadTotal := match u_downloadTotal update with
                      | Some z => z | None => downloadTotal h end;
     lastNetworkReset := lastNetworkReset h;
     region := region h; city := city h; isp := isp h;
     status := match u_status update with
               | Some s => s | None => status h end;
     uptime := match u_uptime update with
               | Some z => Some z | None => uptime h end;
     lastHeartbeat := match u_lastHeartbeat update with
                      | Some z => Some z | None => lastHeartbeat h end;
     createdAt := createdAt h;
     updatedAt := now |}.

(** [db.update(hosts).set(...).where(eq(hosts.id, i)).returning()]. *)
Definition update_where_id (i : Z) (f : Host -> Host) : M Db (list Host) :=
  fun db =>
    (Return (map f (filter (fun h => id h =? i) (table db))),
     {| table := map (fun h => if id h =? i then f h else h) (table db);
        nextId := nextId db;
        log := log db |}).

Definition updateHost (i : Z) (update : HostUpdate) (now : Z)
  : M Db (option Host) :=
  try_catch
    (existing <- getHostById i ;;
     match existing with
     | None => ret None
     | Some _ =>
         result <- update_where_id i (apply_update update now) ;;
         match result with
         | updated :: _ =>
             write_log Info
               ("Updated host: " ++ name updated ++ " (ID: "
                ++ String_ (Int (id updated)) ++ ")") ;;
             ret (Some updated)
         | [] => throw "TypeError: undefined is not an object"
         end
     end)
    (fun error =>
       write_log Error ("Failed to update host " ++ String_ (Int i)) ;;
       throw error).

(** The update [processHeartbeat] applies to a known host. *)
Definition heartbeat_update (heartbeat : HostHeartbeat) (now : Z) (h : Host)
  : Host :=
  {| id := id h; name := name h; ip := ip h; ipv6 := ipv6 h;
     cpuCores := cpuCores h;
     cpuUsage := Some (hb_cpuUsage heartbeat);
     memoryTotal := memoryTotal h;
     memoryUsed := Some (hb_memoryUsed heartbeat);
     diskTotal := diskTotal h;
     diskUsed := Some (hb_diskUsed heartbeat);
     uploadTotal := hb_uploadTotal heartbeat;
     downloadTotal := hb_downloadTotal heartbeat;
     lastNetworkReset := lastNetworkReset h;
     region := region h; city := city h; isp := isp h;
     status := "online";
     uptime := Some (hb_uptime heartbeat);
     lastHeartbeat := Some now;
     createdAt := createdAt h;
     updatedAt := now |}.

(** The [HostInfo] that [processHeartbeat] builds for an unknown host:
    [{ name, ip: '', cpuCores: 0, memoryTotal: 0, diskTotal: 0,
       status: 'online', ...heartbeat }]. *)
Definition info_of_heartbeat (heartbeat : HostHeartbeat) : HostInfo :=
  {| i_name := hb_name heartbeat;
     i_ip := EmptyString;
     i_ipv6 := None;
     i_cpuCores := 0;
     i_cpuUsage := Some (hb_cpuUsage heartbeat);
     i_memoryTotal := 0;
     i_memoryUsed := Some (hb_memoryUsed heartbeat);
     i_diskTotal := 0;
     i_diskUsed := Some (hb_diskUsed heartbeat);
     i_uploadTotal := Some (hb_uploadTotal heartbeat);
     i_downloadTotal := Some (hb_downloadTotal heartbeat);
     i_lastNetworkReset := None;
     i_region := None;
     i_city := None;
     i_isp := None;
     i_status := Some "online";
     i_uptime := Some (hb_uptime heartbeat);
     i_lastHeartbeat := None |}.

(** [processHeartbeat]; for a known host the answer is [result[0]] of
    the update. *)
Definition processHeartbeat (heartbeat : HostHeartbeat) (now : Z)
  : M Db (option Host) :=
  try_catch
    (host <- getHostByName (hb_name heartbeat) ;;
     match host with
     | None =>
         write_log Info
           ("Auto-creating new host from heartbeat: " ++ hb_name heartbeat) ;;
         created <- createHost (info_of_heartbeat heartbeat) now ;;
         ret (Some created)
     | Some h =>
         result <- update_where_id (id h) (heartbeat_update heartbeat now) ;;
         write_log Debug ("Processed heartbeat for host: " ++ name h) ;;
         ret (hd_error result)
     end)
    (fun error =>
       write_log Error
         ("Failed to process heartbeat for " ++ hb_name heartbeat) ;;
       throw error).

Section References.

(** [nodes.host_id] references [hosts.id] and foreign keys are enforced;
    the host service never writes the node table, so the keys that some
    node row references are a parameter here. *)
Variable referenced : Z -> bool.

(** [db.delete(hosts).where(eq(hosts.id, i)).returning()]: the statement
    raises, and deletes nothing, when a row it would delete is still
    referenced. *)
Definition delete_where_id (i : Z) : M Db (list Host) :=
  fun db =>
    let rows := filter (fun h => id h =? i) (table db) in
    if existsb (fun h => referenced (id h)) rows
    then (Throw "FOREIGN KEY constraint failed", db)
    else (Return rows,
          {| table := filter (fun h => negb (id h =? i)) (table db);
             nextId := nextId db;
             log := log db |}).

Definition deleteHost (i : Z) : M Db bool :=
  try_catch
    (result <- delete_where_id i ;;
     match result with
     | deleted :: _ =>
         write_log Info
           ("Deleted host: " ++ name deleted ++ " (ID: "
            ++ String_ (Int (id deleted)) ++ ")") ;;
         ret true
     | [] => ret false
     end)
    (fun error =>
       write_log Error ("Failed to delete host " ++ String_ (Int i)) ;;
       throw error).

End References.

(** [getAllHosts] orders the rows by [createdAt], newest first; the
    order among rows created in the same second is the store's.  The
    listing is taken here in table order. *)
Definition getAllHosts : M Db (list Host) :=
  try_catch
    (gets table)
    (fun error => write_log Error "Failed to get all hosts" ;; throw error).

(** Sums of integers are exact in a double up to this bound, 2^53. *)
Definition two_53 : Z := 9007199254740992.

Section Arithmetic.

(** [a + b], [a += b] and [a++] on numbers, as IEEE-754 doubles compute
    them for integer-valued operands.  Floating point is not modelled:
    the addition is a parameter of the statistics. *)
Variable plus : Z -> Z -> Z.

(** The loop of [getHostStats] over the rows [getAllHosts] returned. *)
Definition count_host (stats : HostStats) (host : Host) : HostStats :=
  let counted :=
    if String.eqb (status host) "online" then
      {| totalHosts := totalHosts stats;
         onlineHosts := plus (onlineHosts stats) 1;
         offlineHosts := offlineHosts stats;
         unknownHosts := unknownHosts stats;
         totalTrafficUpload := totalTrafficUpload stats;
         totalTrafficDownload := totalTrafficDownload stats |}
    else if String.eqb (status host) "offline" then
      {| totalHosts := totalHosts stats;
         onlineHosts := onlineHosts stats;
         offlineHosts := plus (offlineHosts stats) 1;
         unknownHosts := unknownHosts stats;
         totalTrafficUpload := totalTrafficUpload stats;
         totalTrafficDownload := totalTrafficDownload stats |}
    else
      {| totalHosts := totalHosts stats;
         onlineHosts := onlineHosts stats;
         offlineHosts := offlineHosts stats;
         unknownHosts := plus (unknownHosts stats) 1;
         totalTrafficUpload := totalTrafficUpload stats;
         totalTrafficDownload := totalTrafficDownload stats |} in
  {| totalHosts := totalHosts counted;
     onlineHosts := onlineHosts counted;
     offlineHosts := offlineHosts counted;
     unknownHosts := unknownHosts counted;
     totalTrafficUpload :=
       plus (totalTrafficUpload counted) (int_or (Some (uploadTotal host)) 0);
     totalTrafficDownload :=
       plus (totalTrafficDownload counted)
            (int_or (Some (downloadTotal host)) 0) |}.

Definition stats_of (allHosts : list Host) : HostStats :=
  fold_left count_host allHosts
    {| totalHosts := Z.of_nat (List.length allHosts);
       onlineHosts := 0; offlineHosts := 0; unknownHosts := 0;
       totalTrafficUpload := 0; totalTrafficDownload := 0 |}.

Definition getHostStats : M Db HostStats :=
  try_catch
    (allHosts <- getAllHosts ;; ret (stats_of allHosts))
    (fun error => write_log Error "Failed to get host stats" ;; throw error).

End Arithmetic.

(** The addition is exact on non-negative integers whose sum is at most
    2^53, as the addition of doubles is. *)
Definition exact_below_two_53 (plus : Z -> Z -> Z) : Prop :=
  forall a b, 0 <= a -> 0 <= b -> a + b <= two_53 -> plus a b = a + b.

(** The rows are few enough to be counted, and their traffic columns
    are non-negative with sums that a double holds exactly. *)
Definition countable (rows : list Host) : Prop :=
  Z.of_nat (List.length rows) <= two_53
  /\ Forall (fun h => 0 <= uploadTotal h /\ 0 <= downloadTotal h) rows
  /\ fold_right Z.add 0 (map uploadTotal rows) <= two_53
  /\ fold_right Z.add 0 (map downloadTotal rows) <= two_53.

(** *** The store as the monitor reads it *)

Definition nullable (x : option Z) : opt Z :=
  match x with
  | Some z => Val z
  | None => Null
  end.

Definition monitor_row (h : Host) : Monitor.Host :=
  {| Monitor.name := name h;
     Monitor.status := status h;
     Monitor.lastHeartbeat := nullable (lastHeartbeat h);
     Monitor.diskTotal := Val (diskTotal h);
     Monitor.diskUsed := nullable (diskUsed h);
     Monitor.updatedAt := updatedAt h |}.

(** Keys and names are unique and the keys were all handed out. *)
Definition consistent (db : Db) : Prop :=
  NoDup (map name (table db))
  /\ NoDup (map id (table db))
  /\ Forall (fun h => id h < nextId db) (table db).

(** *** Concrete inputs used in examples *)

Definition example_heartbeat (n : string) (used : Z) : HostHeartbeat :=
  {| hb_name := n; hb_cpuUsage := QArith_base.Qmake 25 2;
     hb_memoryUsed := 1024; hb_diskUsed := used; hb_uploadTotal := 10;
     hb_downloadTotal := 20; hb_uptime := 3600; hb_timestamp := 0 |}.

Definition empty_db : Db := {| table := []; nextId := 1; log := [] |}.

End Hosts.

(** ** Templates on disk and generated configurations:
       [src/modules/config/service.ts] *)

Module Config.
Import Js Eff.
Local Open Scope eff_scope.

Inductive ConfigType : Type := xray | nginx.

Definition type_name (configType : ConfigType) : string :=
  match configType with
  | xray => "xray"
  | nginx => "nginx"
  end.

(** [configType === 'xray' ? 'json' : 'conf']. *)
Definition extension (configType : ConfigType) : string :=
  match configType with
  | xray => "json"
  | nginx => "conf"
  end.

(** [configType === 'xray' ? '.json' : '.conf']. *)
Definition suffix (configType : ConfigType) : string :=
  match configType with
  | xray => ".json"
  | nginx => ".conf"
  end.

(** [s.endsWith(suf)]. *)
Definition endsWith (suf s : string) : bool :=
  (String.length suf <=? String.length s)%nat
  && String.eqb suf (substring (String.length s - String.length suf)
                               (String.length suf) s).

Fixpoint drop (n : nat) (s : string) : string :=
  match n, s with
  | S k, String _ s' => drop k s'
  | _, _ => s
  end.

(** [s.replace(pattern, v)] for a string pattern: the first occurrence
    only. *)
Fixpoint replace_first (pattern v s : string) : string :=
  if String.prefix pattern s then v ++ drop (String.length pattern) s
  else match s with
       | EmptyString => EmptyString
       | String c s' => String c (replace_first pattern v s')
       end.

(** The module's [templateCache], a [Map] from cache key to content. *)
Definition Cache : Type := list (string * string).

Definition cache_get (k : string) (cache : Cache) : option string :=
  match find (fun e => String.eqb (fst e) k) cache with
  | Some e => Some (snd e)
  | None => None
  end.

Definition cache_set (k v : string) (cache : Cache) : Cache :=
  if existsb (fun e => String.eqb (fst e) k) cache
  then map (fun e => if String.eqb (fst e) k then (k, v) else e) cache
  else (cache ++ [(k, v)])%list.

(** What the service reads and keeps: the files and directories of the
    disk by resolved path, the template cache, and the tables.  The
    logger's output is not part of this state. *)
Record World : Type := {
  files : string -> option string;
  directories : string -> option (list string);
  templateCache : Cache;
  store : Template.Store
}.

Definition with_cache (f : Cache -> Cache) (w : World) : World :=
  {| files := files w; directories := directories w;
     templateCache := f (templateCache w); store := store w |}.

Definition with_files (fs : string -> option string) (w : World) : World :=
  {| files := fs; directories := directories w;
     templateCache := templateCache w; store := store w |}.

(** [fs.readFile(path, 'utf-8')]. *)
Definition readFile (path : string) : M World string :=
  fun w =>
    match files w path with
    | Some content => (Return content, w)
    | None => (Throw "ENOENT: no such file or directory", w)
    end.

(** [fs.readdir(path)]. *)
Definition readdir (path : string) : M World (list string) :=
  fun w =>
    match directories w path with
    | Some names => (Return names, w)
    | None => (Throw "ENOENT: no such file or directory", w)
    end.

Record ConfigRequest : Type := {
  nodeId : Z;
  configType : ConfigType;
  template : option string
}.

Record ConfigTemplate : Type := {
  name : string;
  type : ConfigType;
  content : string;
  variables : list string
}.

(** *** The scan of [getTemplate]: [/\{\{([A-Z_]+)\}\}/g]

    [A-Z_] as a character class; the longest run of such characters;
    a match at the start of [s], as the captured name and the length of the
    match (the run is greedy, and giving characters back cannot help: what
    follows a shorter run is a character of the class, not a closing
    brace); and the [exec] loop, which resumes after each match. *)
Definition name_char (c : ascii) : bool :=
  ((65 <=? nat_of_ascii c) && (nat_of_ascii c <=? 90))%nat
  || Ascii.eqb c "_".

Fixpoint name_run (s : string) : string * string :=
  match s with
  | String c s' =>
      if name_char c
      then let (run, rest) := name_run s' in (String c run, rest)
      else (EmptyString, s)
  | EmptyString => (EmptyString, EmptyString)
  end.

Definition match_at (s : string) : option (string * nat) :=
  if String.prefix "{{" s
  then let (run, rest) := name_run (drop 2 s) in
       if truthy_string run && String.prefix "}}" rest
       then Some (run, (4 + String.length run)%nat)
       else None
  else None.

Fixpoint scan (skip : nat) (s : string) : list string :=
  match s with
  | EmptyString => []
  | String _ s' =>
      match skip with
      | S k => scan k s'
      | O =>
          match match_at s with
          | Some (captured, len) => captured :: scan (len - 1) s'
          | None => scan 0 s'
          end
      end
  end.

(** [variables.add(...)] for each match and [Array.from(variables)]: a
    [Set] keeps the first insertion of each value. *)
Definition set_add (x : string) (set : list string) : list string :=
  if existsb (String.eqb x) set then set else (set ++ [x])%list.

Definition variables_of (content : string) : list string :=
  fold_left (fun set x => set_add x set) (scan 0 content) [].

Section Disk.

(** [process.cwd()], [path.resolve] and [parseInt(p.trim())] are
    parameters. *)
Variable cwd : string.
Variable resolve : list string -> string.
Variable parsePort : string -> number.

Definition templateDir (configType : ConfigType) : string :=
  resolve [cwd; "templates"; type_name configType].

Definition templatePath (configType : ConfigType) (templateNameSafe : string)
  : string :=
  resolve [templateDir configType;
           templateNameSafe ++ "." ++ extension configType].

Definition cacheKey (configType : ConfigType) (templateNameSafe : string)
  : string :=
  type_name configType ++ ":" ++ templateNameSafe.

Definition loadTemplate (configType : ConfigType) (templateName : option string)
  : M World string :=
  let templateNameSafe := or_string templateName "default" in
  cached <- gets (fun w => cache_get (cacheKey configType templateNameSafe)
                                     (templateCache w)) ;;
  match cached with
  | Some content => ret content
  | None =>
      try_catch
        (content <- readFile (templatePath configType templateNameSafe) ;;
         modify (with_cache
                   (cache_set (cacheKey configType templateNameSafe) content)) ;;
         ret content)
        (fun _ =>
           throw ("Template not found: " ++ type_name configType ++ "/"
                  ++ templateNameSafe))
  end.

Definition reloadTemplates : M World unit :=
  modify (with_cache (fun _ => [])).

Definition generateConfig (request : ConfigRequest) : M World string :=
  try_catch
    (template <- loadTemplate (configType request) (template request) ;;
     context <- (fun w => (Template.getNodeContext parsePort (store w)
                             (nodeId request), w)) ;;
     ret (Template.replaceVariables template context))
    (fun error => throw error).

Definition contentType (configType : ConfigType) : string :=
  match configType with
  | xray => "application/json"
  | nginx => "text/plain"
  end.

Definition getNodeConfig (nodeId : Z) (configType : ConfigType)
           (template : option string) : M World (string * string) :=
  try_catch
    (config <- generateConfig {| nodeId := nodeId; configType := configType;
                                 template := template |} ;;
     ret (config, contentType configType))
    (fun error => throw error).

Definition listTemplates (configType : ConfigType) : M World (list string) :=
  try_catch
    (names <- readdir (templateDir configType) ;;
     ret (map (fun f => replace_first (suffix configType) EmptyString f)
              (filter (fun f => endsWith (suffix configType) f) names)))
    (fun _ => ret []).

Definition getTemplate (configType : ConfigType) (templateName : string)
  : M World ConfigTemplate :=
  try_catch
    (content <- loadTemplate configType (Some templateName) ;;
     ret {| name := templateName; type := configType; content := content;
            variables := variables_of content |})
    (fun error => throw error).

End Disk.

(** The name between the braces of a known placeholder. *)
Definition key_name (k : Template.key) : string :=
  match k with
  | Template.NODE_ID => "NODE_ID"
  | Template.NODE_NAME => "NODE_NAME"
  | Template.DOMAIN => "DOMAIN"
  | Template.PORT => "PORT"
  | Template.PROXY_TYPE => "PROXY_TYPE"
  | Template.HOST_IP => "HOST_IP"
  | Template.HOST_IPV6 => "HOST_IPV6"
  | Template.HOST_REGION => "HOST_REGION"
  | Template.ADDITIONAL_PORTS => "ADDITIONAL_PORTS"
  end.

(** The placeholders of a template given as segments, in order. *)
Fixpoint keys_of (segs : list Template.segment) : list Template.key :=
  match segs with
  | [] => []
  | Template.Lit _ :: rest => keys_of rest
  | Template.Var k :: rest => k :: keys_of rest
  end.

(** *** Concrete inputs used in examples *)

Definition example_resolve (parts : list string) : string := join "/" parts.

Definition example_files (path : string) : option string :=
  if String.eqb path "/app/templates/nginx/default.conf"
  then Some "listen {{PORT}};"
  else None.

Definition example_directories (path : string) : option (list string) :=
  if String.eqb path "/app/templates/nginx"
  then Some ["default.conf"; "README.md"; "edge.conf.d.conf"]
  else None.

Definition example_store : Template.Store :=
  {| Template.nodes :=
       [ {| Template.node_id := 1; Template.node_name := "node-1";
            Template.node_hostId := None;
            Template.node_domain := Some "a.example.com";
            Template.node_port := 443;
            Template.node_additionalPorts := None;
            Template.node_proxyType := "vless" |} ];
     Template.hosts := [] |}.

Definition example_world : World :=
  {| files := example_files; directories := example_directories;
     templateCache := []; store := example_store |}.

End Config.

(** ** Nodes and their hosts: [src/modules/node/service.ts] *)

Module Nodes.
Import Js Eff Template.
Local Open Scope eff_scope.

(** [NodeUpdate], for the columns of [NodeRow]; an absent property
    leaves its column as it is. *)
Record NodeUpdate : Type := {
  u_name : option string;
  u_hostId : option Z;
  u_domain : option string;
  u_port : option Z;
  u_additionalPorts : option string;
  u_proxyType : option string
}.

Definition keep {A : Type} (new : option A) (old : A) : A :=
  match new with
  | Some a => a
  | None => old
  end.

Definition set_column {A : Type} (new : option A) (old : option A) : option A :=
  match new with
  | Some a => Some a
  | None => old
  end.

Definition apply_update (update : NodeUpdate) (n : NodeRow) : NodeRow :=
  {| node_id := node_id n;
     node_name := keep (u_name update) (node_name n);
     node_hostId := set_column (u_hostId update) (node_hostId n);
     node_domain := set_column (u_domain update) (node_domain n);
     node_port := keep (u_port update) (node_port n);
     node_additionalPorts :=
       set_column (u_additionalPorts update) (node_additionalPorts n);
     node_proxyType := keep (u_proxyType update) (node_proxyType n) |}.

(** [result[0] || null] of a select with [limit(1)].  The state is the
    two tables; the logger's output is not part of it. *)
Definition getNodeById (i : Z) : M Store (option NodeRow) :=
  try_catch
    (gets (fun st => hd_error (filter (fun n => node_id n =? i) (nodes st))))
    (fun error => throw error).

(** [db.update(nodes).set({...update, updatedAt}).where(eq(nodes.id,
    i)).returning()]: [host_id] references [hosts.id]. *)
Definition update_where_id (i : Z) (update : NodeUpdate)
  : M Store (list NodeRow) :=
  fun st =>
    let known :=
      match u_hostId update with
      | Some hid => existsb (fun h => host_id h =? hid) (hosts st)
      | None => true
      end in
    if negb known
       && existsb (fun n => node_id n =? i) (nodes st)
    then (Throw "FOREIGN KEY constraint failed", st)
    else
      (Return (map (apply_update update)
                   (filter (fun n => node_id n =? i) (nodes st))),
       {| nodes := map (fun n => if node_id n =? i
                                 then apply_update update n else n)
                       (nodes st);
          hosts := hosts st |}).

Definition updateNode (i : Z) (update : NodeUpdate) : M Store (option NodeRow) :=
  try_catch
    (existing <- getNodeById i ;;
     match existing with
     | None => ret None
     | Some _ =>
         result <- update_where_id i update ;;
         match result with
         | updated :: _ => ret (Some updated)
         | [] => throw "TypeError: undefined is not an object"
         end
     end)
    (fun error => throw error).

Definition linkNodeToHost (nodeId hostId : Z) : M Store NodeRow :=
  try_catch
    (host <- gets (fun st => firstn 1 (filter (fun h => host_id h =? hostId)
                                             (hosts st))) ;;
     match host with
     | [] => throw ("Host with ID " ++ String_ (Int hostId) ++ " not found")
     | _ :: _ =>
         node <- updateNode nodeId
                   {| u_name := None; u_hostId := Some hostId;
                      u_domain := None; u_port := None;
                      u_additionalPorts := None; u_proxyType := None |} ;;
         match node with
         | None =>
             throw ("Node with ID " ++ String_ (Int nodeId) ++ " not found")
         | Some n => ret n
         end
     end)
    (fun error => throw error).

(** *** Concrete inputs used in examples *)

Definition example_store : Store :=
  {| nodes :=
       [ {| node_id := 1; node_name := "node-1"; node_hostId := None;
            node_domain := Some "a.example.com"; node_port := 443;
            node_additionalPorts := None; node_proxyType := "vless" |} ];
     hosts :=
       [ {| host_id := 5; host_ip_column := "203.0.113.5";
            host_ipv6_column := None; host_region_column := Some "US" |} ] |}.

End Nodes.

(* ================================================================== *)
(** * Part II.  Properties                                              *)
(* ================================================================== *)

(** ** Strings: [split], [join] and brace-safe text *)

Section SplitJoin.
Import Js.

Lemma append_assoc (a b c : string) : (a ++ b) ++ c = a ++ (b ++ c).
Proof. induction a as [|x a IH]; simpl; [reflexivity | now rewrite IH]. Qed.

Lemma append_empty_r (a : string) : a ++ EmptyString = a.
Proof. induction a as [|x a IH]; simpl; [reflexivity | now rewrite IH]. Qed.

Lemma prefix_append (k rest : string) : String.prefix k (k ++ rest) = true.
Proof.
  induction k as [|c k IH]; simpl.
  - now destruct rest.
  - destruct (ascii_dec c c) as [_|n]; [exact IH | now elim n].
Qed.

Lemma split_from_skip (sep a rest : string) :
  split_from sep (String.length a) (a ++ rest) = split_from sep 0 rest.
Proof. induction a as [|c a IH]; simpl; [reflexivity | exact IH]. Qed.

Lemma join_cons_append (v a p : string) (ps : list string) :
  join v ((a ++ p) :: ps) = a ++ join v (p :: ps).
Proof.
  unfold join. destruct ps as [|q qs]; simpl; [reflexivity|].
  now rewrite append_assoc.
Qed.

Lemma replace_all_empty (k v : string) : replace_all k v EmptyString = EmptyString.
Proof. reflexivity. Qed.

(** At an occurrence of the key the value is written and the scan
    resumes after the occurrence. *)
Lemma replace_all_at_key (c : ascii) (k v rest : string) :
  replace_all (String c k) v (String c k ++ rest)
  = v ++ replace_all (String c k) v rest.
Proof.
  unfold replace_all, split.
  change (String c k ++ rest) with (String c (k ++ rest)).
  cbn [split_from].
  change (String c (k ++ rest)) with (String c k ++ rest).
  rewrite prefix_append.
  cbn [String.length]. rewrite Nat.sub_succ, Nat.sub_0_r, split_from_skip.
  destruct (split_from (String c k) 0 rest) as [p ps].
  unfold join. simpl. reflexivity.
Qed.

Lemma prefix_open_false (c : ascii) (l k rest : string) :
  Template.brace_safe (String c l) = true ->
  String.prefix (String "{" (String "{" k)) (String c (l ++ rest)) = false.
Proof.
  cbn [Template.brace_safe String.prefix]. intros H.
  apply andb_true_iff in H as [H _].
  destruct (ascii_dec "{" c) as [<-|_]; [|reflexivity].
  rewrite Ascii.eqb_refl in H.
  destruct l as [|c' l]; [discriminate|]. cbn [append String.prefix].
  destruct (ascii_dec "{" c') as [<-|_]; [|reflexivity].
  now rewrite Ascii.eqb_refl in H.
Qed.

(** Brace-safe text holds no occurrence of a key that opens with [{{]:
    the scan copies it. *)
Lemma split_from_literal (l k rest : string) :
  Template.brace_safe l = true ->
  split_from (String "{" (String "{" k)) 0 (l ++ rest)
  = (let (p, ps) := split_from (String "{" (String "{" k)) 0 rest in
     (l ++ p, ps)).
Proof.
  induction l as [|c l IH]; intros H.
  - simpl. now destruct (split_from _ 0 rest).
  - change (String c l ++ rest) with (String c (l ++ rest)).
    cbn [split_from]. rewrite (prefix_open_false _ _ _ _ H).
    rewrite IH.
    + now destruct (split_from _ 0 rest).
    + cbn [Template.brace_safe] in H. now apply andb_true_iff in H.
Qed.

Lemma replace_all_literal (l k v rest : string) :
  Template.brace_safe l = true ->
  replace_all (String "{" (String "{" k)) v (l ++ rest)
  = l ++ replace_all (String "{" (String "{" k)) v rest.
Proof.
  intros H. unfold replace_all, split. rewrite (split_from_literal _ _ _ H).
  destruct (split_from _ 0 rest) as [p ps]. apply join_cons_append.
Qed.

(** The placeholder of another key is copied too: no key occurs inside
    another key's placeholder. *)
Lemma split_from_other_token (k k' : Template.key) (rest : string) :
  Template.key_eqb k k' = false ->
  split_from (Template.token k) 0 (Template.token k' ++ rest)
  = (let (p, ps) := split_from (Template.token k) 0 rest in
     (Template.token k' ++ p, ps)).
Proof.
  intros H.
  destruct k, k'; try discriminate H; simpl;
    destruct (split_from _ 0 rest); reflexivity.
Qed.

Lemma replace_all_other_token (k k' : Template.key) (v rest : string) :
  Template.key_eqb k k' = false ->
  replace_all (Template.token k) v (Template.token k' ++ rest)
  = Template.token k' ++ replace_all (Template.token k) v rest.
Proof.
  intros H. unfold replace_all, split.
  rewrite (split_from_other_token _ _ _ H).
  destruct (split_from _ 0 rest) as [p ps]. apply join_cons_append.
Qed.

End SplitJoin.

(** ** Brace-safe text *)

Section BraceSafe.
Import Js Template.

Lemma brace_free_safe (s : string) : brace_free s = true -> brace_safe s = true.
Proof.
  induction s as [|c s IH]; [reflexivity|].
  cbn [brace_free brace_safe]. intros H.
  apply andb_true_iff in H as [Hc Hs].
  apply negb_true_iff in Hc. rewrite Hc. now apply IH.
Qed.

Lemma brace_free_append (a b : string) :
  brace_free a = true -> brace_free b = true -> brace_free (a ++ b) = true.
Proof.
  induction a as [|c a IH]; intros Ha Hb; [exact Hb|].
  cbn [append brace_free] in *.
  apply andb_true_iff in Ha as [Hc Ha]. now rewrite Hc, IH.
Qed.

Lemma brace_safe_append (a b : string) :
  brace_safe a = true -> brace_safe b = true -> brace_safe (a ++ b) = true.
Proof.
  induction a as [|c a IH]; intros Ha Hb; [exact Hb|].
  cbn [append brace_safe] in *.
  apply andb_true_iff in Ha as [Hc Ha]. rewrite (IH Ha Hb), andb_true_r.
  destruct (Ascii.eqb c "{"); [|reflexivity].
  destruct a as [|c' a]; [discriminate | exact Hc].
Qed.

Lemma brace_free_uint (d : Decimal.uint) :
  brace_free (NilEmpty.string_of_uint d) = true.
Proof. induction d; simpl; auto. Qed.

Lemma brace_free_String (n : number) : brace_free (String_ n) = true.
Proof.
  destruct n as [z|]; [|reflexivity].
  unfold String_, NilZero.string_of_int, NilZero.string_of_uint.
  destruct (Z.to_int z) as [d|d]; destruct d;
    try reflexivity; try apply (brace_free_uint (_ d));
    cbn [brace_free]; try apply (brace_free_uint (_ d)).
Qed.

Lemma brace_free_join_numbers (ns : list number) :
  brace_free (join "," (map String_ ns)) = true.
Proof.
  unfold join. induction ns as [|n ns IH]; [reflexivity|].
  cbn [map String.concat]. destruct (map String_ ns) as [|x xs] eqn:E.
  - apply brace_free_String.
  - apply brace_free_append; [apply brace_free_String|].
    apply (brace_free_append ","); [reflexivity | exact IH].
Qed.

(** In a safe context every substituted value is brace-safe. *)
Lemma value_of_safe (context : NodeConfigContext) (k : key) :
  safe_context context = true -> brace_safe (value_of context k) = true.
Proof.
  unfold safe_context. intros H.
  repeat (apply andb_true_iff in H as [H ?]).
  destruct k; cbn [value_of]; auto using brace_free_safe, brace_free_String,
    brace_free_join_numbers.
Qed.

Lemma includes_open_false (k s : string) :
  brace_safe s = true -> includes (String "{" (String "{" k)) s = false.
Proof.
  induction s as [|c s IH]; intros H; [reflexivity|].
  cbn [includes]. rewrite IH.
  - rewrite orb_false_r. rewrite <- (append_empty_r s) at 1.
    apply prefix_open_false. exact H.
  - cbn [brace_safe] in H. now apply andb_true_iff in H.
Qed.

Lemma token_opens (k : key) : exists k', token k = String "{" (String "{" k').
Proof. destruct k; eexists; reflexivity. Qed.

Lemma key_eqb_eq (a b : key) : key_eqb a b = true <-> a = b.
Proof. destruct a, b; simpl; split; congruence. Qed.

Lemma key_eqb_refl (a : key) : key_eqb a a = true.
Proof. now apply key_eqb_eq. Qed.

Lemma key_eqb_sym (a b : key) : key_eqb a b = key_eqb b a.
Proof. now destruct a, b. Qed.

End BraceSafe.

(** ** The renderer on templates cut into segments *)

Section Renderer.
Import Js Template.

(** One pass over a template with brace-safe literals replaces exactly
    the placeholders of its key. *)
Lemma replace_all_flat (k : key) (v : string) (segs : list segment) :
  forallb safe_segment segs = true ->
  replace_all (token k) v (flat segs) = flat (map (subst_key k v) segs).
Proof.
  induction segs as [|seg segs IH]; intros H.
  - now destruct k.
  - cbn [forallb] in H. apply andb_true_iff in H as [Hseg H].
    cbn [flat map]. rewrite <- (IH H).
    destruct seg as [l|k']; cbn [text subst_key].
    + destruct (token_opens k) as [k0 ->]. now apply replace_all_literal.
    + destruct (key_eqb k k') eqn:E; cbn [text].
      * apply key_eqb_eq in E as <-.
        destruct (token_opens k) as [k0 ->]. apply replace_all_at_key.
      * now apply replace_all_other_token.
Qed.

Lemma subst_key_safe (k : key) (v : string) (segs : list segment) :
  brace_safe v = true -> forallb safe_segment segs = true ->
  forallb safe_segment (map (subst_key k v) segs) = true.
Proof.
  intros Hv. induction segs as [|seg segs IH]; [reflexivity|].
  cbn [forallb map]. intros H. apply andb_true_iff in H as [Hseg H].
  rewrite (IH H), andb_true_r.
  destruct seg as [l|k']; cbn [subst_key]; [exact Hseg|].
  now destruct (key_eqb k k').
Qed.

Lemma resolve_keys_nil (context : NodeConfigContext) (segs : list segment) :
  map (resolve_keys context []) segs = segs.
Proof.
  induction segs as [|[l|k] segs IH]; cbn [map resolve_keys existsb];
    now rewrite ?IH.
Qed.

Lemma resolve_keys_cons (context : NodeConfigContext) (k : key)
      (ks : list key) (seg : segment) :
  resolve_keys context ks (subst_key k (value_of context k) seg)
  = resolve_keys context (k :: ks) seg.
Proof.
  destruct seg as [l|k']; [reflexivity|].
  cbn [subst_key resolve_keys existsb]. rewrite (key_eqb_sym k' k).
  destruct (key_eqb k k') eqn:E; [|reflexivity].
  apply key_eqb_eq in E as <-. reflexivity.
Qed.

(** The passes for any list of keys, in any order and with
    repetitions, resolve the placeholders of exactly those keys. *)
Lemma substitute_flat (context : NodeConfigContext) (ks : list key) :
  safe_context context = true ->
  forall segs, forallb safe_segment segs = true ->
  substitute (map (entry context) ks) (flat segs)
  = flat (map (resolve_keys context ks) segs).
Proof.
  intros Hc. induction ks as [|k ks IH]; intros segs H.
  - now rewrite resolve_keys_nil.
  - unfold substitute in *. cbn [map fold_left entry fst snd].
    rewrite (replace_all_flat _ _ _ H), IH.
    + rewrite map_map. f_equal. apply map_ext. intros seg.
      apply resolve_keys_cons.
    + apply subst_key_safe; [now apply value_of_safe | exact H].
Qed.

Lemma resolve_all_flat (context : NodeConfigContext) (ks : list key)
      (segs : list segment) :
  (forall k, In k ks) ->
  flat (map (resolve_keys context ks) segs) = simultaneous context segs.
Proof.
  intros Hall. induction segs as [|seg segs IH]; [reflexivity|].
  cbn [map flat simultaneous]. rewrite IH. f_equal.
  destruct seg as [l|k]; [reflexivity|]. cbn [resolve_keys resolve].
  replace (existsb (key_eqb k) ks) with true; [reflexivity|].
  symmetry. apply existsb_exists. exists k. split; [apply Hall|].
  apply key_eqb_refl.
Qed.

Lemma all_keys_complete (k : key) : In k all_keys.
Proof. destruct k; simpl; tauto. Qed.

Lemma replacements_entries (context : NodeConfigContext) :
  replacements context = map (entry context) all_keys.
Proof. reflexivity. Qed.

Lemma simultaneous_safe (context : NodeConfigContext) (segs : list segment) :
  safe_context context = true -> forallb safe_segment segs = true ->
  brace_safe (simultaneous context segs) = true.
Proof.
  intros Hc. induction segs as [|seg segs IH]; [reflexivity|].
  cbn [forallb simultaneous]. intros H. apply andb_true_iff in H as [Hseg H].
  apply brace_safe_append; [|now apply IH].
  destruct seg as [l|k]; [exact Hseg | now apply value_of_safe].
Qed.

(** Any processing order of the nine entries gives the simultaneous
    substitution on such a template. *)
Lemma substitute_any_order (context : NodeConfigContext)
      (entries : list (string * string)) (segs : list segment) :
  safe_context context = true -> forallb safe_segment segs = true ->
  Permutation entries (replacements context) ->
  substitute entries (flat segs) = simultaneous context segs.
Proof.
  intros Hc Hs Hp. rewrite replacements_entries in Hp.
  apply Permutation_map_inv in Hp as (ks & -> & Hks).
  rewrite (substitute_flat _ _ Hc _ Hs). apply resolve_all_flat.
  intros k. apply (Permutation_in _ Hks), all_keys_complete.
Qed.

End Renderer.

(** ** The renderer: claims *)

Section RendererClaims.
Import Js Template.

(** The scenario of the specification, on a template that uses the
    placeholders it names. *)
Example render_scenario :
  replaceVariables
    "server {{DOMAIN}}:{{PORT}} extra={{ADDITIONAL_PORTS}} ip=[{{HOST_IP}}]"
    scenario_context
  = "server a.example.com:443 extra=8443 ip=[]".
Proof. reflexivity. Qed.

(** A value written by an early pass is read again by the later ones,
    and the outcome depends on the order of the passes. *)
Example rescanned_value :
  let context :=
    {| id := Int 1; name := "{{DOMAIN}}"; domain := "{{NODE_NAME}}";
       port := Int 443; additionalPorts := []; proxyType := "vless";
       host := None |} in
  replaceVariables "{{NODE_NAME}}" context = "{{NODE_NAME}}"
  /\ substitute (rev (replacements context)) "{{NODE_NAME}}" = "{{DOMAIN}}".
Proof. split; reflexivity. Qed.

(** C7, as stated, fails: with no linked host the template
    [{{NODE_{{HOST_IP}}ID}}] renders to the literal placeholder
    [{{NODE_ID}}], a known key; and processing the entries in another
    order changes the output for a context whose values name
    placeholders. *)
Lemma C7_single_pass_counterexample :
  ~ (forall (template : string) (context : NodeConfigContext),
       (forall entries,
           Permutation entries (replacements context) ->
           substitute entries template = replaceVariables template context)
       /\ (forall k,
              includes (token k) (replaceVariables template context) = false)).
Proof.
  intros H.
  destruct (H "{{NODE_{{HOST_IP}}ID}}" scenario_context) as [_ H1].
  specialize (H1 NODE_ID). vm_compute in H1. discriminate H1.
Qed.

(** C7, amended: on a template made of known placeholders and
    brace-safe literal text, rendered for a context whose string fields
    are brace-safe, the loop computes the simultaneous substitution;
    every processing order of the nine entries gives that same output;
    and the output holds no placeholder of a known key. *)
Theorem C7_substitution_on_safe_templates
        (context : NodeConfigContext) (segs : list segment) :
  safe_context context = true ->
  forallb safe_segment segs = true ->
  replaceVariables (flat segs) context = simultaneous context segs
  /\ (forall entries,
         Permutation entries (replacements context) ->
         substitute entries (flat segs) = replaceVariables (flat segs) context)
  /\ (forall k,
         includes (token k) (replaceVariables (flat segs) context) = false).
Proof.
  intros Hc Hs.
  assert (E : replaceVariables (flat segs) context = simultaneous context segs)
    by (apply substitute_any_order; auto using Permutation_refl).
  split; [exact E|]. split.
  - intros entries Hp. rewrite E. now apply substitute_any_order.
  - intros k. rewrite E. destruct (token_opens k) as [k' ->].
    apply includes_open_false. now apply simultaneous_safe.
Qed.

Lemma C7_substitution_on_safe_templates_witness :
  let segs := [Lit "server { listen "; Var PORT; Lit "; server_name ";
               Var DOMAIN; Lit "; }"] in
  safe_context scenario_context = true
  /\ forallb safe_segment segs = true
  /\ replaceVariables (flat segs) scenario_context
     = simultaneous scenario_context segs
  /\ (forall entries,
         Permutation entries (replacements scenario_context) ->
         substitute entries (flat segs)
         = replaceVariables (flat segs) scenario_context)
  /\ (forall k,
         includes (token k) (replaceVariables (flat segs) scenario_context)
         = false).
Proof.
  split; [reflexivity|]. split; [reflexivity|].
  apply (C7_substitution_on_safe_templates scenario_context); reflexivity.
Defined.

(** A node without a host id, with a null one, or whose host row is
    gone gets a context without host; the node-derived fields come from
    the node row. *)
Lemma getNodeContext_unlinked (parsePort : string -> number)
      (store : Store) (nodeId : Z) (n : NodeRow) (others : list NodeRow) :
  filter (fun r => node_id r =? nodeId) (nodes store) = n :: others ->
  (node_hostId n = None \/ node_hostId n = Some 0
   \/ exists hid, node_hostId n = Some hid
                  /\ filter (fun h => host_id h =? hid) (hosts store) = []) ->
  exists context,
    getNodeContext parsePort store nodeId = Eff.Return context
    /\ host context = None
    /\ domain context = or_string (node_domain n) EmptyString
    /\ port context = Int (node_port n).
Proof.
  intros Hn Hh. unfold getNodeContext. rewrite Hn.
  eexists. split; [reflexivity|]. cbn [host domain port].
  split; [|split; reflexivity].
  destruct Hh as [-> | [-> | (hid & -> & ->)]]; try reflexivity.
  now destruct (truthy_int hid).
Qed.

Lemma simultaneous_unlinked (context : NodeConfigContext)
      (segs : list segment) :
  host context = None ->
  simultaneous context segs = render_unlinked context segs.
Proof.
  intros H. induction segs as [|[l|k] segs IH]; cbn [simultaneous
    render_unlinked resolve]; [reflexivity | now rewrite IH |].
  rewrite IH. f_equal.
  destruct k; cbn [value_of unlinked_value]; try reflexivity;
    unfold host_ip, host_ipv6, host_region; now rewrite H.
Qed.

(** C8, as stated, fails for the node placeholders: a value written by
    an early pass is read again by the later ones, so with no linked host
    and a node named [{{PORT}}] the placeholder [{{NODE_NAME}}] renders
    to the port, not to the name of the context. *)
Lemma C8_rescanned_node_value_counterexample :
  let context :=
    {| id := Int 1; name := "{{PORT}}"; domain := "a.example.com";
       port := Int 443; additionalPorts := [Int 8443]; proxyType := "vless";
       host := None |} in
  host context = None
  /\ replaceVariables "{{NODE_NAME}}" context = "443"
  /\ name context <> "443"
  /\ ~ (forall k, replaceVariables (token k) context = unlinked_value context k).
Proof.
  cbv zeta. split; [reflexivity|]. split; [reflexivity|].
  split; [discriminate|]. intros H. specialize (H NODE_NAME).
  vm_compute in H. discriminate H.
Qed.

(** C8, amended: in a context with no linked host the three host
    placeholders are given the empty string, never [null] or [undefined],
    and the node placeholders the values of the context, and a host
    placeholder renders to the empty text; and when the strings of the
    context are brace-safe, a template made of known placeholders and
    brace-safe text renders with every host placeholder replaced by the
    empty string and every node placeholder by its context value. *)
Theorem C8_no_host_substitutes_empty (context : NodeConfigContext) :
  host context = None ->
  replacements context
  = [ ("{{NODE_ID}}", String_ (id context));
      ("{{NODE_NAME}}", name context);
      ("{{DOMAIN}}", domain context);
      ("{{PORT}}", String_ (port context));
      ("{{PROXY_TYPE}}", proxyType context);
      ("{{HOST_IP}}", EmptyString);
      ("{{HOST_IPV6}}", EmptyString);
      ("{{HOST_REGION}}", EmptyString);
      ("{{ADDITIONAL_PORTS}}",
       join "," (map String_ (additionalPorts context))) ]
  /\ replaceVariables "{{HOST_IP}}" context = EmptyString
  /\ replaceVariables "{{HOST_IPV6}}" context = EmptyString
  /\ replaceVariables "{{HOST_REGION}}" context = EmptyString
  /\ (safe_context context = true ->
      forall segs,
        forallb safe_segment segs = true ->
        replaceVariables (flat segs) context = render_unlinked context segs).
Proof.
  intros H. split; [|split; [|split; [|split]]].
  - unfold replacements, host_ip, host_ipv6, host_region. now rewrite H.
  - unfold replaceVariables, replacements, host_ip, host_ipv6, host_region.
    rewrite H. reflexivity.
  - unfold replaceVariables, replacements, host_ip, host_ipv6, host_region.
    rewrite H. reflexivity.
  - unfold replaceVariables, replacements, host_ip, host_ipv6, host_region.
    rewrite H. reflexivity.
  - intros Hc segs Hs. rewrite <- (simultaneous_unlinked _ _ H).
    apply substitute_any_order; auto using Permutation_refl.
Qed.

(** On a template with brace-safe literals and for a brace-safe context
    without host, the whole rendering resolves the host placeholders to
    nothing and the node placeholders to the values of the context. *)
Lemma render_without_host (context : NodeConfigContext) (segs : list segment) :
  host context = None ->
  safe_context context = true ->
  forallb safe_segment segs = true ->
  replaceVariables (flat segs) context = simultaneous context segs
  /\ resolve context (Var HOST_IP) = EmptyString
  /\ resolve context (Var HOST_IPV6) = EmptyString
  /\ resolve context (Var HOST_REGION) = EmptyString
  /\ resolve context (Var DOMAIN) = domain context
  /\ resolve context (Var PORT) = String_ (port context)
  /\ resolve context (Var ADDITIONAL_PORTS)
     = join "," (map String_ (additionalPorts context)).
Proof.
  intros H Hc Hs. split.
  - apply substitute_any_order; auto using Permutation_refl.
  - cbn [resolve value_of]. unfold host_ip, host_ipv6, host_region.
    rewrite H. repeat split; reflexivity.
Qed.

Lemma C8_no_host_substitutes_empty_witness :
  host scenario_context = None
  /\ replacements scenario_context
     = [ ("{{NODE_ID}}", "1"); ("{{NODE_NAME}}", "node-1");
         ("{{DOMAIN}}", "a.example.com"); ("{{PORT}}", "443");
         ("{{PROXY_TYPE}}", "vless"); ("{{HOST_IP}}", EmptyString);
         ("{{HOST_IPV6}}", EmptyString); ("{{HOST_REGION}}", EmptyString);
         ("{{ADDITIONAL_PORTS}}", "8443") ]
  /\ replaceVariables "{{HOST_IP}}" scenario_context = EmptyString
  /\ replaceVariables
       "server {{DOMAIN}}:{{PORT}} extra={{ADDITIONAL_PORTS}} ip=[{{HOST_IP}}]"
       scenario_context
     = "server a.example.com:443 extra=8443 ip=[]".
Proof.
  split; [reflexivity|].
  destruct (C8_no_host_substitutes_empty scenario_context eq_refl)
    as (E & Hip & _ & _ & Hr).
  split; [exact E|]. split; [exact Hip|].
  exact (Hr eq_refl
           [Lit "server "; Var DOMAIN; Lit ":"; Var PORT; Lit " extra=";
            Var ADDITIONAL_PORTS; Lit " ip=["; Var HOST_IP; Lit "]"]
           eq_refl).
Defined.

End RendererClaims.

(** ** DNS: the adapter on a vendor that serves every request *)

Section Adapter.
Import Js Eff Dns.

Lemma with_net_same (w : World) :
  faults w = [] -> with_net (vendor w) [] (sent w ++ []) w = w.
Proof. destruct w; simpl. intros ->. now rewrite app_nil_r. Qed.

Lemma fetch_served (req : Request) (w : World) :
  faults w = [] ->
  fetch req w
  = (Return (fst (serve req (vendor w))),
     with_net (snd (serve req (vendor w))) [] (sent w ++ [req]) w).
Proof. unfold fetch. intros ->. now destruct (serve req (vendor w)). Qed.

Lemma getZoneId_served (this : CloudflareProvider) (domain : string)
      (w : World) :
  faults w = [] ->
  getZoneId this domain w
  = (Return (hd_error (zones_named (getBaseDomain domain) (vendor w))),
     with_net (vendor w) [] (sent w ++ [GetZones (getBaseDomain domain)]) w).
Proof.
  intros H. unfold getZoneId, try_catch, bind. rewrite (fetch_served _ _ H).
  cbn [serve fst snd]. fold (zones_named (getBaseDomain domain) (vendor w)).
  now destruct (zones_named (getBaseDomain domain) (vendor w)).
Qed.

Lemma resolveZone_served (this : CloudflareProvider) (domain : string)
      (w : World) :
  faults w = [] ->
  resolveZone this domain w
  = (Return (zone_of this domain (vendor w)),
     with_net (vendor w) [] (sent w ++ zone_requests this domain) w).
Proof.
  intros H. unfold resolveZone, zone_of, zone_requests.
  destruct (zoneId this) as [z|]; [destruct (truthy_string z)|];
    rewrite ?(getZoneId_served _ _ _ H); try reflexivity.
  unfold ret. now rewrite (with_net_same _ H).
Qed.

Lemma findRecord_served (this : CloudflareProvider) (zone domain type : string)
      (w : World) :
  faults w = [] ->
  findRecord this zone domain type w
  = (Return (hd_error (matching zone type domain (vendor w))),
     with_net (vendor w) [] (sent w ++ [GetRecords zone type domain]) w).
Proof.
  intros H. unfold findRecord, try_catch, bind. rewrite (fetch_served _ _ H).
  cbn [serve fst snd]. fold (matching zone type domain (vendor w)).
  now destruct (matching zone type domain (vendor w)).
Qed.

Lemma updateRecord_served (this : CloudflareProvider)
      (zone domain type value : string) (w : World) :
  faults w = [] ->
  zone_of this domain (vendor w) = Some zone ->
  truthy_string zone = true ->
  exists w',
    updateRecord this domain type value w = (Return true, w')
    /\ vendor w'
       = snd (serve (write_request zone type domain value (vendor w)) (vendor w))
    /\ sent w'
       = (sent w ++ zone_requests this domain
            ++ [GetRecords zone type domain;
                write_request zone type domain value (vendor w)])%list
    /\ faults w' = []
    /\ defaultProvider w' = defaultProvider w
    /\ dnsRecords w' = dnsRecords w
    /\ nodeIds w' = nodeIds w.
Proof.
  intros Hf Hz Ht.
  unfold updateRecord, try_catch, bind at 1.
  rewrite (resolveZone_served _ _ _ Hf), Hz.
  cbn [falsy_zone]. rewrite Ht. cbn [negb].
  unfold bind at 1. unfold bind at 1.
  rewrite findRecord_served by reflexivity.
  cbn [vendor with_net]. unfold write_request.
  destruct (matching zone type domain (vendor w)) as [|r rs];
    cbn [hd_error];
    unfold updateExistingRecord, createNewRecord, bind;
    rewrite fetch_served by reflexivity;
    cbn; eexists; (split; [reflexivity|]); cbn;
    rewrite <- !app_assoc; repeat split; reflexivity.
Qed.

Lemma matches_set_content (zone type name z : string) (i : nat)
      (content : string) (r : CfRecord) :
  matches_record zone type name (set_content z i content r)
  = matches_record zone type name r.
Proof. unfold set_content. now destruct (_ && _). Qed.

Lemma matching_after_put (zone type name z : string) (i : nat)
      (content : string) (v : Vendor) :
  matching zone type name (snd (serve (PutRecord z i content) v))
  = map (set_content z i content) (matching zone type name v).
Proof.
  unfold matching. cbn [serve snd records].
  induction (records v) as [|r rs IH]; [reflexivity|].
  cbn [map filter]. rewrite matches_set_content, IH.
  now destruct (matches_record zone type name r).
Qed.

Lemma matching_after_post (zone type name content : string) (v : Vendor) :
  matching zone type name (snd (serve (PostRecord zone type name content) v))
  = (matching zone type name v
       ++ [ {| rec_id := next_id v; rec_zone := zone; rec_type := type;
               rec_name := name; rec_content := content |} ])%list.
Proof.
  unfold matching. cbn [serve snd records]. rewrite filter_app.
  cbn [filter]. unfold matches_record at 2. cbn [rec_zone rec_type rec_name].
  now rewrite !String.eqb_refl.
Qed.

Lemma matching_zone (zone type name : string) (v : Vendor) (r : CfRecord)
      (rs : list CfRecord) :
  matching zone type name v = r :: rs -> rec_zone r = zone.
Proof.
  intros H. assert (Hin : In r (matching zone type name v))
    by (rewrite H; now left).
  apply filter_In in Hin as [_ Hm]. unfold matches_record in Hm.
  apply andb_true_iff in Hm as [Hm _]. apply andb_true_iff in Hm as [Hm _].
  now apply String.eqb_eq.
Qed.

Lemma zone_of_after_write (this : CloudflareProvider) (domain : string)
      (req : Request) (v : Vendor) :
  (forall n, req <> GetZones n) ->
  zone_of this domain (snd (serve req v)) = zone_of this domain v.
Proof. destruct req; intros H; reflexivity. Qed.

(** After one served [updateRecord] on a key that has at most one
    record, the key has exactly one record, with the value written. *)
Lemma matching_after_write (zone type name value : string) (v : Vendor) :
  (List.length (matching zone type name v) <= 1)%nat ->
  exists r,
    matching zone type name
      (snd (serve (write_request zone type name value v) v)) = [r]
    /\ rec_content r = value
    /\ (forall r0, matching zone type name v = [r0] -> rec_id r = rec_id r0).
Proof.
  intros Hle. unfold write_request.
  destruct (matching zone type name v) as [|r0 rs] eqn:E.
  - rewrite matching_after_post, E. eexists. split; [reflexivity|].
    split; [reflexivity | discriminate].
  - destruct rs as [|r1 rs]; [|simpl in Hle; lia].
    pose proof (matching_zone _ _ _ _ _ _ E) as Hzone.
    rewrite matching_after_put, E. cbn [map]. unfold set_content.
    rewrite Hzone, String.eqb_refl, Nat.eqb_refl. cbn [andb].
    eexists. split; [reflexivity|].
    split; [reflexivity|]. now intros ? [= <-].
Qed.

End Adapter.

(** ** DNS: claims about the adapter *)

Section AdapterClaims.
Import Js Eff Dns.

(** C4, as stated, fails.  A lookup of the record that fails, in
    transport or at the vendor, is taken by [findRecord] for an absent
    record: the second of two calls in sequence then issues a second
    create, both calls answer [true] and the key holds two records.  And
    a key that holds two records beforehand still holds two after the two
    calls, of which only the first found was updated. *)
Lemma C4_second_create_counterexample :
  let this := {| apiToken := "token"; zoneId := Some "zone-1" |} in
  (let w := example_world None [] [Healthy; Healthy; TransportError] in
   exists w1 w2,
     updateRecord this "hk01.example.com" "A" "192.0.2.1" w = (Return true, w1)
     /\ updateRecord this "hk01.example.com" "A" "192.0.2.7" w1
        = (Return true, w2)
     /\ sent w2 = [GetRecords "zone-1" "A" "hk01.example.com";
                   PostRecord "zone-1" "A" "hk01.example.com" "192.0.2.1";
                   GetRecords "zone-1" "A" "hk01.example.com";
                   PostRecord "zone-1" "A" "hk01.example.com" "192.0.2.7"]
     /\ map rec_content (matching "zone-1" "A" "hk01.example.com" (vendor w2))
        = ["192.0.2.1"; "192.0.2.7"])
  /\ (let twin := {| rec_id := 1; rec_zone := "zone-1"; rec_type := "A";
                     rec_name := "hk01.example.com";
                     rec_content := "192.0.2.2" |} in
      let w := example_world None [example_record; twin] [] in
      exists w1 w2,
        updateRecord this "hk01.example.com" "A" "192.0.2.1" w
        = (Return true, w1)
        /\ updateRecord this "hk01.example.com" "A" "192.0.2.7" w1
           = (Return true, w2)
        /\ map rec_content
             (matching "zone-1" "A" "hk01.example.com" (vendor w2))
           = ["192.0.2.7"; "192.0.2.2"]).
Proof. cbv zeta. split; do 2 eexists; repeat split; reflexivity. Qed.

(** C4, amended: on a vendor that serves every request, for a key
    [(zone, name, type)] that has at most one record, two calls of
    [updateRecord] in sequence both succeed and leave exactly one record
    for the key, holding the second value.  The first call issues a
    create when the key has no record and an update to the existing
    record's identifier when it has one; the second call issues an update
    to the identifier of the record the first one left, never a create. *)
Theorem C4_update_twice_leaves_one_record
        (this : CloudflareProvider) (zone domain type v1 v2 : string)
        (w : World) :
  faults w = [] ->
  zone_of this domain (vendor w) = Some zone ->
  truthy_string zone = true ->
  (List.length (matching zone type domain (vendor w)) <= 1)%nat ->
  exists w1 w2 r1 r2,
    updateRecord this domain type v1 w = (Return true, w1)
    /\ sent w1
       = (sent w ++ zone_requests this domain
            ++ [GetRecords zone type domain;
                match matching zone type domain (vendor w) with
                | r0 :: _ => PutRecord zone (rec_id r0) v1
                | [] => PostRecord zone type domain v1
                end])%list
    /\ matching zone type domain (vendor w1) = [r1]
    /\ updateRecord this domain type v2 w1 = (Return true, w2)
    /\ sent w2
       = (sent w1 ++ zone_requests this domain
            ++ [GetRecords zone type domain; PutRecord zone (rec_id r1) v2])%list
    /\ matching zone type domain (vendor w2) = [r2]
    /\ rec_id r2 = rec_id r1
    /\ rec_content r2 = v2.
Proof.
  intros Hf Hz Ht Hle.
  destruct (updateRecord_served this zone domain type v1 w Hf Hz Ht)
    as (w1 & E1 & Hv1 & Hs1 & Hf1 & _).
  destruct (matching_after_write zone type domain v1 (vendor w) Hle)
    as (r1 & Hm1 & _ & _).
  rewrite <- Hv1 in Hm1.
  assert (Hz1 : zone_of this domain (vendor w1) = Some zone).
  { rewrite Hv1, zone_of_after_write; [exact Hz|].
    unfold write_request. now destruct (matching _ _ _ _). }
  destruct (updateRecord_served this zone domain type v2 w1 Hf1 Hz1 Ht)
    as (w2 & E2 & Hv2 & Hs2 & _).
  assert (Hle1 : (List.length (matching zone type domain (vendor w1)) <= 1)%nat)
    by (rewrite Hm1; simpl; lia).
  destruct (matching_after_write zone type domain v2 (vendor w1) Hle1)
    as (r2 & Hm2 & Hc2 & Hid2).
  rewrite <- Hv2 in Hm2.
  exists w1, w2, r1, r2.
  split; [exact E1|]. split; [exact Hs1|]. split; [exact Hm1|].
  split; [exact E2|]. split.
  - rewrite Hs2. unfold write_request. now rewrite Hm1.
  - split; [exact Hm2|]. split; [now apply Hid2 | exact Hc2].
Qed.

Lemma C4_update_twice_leaves_one_record_witness :
  let w := example_world None [] [] in
  faults w = []
  /\ zone_of example_provider "hk01.example.com" (vendor w) = Some "zone-1"
  /\ (List.length (matching "zone-1" "A" "hk01.example.com" (vendor w)) <= 1)%nat
  /\ exists w1 w2 r1 r2,
      updateRecord example_provider "hk01.example.com" "A" "192.0.2.1" w
      = (Return true, w1)
      /\ sent w1
         = [GetZones "example.com";
            GetRecords "zone-1" "A" "hk01.example.com";
            PostRecord "zone-1" "A" "hk01.example.com" "192.0.2.1"]
      /\ matching "zone-1" "A" "hk01.example.com" (vendor w1) = [r1]
      /\ updateRecord example_provider "hk01.example.com" "A" "192.0.2.7" w1
         = (Return true, w2)
      /\ sent w2
         = (sent w1 ++ [GetZones "example.com";
                        GetRecords "zone-1" "A" "hk01.example.com";
                        PutRecord "zone-1" (rec_id r1) "192.0.2.7"])%list
      /\ matching "zone-1" "A" "hk01.example.com" (vendor w2) = [r2]
      /\ rec_id r2 = rec_id r1
      /\ rec_content r2 = "192.0.2.7".
Proof.
  split; [reflexivity|]. split; [reflexivity|]. split; [simpl; lia|].
  apply (C4_update_twice_leaves_one_record example_provider "zone-1"
           "hk01.example.com" "A" "192.0.2.1" "192.0.2.7"
           (example_world None [] []));
    [reflexivity | reflexivity | reflexivity | simpl; lia].
Defined.

(** The zone of a name is looked up under its last two labels. *)
Example getBaseDomain_example :
  getBaseDomain "hk01.example.com" = "example.com"
  /\ getBaseDomain "example.com" = "example.com"
  /\ getBaseDomain "localhost" = "localhost".
Proof. repeat split; reflexivity. Qed.

(** Neither operation of the adapter raises. *)
Lemma updateRecord_returns (this : CloudflareProvider)
      (domain type value : string) (w : World) :
  exists b w', updateRecord this domain type value w = (Return b, w').
Proof.
  unfold updateRecord, try_catch.
  match goal with |- context [match ?body w with _ => _ end] =>
    destruct (body w) as [[b|e] w'] end; cbn; unfold ret;
    do 2 eexists; reflexivity.
Qed.

Lemma getRecord_returns (this : CloudflareProvider) (domain type : string)
      (w : World) :
  exists r w', getRecord this domain type w = (Return r, w').
Proof.
  unfold getRecord, try_catch.
  match goal with |- context [match ?body w with _ => _ end] =>
    destruct (body w) as [[b|e] w'] end; cbn; unfold ret;
    do 2 eexists; reflexivity.
Qed.

(** C5, at the failing input: the record exists, the lookup is served
    and the vendor refuses the update.  [updateRecord] reports success
    and the record keeps its old value. *)
Theorem C5_refused_update_reported_as_success :
  let this := {| apiToken := "token"; zoneId := Some "zone-1" |} in
  let w := example_world None [example_record] [Healthy; VendorError] in
  exists w',
    updateRecord this "hk01.example.com" "A" "192.0.2.7" w = (Return true, w')
    /\ sent w' = [GetRecords "zone-1" "A" "hk01.example.com";
                  PutRecord "zone-1" 0 "192.0.2.7"]
    /\ records (vendor w') = [example_record].
Proof. eexists. repeat split; reflexivity. Qed.

(** A lookup that fails is taken for an absent record: the adapter
    creates a second record for the key and reports success. *)
Example failed_lookup_creates_duplicate :
  let this := {| apiToken := "token"; zoneId := Some "zone-1" |} in
  let w := example_world None [example_record] [TransportError] in
  exists w',
    updateRecord this "hk01.example.com" "A" "192.0.2.7" w = (Return true, w')
    /\ sent w' = [GetRecords "zone-1" "A" "hk01.example.com";
                  PostRecord "zone-1" "A" "hk01.example.com" "192.0.2.7"]
    /\ List.length (matching "zone-1" "A" "hk01.example.com" (vendor w')) = 2%nat.
Proof. eexists. repeat split; reflexivity. Qed.

(** A transport failure of the write itself is reported as failure,
    and a failure during [getRecord] as an absent record. *)
Example transport_failure_reported :
  let this := {| apiToken := "token"; zoneId := Some "zone-1" |} in
  fst (updateRecord this "hk01.example.com" "A" "192.0.2.7"
         (example_world None [example_record] [Healthy; TransportError]))
  = Return false
  /\ fst (getRecord this "hk01.example.com" "A"
            (example_world None [example_record] [TransportError]))
     = Return None
  /\ fst (getRecord this "hk01.example.com" "A"
            (example_world None [example_record] [VendorError]))
     = Return None
  /\ fst (getRecord this "hk01.example.com" "A"
            (example_world None [example_record] []))
     = Return (Some "192.0.2.1").
Proof. repeat split; reflexivity. Qed.

End AdapterClaims.

(** ** DNS: the service and the worker *)

Section Service.
Import Js Eff Dns.

(** C10: a check without an expected value answers [matches = true]
    whatever the provider holds, an absent record included; with an
    initialised provider the check returns. *)
Theorem C10_check_without_expectation_matches
        (request : DnsCheckRequest) (w : World) :
  expectedValue request = None ->
  (forall r w', checkDnsRecord request w = (Return r, w') -> matches r = true)
  /\ (forall provider,
         defaultProvider w = Some provider ->
         exists current w',
           getRecord provider (chk_domain request) "A" w = (Return current, w')
           /\ checkDnsRecord request w
              = (Return {| res_domain := chk_domain request;
                           currentValue := current;
                           matches := true |}, w')).
Proof.
  intros He. split.
  - intros r w'. unfold checkDnsRecord, try_catch, bind, gets.
    destruct (defaultProvider w) as [provider|]; [|discriminate].
    rewrite He. destruct (getRecord provider (chk_domain request) "A" w)
      as [[current|e] w1]; [|discriminate].
    cbn. now intros [= <- _].
  - intros provider Hp.
    destruct (getRecord_returns provider (chk_domain request) "A" w)
      as (current & w1 & E).
    exists current, w1. split; [exact E|].
    unfold checkDnsRecord, try_catch, bind, gets. now rewrite Hp, He, E.
Qed.

Lemma C10_check_without_expectation_matches_witness :
  let request := {| chk_domain := "hk01.example.com"; expectedValue := None |} in
  let w := example_world (Some example_provider) [] [] in
  expectedValue request = None
  /\ exists current w',
      getRecord example_provider "hk01.example.com" "A" w = (Return current, w')
      /\ checkDnsRecord request w
         = (Return {| res_domain := "hk01.example.com"; currentValue := current;
                      matches := true |}, w').
Proof.
  split; [reflexivity|].
  exact (proj2 (C10_check_without_expectation_matches
                  {| chk_domain := "hk01.example.com"; expectedValue := None |}
                  (example_world (Some example_provider) [] []) eq_refl)
               example_provider eq_refl).
Defined.

(** Whether the record is there or not, and whatever it holds. *)
Example check_without_expectation :
  let request := {| chk_domain := "hk01.example.com"; expectedValue := None |} in
  fst (checkDnsRecord request (example_world (Some example_provider) [] []))
  = Return {| res_domain := "hk01.example.com"; currentValue := None;
              matches := true |}
  /\ fst (checkDnsRecord request
            (example_world (Some example_provider) [example_record] []))
     = Return {| res_domain := "hk01.example.com";
                 currentValue := Some "192.0.2.1"; matches := true |}
  /\ fst (checkDnsRecord
            {| chk_domain := "hk01.example.com";
               expectedValue := Some "192.0.2.7" |}
            (example_world (Some example_provider) [example_record] []))
     = Return {| res_domain := "hk01.example.com";
                 currentValue := Some "192.0.2.1"; matches := false |}.
Proof. repeat split; reflexivity. Qed.

Lemma with_log_same (w : World) : with_log (log w) w = w.
Proof. now destruct w. Qed.

(** What a call does, from what its task does. *)
Lemma addUpdateTask_behind_run (behind : nat) (request : DnsUpdateRequest)
      (w : World) :
  addUpdateTask_behind behind request w
  = match task request w with
    | (Return b, w1) =>
        (Return (b || false),
         with_log (log w1 ++ idle_line behind)%list w1)
    | (Throw e, w1) =>
        (Return false,
         with_log (log w1 ++ line Error "DNS queue error"
                     :: idle_line behind
                     ++ [line Error ("Failed to queue DNS update for "
                                     ++ req_domain request)])%list w1)
    end.
Proof.
  unfold addUpdateTask_behind, try_catch, bind at 1, queue_add.
  destruct (task request w) as [[b|e] w1].
  - destruct behind; cbn.
    + reflexivity.
    + now rewrite app_nil_r, with_log_same.
  - destruct behind; cbn; unfold with_log; cbn;
      now rewrite <- ?app_assoc.
Qed.

Lemma addUpdateTask_behind_returns (behind : nat) (request : DnsUpdateRequest)
      (w : World) :
  exists b w', addUpdateTask_behind behind request w = (Return b, w').
Proof.
  rewrite addUpdateTask_behind_run.
  destruct (task request w) as [[b|e] w1]; eauto.
Qed.

(** Every call of a batch is answered with a boolean. *)
Lemma batch_returns (behind : nat) (requests : list DnsUpdateRequest)
      (w : World) :
  exists results w',
    batch behind requests w = (Return results, w')
    /\ List.length results = List.length requests.
Proof.
  revert w. induction requests as [|request requests IH]; intros w.
  - exists [], w. now split.
  - cbn [batch]. unfold bind at 1.
    destruct (addUpdateTask_behind_returns
                (List.length requests + behind) request w) as (b & w1 & ->).
    unfold bind at 1. destruct (IH w1) as (bs & w2 & -> & Hlen).
    exists (b :: bs), w2. split; [reflexivity|]. simpl. now rewrite Hlen.
Qed.


(** The queue, run from a state in which it is not paused, does what
    the calls do one after another, answers every ticket and is left
    empty. *)
Lemma run_batch (jobs : list (nat * DnsUpdateRequest)) :
  forall (p : DnsWorker) (bs : list bool) (w' : World),
    isPaused p = false ->
    queue p = jobs ->
    batch 0 (map snd jobs) (world p) = (Return bs, w') ->
    run (List.length jobs) p
    = {| options := options p; world := w'; queue := [];
         isPaused := false;
         answers := (answers p ++ combine (map fst jobs) bs)%list;
         calls := calls p |}.
Proof.
  induction jobs as [|[ticket request] jobs IH]; intros p bs w' Hp Hq Hb.
  - cbn in Hb. injection Hb as <- <-. destruct p. cbn in *. subst.
    now rewrite app_nil_r.
  - cbn [map snd batch] in Hb. unfold bind at 1 in Hb.
    rewrite length_map, Nat.add_0_r in Hb.
    cbn [List.length run]. unfold run_next at 1. rewrite Hp, Hq.
    destruct (addUpdateTask_behind (List.length jobs) request (world p))
      as [[b|e] w1]; [|discriminate].
    unfold bind at 1 in Hb.
    destruct (batch 0 (map snd jobs) w1) as [[bs'|e] w2] eqn:E;
      [|discriminate].
    cbn in Hb. injection Hb as <- <-.
    rewrite (IH _ bs' w2); cbn [isPaused queue world options answers calls];
      try reflexivity; try assumption.
    cbn [map fst combine]. now rewrite <- app_assoc.
Qed.

Lemma enqueue_all (requests : list DnsUpdateRequest) (p : DnsWorker) :
  fold_left (fun p request => enqueue request p) requests p
  = {| options := options p; world := world p;
       queue := (queue p ++ tickets (calls p) requests)%list;
       isPaused := isPaused p; answers := answers p;
       calls := (calls p + List.length requests)%nat |}.
Proof.
  revert p. induction requests as [|request requests IH]; intros p.
  - destruct p. cbn. now rewrite app_nil_r, Nat.add_0_r.
  - cbn [fold_left]. rewrite IH. unfold enqueue, tickets. cbn.
    rewrite <- app_assoc. cbn. f_equal. lia.
Qed.

Lemma tickets_requests (first : nat) (requests : list DnsUpdateRequest) :
  map snd (tickets first requests) = requests
  /\ map fst (tickets first requests) = seq first (List.length requests).
Proof.
  unfold tickets. revert first.
  induction requests as [|request requests IH]; intros first; [now split|].
  cbn. destruct (IH (S first)) as [-> ->]. now split.
Qed.

(** A batch admitted to a worker that is not paused and holds nothing. *)
Lemma process_batch (requests : list DnsUpdateRequest) (p : DnsWorker)
      (bs : list bool) (w' : World) :
  isPaused p = false -> queue p = [] ->
  batch 0 requests (world p) = (Return bs, w') ->
  process (fold_left (fun p request => enqueue request p) requests p)
  = {| options := options p; world := w'; queue := [];
       isPaused := false;
       answers := (answers p
                   ++ combine (seq (calls p) (List.length requests)) bs)%list;
       calls := (calls p + List.length requests)%nat |}.
Proof.
  intros Hp Hq Hb. rewrite enqueue_all. unfold process.
  cbn [queue]. rewrite Hq. cbn [app].
  destruct (tickets_requests (calls p) requests) as [Hs Hf].
  rewrite (run_batch (tickets (calls p) requests) _ bs w');
    cbn [isPaused queue world options answers calls]; try assumption.
  - now rewrite Hf.
  - reflexivity.
  - now rewrite Hs.
Qed.

Lemma answers_in_order (first n : nat) (bs : list bool) :
  List.length bs = n -> map snd (combine (seq first n) bs) = bs.
Proof.
  revert first n. induction bs as [|b bs IH]; intros first [|n] Hlen;
    try discriminate; [reflexivity|].
  cbn. f_equal. apply IH. now injection Hlen.
Qed.

Lemma addUpdateTasks_batch (requests : list DnsUpdateRequest) (w : World) :
  addUpdateTasks requests w = batch 0 requests w.
Proof.
  destruct (batch_returns 0 requests w) as (bs & w' & E & Hlen).
  unfold addUpdateTasks.
  rewrite (process_batch requests (new_DnsWorker 1 1000 w) bs w');
    try reflexivity; [|exact E].
  cbn [answers world new_DnsWorker app calls]. rewrite E.
  now rewrite answers_in_order.
Qed.



(** The two ways the task body throws: no provider was initialised,
    and the write-back of a record for a node that does not exist. *)
Example task_throws :
  fst (task (example_request 1 "192.0.2.1") (example_world None [] []))
  = Throw "DNS provider not initialized"
  /\ fst (task (example_request 5 "192.0.2.1")
            (example_world (Some example_provider) [] []))
     = Throw "FOREIGN KEY constraint failed"
  /\ fst (addUpdateTasks
            [example_request 5 "192.0.2.1"; example_request 1 "192.0.2.7"]
            (example_world (Some example_provider) [] []))
     = Return [false; true].
Proof. repeat split; reflexivity. Qed.

(** The lines of a call whose task throws on an idle queue, in the
    order in which they are written. *)
Example throwing_task_log :
  map message
      (log (snd (addUpdateTask (example_request 1 "192.0.2.1")
                   (example_world None [] []))))
  = ["Processing DNS update: hk01.example.com (A)";
     "Failed to update DNS record for hk01.example.com";
     "DNS queue error";
     "DNS queue is idle";
     "Failed to queue DNS update for hk01.example.com"].
Proof. reflexivity. Qed.

(** A queue that is paused or was shut down answers no call: the
    promise of a task it holds, or is given, does not settle. *)
Example shut_down_worker_answers_nothing :
  let p := new_DnsWorker 1 1000 (example_world (Some example_provider) [] []) in
  let request := example_request 1 "192.0.2.1" in
  answers (process (enqueue request p)) = [(0%nat, true)]
  /\ answers (process (enqueue request (pause p))) = []
  /\ queue (process (enqueue request (pause p))) = [(0%nat, request)]
  /\ answers (process (enqueue request (shutdownDnsWorker p))) = []
  /\ queue (shutdownDnsWorker (enqueue request (pause p))) = [].
Proof. repeat split; reflexivity. Qed.

End Service.

(** ** DNS: when the worker's queue starts its tasks *)

Section QueueTiming.
Import Js Eff Dns.

(** C2, at the worker's options: the constructor passes [interval]
    without [intervalCap], so the queue counts runs against no cap and
    the interval spaces nothing.  Of two tasks added back to back the
    second starts when the first has settled, at concurrency 1, and at
    once at a higher concurrency: less than the interval after the first
    whenever the first task takes less than the interval. *)
Theorem C2_interval_without_cap_spaces_nothing
        (c : nat) (i t0 d1 d2 : Z) :
  (1 <= c)%nat ->
  0 <= d1 < i ->
  exists s1 s2,
    starts (worker_options c i) t0 [d1; d2] = [s1; s2]
    /\ s1 = t0
    /\ s2 - s1 = (if (c =? 1)%nat then d1 else 0)
    /\ s2 - s1 < i.
Proof.
  intros Hc Hd. unfold starts.
  destruct c as [|[|c]]; [lia| |]; cbn.
  - do 2 eexists. split; [reflexivity|]. split; [reflexivity|]. lia.
  - do 2 eexists. split; [reflexivity|]. split; [reflexivity|]. lia.
Qed.

Lemma C2_interval_without_cap_spaces_nothing_witness :
  starts (worker_options 1 1000) 0 [10; 10] = [0; 10]
  /\ 10 - 0 < 1000.
Proof.
  destruct (C2_interval_without_cap_spaces_nothing 1 1000 0 10 10)
    as (s1 & s2 & E & H1 & H2 & H3); [lia | lia |].
  cbn in H2. subst s1. replace s2 with 10 in * by lia.
  split; [exact E | lia].
Defined.

(** With a cap of one run per interval the same queue spaces the
    starts by the interval; the worker's queue does not. *)
Example interval_cap_spaces_starts :
  starts {| concurrency := 1; interval := 1000; intervalCap := Some 1%nat;
            autoStart := true |} 0 [10; 10; 10]
  = [0; 1000; 2000]
  /\ starts (worker_options 1 1000) 0 [10; 10; 10] = [0; 10; 20]
  /\ starts (worker_options 2 1000) 0 [10; 10; 10] = [0; 0; 10]
  /\ starts {| concurrency := 2; interval := 1000; intervalCap := Some 2%nat;
               autoStart := true |} 0 [10; 10; 10]
     = [0; 0; 1000].
Proof. repeat split; reflexivity. Qed.

End QueueTiming.

(** ** The monitor: what each check does *)

Section MonitorRuns.
Import Js Eff Monitor.

Variable config : MonitorConfig.
Variable usageAtLeast : number -> number -> Z -> bool.

(** Run the primitive steps of the monad on an explicit world. *)
Ltac run :=
  unfold bind, write_log, emit, modify, gets, ret, throw, notifyLowDisk,
    notifyHostOffline, add_events, log_event; cbn.

Lemma add_events_nil (w : World) : add_events [] w = w.
Proof. destruct w. unfold add_events. simpl. now rewrite app_nil_r. Qed.

Lemma add_events_app (es1 es2 : list Event) (w : World) :
  add_events es2 (add_events es1 w) = add_events (es1 ++ es2) w.
Proof. unfold add_events. simpl. now rewrite app_assoc. Qed.

Lemma disk_body_run (h : Host) (w : World) :
  disk_body config usageAtLeast h w
  = (Return tt,
     add_events (disk_events config usageAtLeast (telegramEnabled w) h) w).
Proof.
  unfold disk_body, disk_events.
  destruct (falsy (diskTotal h) || is_undefined (diskUsed h)).
  - unfold ret. now rewrite add_events_nil.
  - destruct (usageAtLeast _ _ _).
    + run. destruct (notifyOnLowDisk config && telegramEnabled w); run;
        now rewrite <- ?app_assoc.
    + unfold ret. now rewrite add_events_nil.
Qed.

Lemma disk_loop_run (hs : list Host) (w : World) :
  for_each hs (disk_body config usageAtLeast) w
  = (Return tt,
     add_events
       (flat_map (disk_events config usageAtLeast (telegramEnabled w)) hs) w).
Proof.
  revert w. induction hs as [|h hs IH]; intros w.
  - cbn. unfold ret. now rewrite add_events_nil.
  - cbn [for_each flat_map]. unfold bind. rewrite disk_body_run, IH.
    now rewrite add_events_app.
Qed.

Lemma checkDiskSpace_run (w : World) :
  checkDiskSpace config usageAtLeast w
  = (Return tt,
     add_events
       (flat_map (disk_events config usageAtLeast (telegramEnabled w))
                 (hosts w)) w).
Proof.
  unfold checkDiskSpace, try_catch, bind, getHosts, gets.
  now rewrite disk_loop_run.
Qed.

Lemma heartbeat_body_run (t : Z) (h : Host) (w : World) :
  heartbeat_body config t h w
  = (let warn := log_event "MonitorWorker" Warn
                   ("Host offline detected: " ++ name h) in
     if stale config t h then
       if notifyOnHostOffline config && telegramEnabled w then
         if notice_fails h
         then (Throw "RangeError: Invalid time value", add_events [warn] w)
         else (Return tt,
               add_events [warn; Notification "Host Offline" (name h)] w)
       else (Return tt, add_events [warn] w)
     else (Return tt, w)).
Proof.
  unfold heartbeat_body, stale.
  destruct (String.eqb (status h) "offline"); [reflexivity|]. cbn [negb andb].
  destruct (_ >? _); [|reflexivity].
  unfold notice_fails. run.
  destruct (notifyOnHostOffline config && telegramEnabled w);
    [|reflexivity].
  destruct (truthy_int _ && negb _); run; now rewrite <- ?app_assoc.
Qed.

Lemma heartbeat_loop_run (t : Z) (hs : list Host) (w : World) :
  for_each hs (heartbeat_body config t) w
  = (let (es, failed) := heartbeat_scan config t (telegramEnabled w) hs in
     (if failed then Throw "RangeError: Invalid time value" else Return tt,
      add_events es w)).
Proof.
  revert w. induction hs as [|h hs IH]; intros w.
  - cbn. unfold ret. now rewrite add_events_nil.
  - cbn [for_each heartbeat_scan]. unfold bind. rewrite heartbeat_body_run.
    cbv zeta. destruct (stale config t h); [|apply IH].
    destruct (notifyOnHostOffline config && telegramEnabled w).
    + destruct (notice_fails h); [reflexivity|].
      rewrite IH. cbn [telegramEnabled add_events].
      destruct (heartbeat_scan config t (telegramEnabled w) hs) as [es failed].
      now rewrite add_events_app.
    + rewrite IH. cbn [telegramEnabled add_events].
      destruct (heartbeat_scan config t (telegramEnabled w) hs) as [es failed].
      now rewrite add_events_app.
Qed.

Lemma markOfflineHosts_run (t timeoutSeconds : Z) (w : World) :
  markOfflineHosts t timeoutSeconds w
  = (Return tt,
     {| hosts := marked t timeoutSeconds (hosts w);
        telegramEnabled := telegramEnabled w;
        trace := (trace w ++ mark_events t timeoutSeconds (hosts w))%list |}).
Proof.
  unfold markOfflineHosts, mark_events, marked, bind, gets, modify.
  destruct (0 <? _)%nat; cbn; [reflexivity|]. now rewrite app_nil_r.
Qed.

Lemma checkHostHeartbeats_run (t t_mark : Z) (w : World) :
  checkHostHeartbeats config t t_mark w
  = (Return tt,
     {| hosts := hosts_after config t t_mark (telegramEnabled w) (hosts w);
        telegramEnabled := telegramEnabled w;
        trace := (trace w ++ heartbeat_events config t t_mark
                               (telegramEnabled w) (hosts w))%list |}).
Proof.
  unfold checkHostHeartbeats, try_catch, bind at 1, getHosts, gets.
  unfold bind. rewrite heartbeat_loop_run.
  unfold hosts_after, heartbeat_events.
  destruct (heartbeat_scan config t (telegramEnabled w) (hosts w))
    as [es [|]]; cbn [snd].
  - run. now rewrite <- app_assoc.
  - rewrite markOfflineHosts_run. run. now rewrite <- app_assoc.
Qed.

(** Marking rows offline changes nothing the disk check reads. *)
Lemma disk_events_marked (enabled : bool) (t timeoutSeconds : Z)
      (hs : list Host) :
  flat_map (disk_events config usageAtLeast enabled) (marked t timeoutSeconds hs)
  = flat_map (disk_events config usageAtLeast enabled) hs.
Proof.
  unfold marked. induction hs as [|h hs IH]; [reflexivity|].
  cbn [map flat_map]. rewrite IH. f_equal.
  now destruct (stale_in_store _ h).
Qed.

Lemma disk_events_after (enabled enabled' : bool) (t t_mark : Z)
      (hs : list Host) :
  flat_map (disk_events config usageAtLeast enabled)
           (hosts_after config t t_mark enabled' hs)
  = flat_map (disk_events config usageAtLeast enabled) hs.
Proof.
  unfold hosts_after. destruct (snd _); [reflexivity|].
  apply disk_events_marked.
Qed.

(** The whole sweep. *)
Lemma runCheck_run (t t_mark : Z) (w : World) :
  runCheck config usageAtLeast t t_mark w
  = (Return tt,
     {| hosts := hosts_after config t t_mark (telegramEnabled w) (hosts w);
        telegramEnabled := telegramEnabled w;
        trace :=
          (trace w
           ++ [log_event "MonitorWorker" Debug "Running monitoring check"]
           ++ heartbeat_events config t t_mark (telegramEnabled w) (hosts w)
           ++ flat_map (disk_events config usageAtLeast (telegramEnabled w))
                       (hosts w)
           ++ [log_event "MonitorWorker" Debug "System statistics"])%list |}).
Proof.
  unfold runCheck, logStatistics, try_catch, bind.
  unfold write_log at 1, emit, modify.
  rewrite checkHostHeartbeats_run, checkDiskSpace_run.
  cbn [telegramEnabled hosts]. rewrite disk_events_after. run.
  now rewrite <- !app_assoc.
Qed.

End MonitorRuns.

(** ** The monitor: claims *)

Section MonitorClaims.
Import Js Eff Monitor.

Variable config : MonitorConfig.
Variable usageAtLeast : number -> number -> Z -> bool.

Lemma or_int_val (z : Z) : or_int (Val z) 0 = z.
Proof.
  unfold or_int, truthy_int. destruct (Z.eqb_spec z 0); simpl; congruence.
Qed.

(** With notifications on and no heartbeat out of the range of [Date],
    the loop warns and notifies once for every stale host and does not
    fail. *)
Lemma heartbeat_scan_notifies (t : Z) (hs : list Host) :
  notifyOnHostOffline config = true ->
  Forall (fun h => notice_fails h = false) hs ->
  heartbeat_scan config t true hs
  = (flat_map (fun h =>
                 if stale config t h
                 then [log_event "MonitorWorker" Warn
                         ("Host offline detected: " ++ name h);
                       Notification "Host Offline" (name h)]
                 else []) hs,
     false).
Proof.
  intros Hn Hok. induction Hok as [|h hs Hh Hok IH]; [reflexivity|].
  cbn [heartbeat_scan flat_map]. rewrite Hn, Hh, IH. cbn [andb].
  now destruct (stale config t h).
Qed.

Lemma heartbeat_scan_no_failure (t : Z) (enabled : bool) (hs : list Host) :
  Forall (fun h => notice_fails h = false) hs ->
  snd (heartbeat_scan config t enabled hs) = false.
Proof.
  intros Hok. induction Hok as [|h hs Hh Hok IH]; [reflexivity|].
  cbn [heartbeat_scan]. rewrite Hh.
  destruct (stale config t h); [|exact IH].
  destruct (heartbeat_scan config t enabled hs) as [es failed].
  now destruct (notifyOnHostOffline config && enabled).
Qed.

Lemma offline_notices_absent (t : Z) (n : string) (hs : list Host) :
  ~ In n (map name hs) ->
  filter (is_offline_notice n)
    (flat_map (fun h =>
                 if stale config t h
                 then [log_event "MonitorWorker" Warn
                         ("Host offline detected: " ++ name h);
                       Notification "Host Offline" (name h)]
                 else []) hs)
  = [].
Proof.
  induction hs as [|h hs IH]; intros Hn; [reflexivity|].
  cbn [flat_map map In] in *. rewrite filter_app, IH by tauto.
  rewrite app_nil_r. destruct (stale config t h); [|reflexivity].
  cbn. destruct (String.eqb_spec (name h) n); [tauto | reflexivity].
Qed.

Lemma offline_notices_once (t : Z) (h : Host) (hs : list Host) :
  NoDup (map name hs) -> In h hs -> stale config t h = true ->
  List.length
    (filter (is_offline_notice (name h))
       (flat_map (fun x =>
                    if stale config t x
                    then [log_event "MonitorWorker" Warn
                            ("Host offline detected: " ++ name x);
                          Notification "Host Offline" (name x)]
                    else []) hs))
  = 1%nat.
Proof.
  induction hs as [|a hs IH]; intros Hnd Hin Hst; [contradiction|].
  cbn [map] in Hnd. apply NoDup_cons_iff in Hnd as [Hfresh Hnd].
  cbn [flat_map]. rewrite filter_app, length_app.
  destruct Hin as [-> | Hin].
  - rewrite Hst, (offline_notices_absent _ _ _ Hfresh). cbn.
    now rewrite String.eqb_refl.
  - rewrite (IH Hnd Hin Hst).
    assert (Hne : name a <> name h)
      by (intros E; apply Hfresh; rewrite E; now apply in_map).
    destruct (stale config t a); [|reflexivity]. cbn.
    now destruct (String.eqb_spec (name a) (name h)).
Qed.

Lemma disk_events_no_offline_notice (enabled : bool) (n : string)
      (hs : list Host) :
  filter (is_offline_notice n)
         (flat_map (disk_events config usageAtLeast enabled) hs) = [].
Proof.
  induction hs as [|h hs IH]; [reflexivity|].
  cbn [flat_map]. rewrite filter_app, IH, app_nil_r.
  unfold disk_events.
  destruct (falsy _ || is_undefined _); [reflexivity|].
  destruct (usageAtLeast _ _ _); [|reflexivity].
  now destruct (notifyOnLowDisk config && enabled).
Qed.

Lemma mark_events_no_offline_notice (t timeoutSeconds : Z) (n : string)
      (hs : list Host) :
  filter (is_offline_notice n) (mark_events t timeoutSeconds hs) = [].
Proof. unfold mark_events. now destruct (0 <? _)%nat. Qed.

(** C1, as stated, fails: a host stored as [unknown], the status a
    host has before its first heartbeat, is notified as offline but its
    status is not persisted as [offline]. *)
Lemma C1_unknown_status_counterexample :
  let h := example_host "vps-2" "unknown" (Val 600) (Val 100) (Val 10) in
  let w' := snd (runCheck defaultConfig usageAtLeast_exact 1000 1000
                   (example_world [h])) in
  status h <> "offline"
  /\ 1000 - 600 > hostHeartbeatTimeout defaultConfig
  /\ In (Notification "Host Offline" "vps-2") (trace w')
  /\ hosts w' = [h]
  /\ status h = "unknown".
Proof.
  cbv zeta. split; [discriminate|]. split; [reflexivity|].
  split; [|split; reflexivity].
  vm_compute. tauto.
Qed.

(** C1, amended: in a sweep over hosts with distinct names whose
    heartbeats are times [Date] can represent, a host stored as
    [online] whose last heartbeat is more than [hostHeartbeatTimeout]
    seconds before the sweep time is persisted as [offline]; and when
    [notifyOnHostOffline] is set and the notifier is enabled, exactly one
    offline notification is attempted for a host in that state whose
    status is not [offline]. *)
Theorem C1_stale_online_host_marked_offline
        (t t_mark : Z) (w : World) (h : Host) (lh : Z) :
  Forall (fun x => notice_fails x = false) (hosts w) ->
  NoDup (map name (hosts w)) ->
  t <= t_mark ->
  In h (hosts w) ->
  lastHeartbeat h = Val lh ->
  t - lh > hostHeartbeatTimeout config ->
  let w' := snd (runCheck config usageAtLeast t t_mark w) in
  (status h = "online" -> In (mark t_mark h) (hosts w'))
  /\ (status h <> "offline" ->
      notifyOnHostOffline config = true ->
      telegramEnabled w = true ->
      exists added,
        trace w' = (trace w ++ added)%list
        /\ List.length (filter (is_offline_notice (name h)) added) = 1%nat).
Proof.
  intros Hok Hnd Ht Hin Hlh Hold w'.
  subst w'. rewrite runCheck_run. cbn [snd hosts trace].
  unfold hosts_after, heartbeat_events.
  pose proof (heartbeat_scan_no_failure t (telegramEnabled w) _ Hok) as Hnf.
  split.
  - intros Hon. rewrite Hnf. unfold marked.
    apply in_map_iff. exists h. split; [|exact Hin].
    unfold stale_in_store. rewrite Hlh, Hon. cbn.
    destruct (Z.ltb_spec lh (t_mark - hostHeartbeatTimeout config));
      [reflexivity | lia].
  - intros Hoff Hflag Hen. eexists. split; [reflexivity|].
    rewrite Hen. rewrite (heartbeat_scan_notifies t _ Hflag Hok).
    rewrite !filter_app, !length_app.
    rewrite mark_events_no_offline_notice, disk_events_no_offline_notice.
    rewrite (offline_notices_once t h _ Hnd Hin).
    + reflexivity.
    + unfold stale. rewrite Hlh, or_int_val.
      destruct (String.eqb_spec (status h) "offline"); [contradiction|].
      cbn. destruct (Z.gtb_spec (t - lh) (hostHeartbeatTimeout config));
        [reflexivity | lia].
Qed.

(** C6, as stated, fails: a host whose notification raises ends the
    heartbeat check; the stale host behind it, which alone is notified
    and marked offline, is then neither. *)
Lemma C6_failure_ends_heartbeat_check_counterexample :
  let bad := example_host "vps-0" "online" (Val (-9000000000000))
               (Val 100) (Val 10) in
  let late := example_host "vps-1" "online" (Val 600) (Val 100) (Val 10) in
  let alone := snd (runCheck defaultConfig usageAtLeast_exact 1000 1000
                      (example_world [late])) in
  let w' := snd (runCheck defaultConfig usageAtLeast_exact 1000 1000
                   (example_world [bad; late])) in
  (In (Notification "Host Offline" "vps-1") (trace alone)
   /\ hosts alone = [mark 1000 late])
  /\ (In (log_event "MonitorWorker" Error "Failed to check host heartbeats")
         (trace w')
      /\ ~ In (Notification "Host Offline" "vps-1") (trace w')
      /\ hosts w' = [bad; late]).
Proof.
  cbv zeta. split; [split; [vm_compute; tauto | reflexivity]|].
  split; [vm_compute; tauto|]. split; [|reflexivity].
  vm_compute. intros H.
  repeat (destruct H as [H|H]; [discriminate H|]). exact H.
Qed.

Lemma heartbeat_scan_fails_at (t : Z) (enabled : bool)
      (before after : list Host) (h : Host) :
  snd (heartbeat_scan config t enabled before) = false ->
  stale config t h = true ->
  notifyOnHostOffline config && enabled = true ->
  notice_fails h = true ->
  heartbeat_scan config t enabled (before ++ h :: after)
  = ((fst (heartbeat_scan config t enabled before)
      ++ [log_event "MonitorWorker" Warn
            ("Host offline detected: " ++ name h)])%list,
     true).
Proof.
  intros Hb Hs Hn Hf. induction before as [|x before IH].
  - cbn [app heartbeat_scan fst]. now rewrite Hs, Hn, Hf.
  - cbn [app heartbeat_scan] in *. rewrite Hn in *.
    destruct (stale config t x); [|exact (IH Hb)].
    destruct (notice_fails x); [discriminate Hb|].
    destruct (heartbeat_scan config t enabled before) as [es failed].
    cbn [snd fst] in *. now rewrite (IH Hb).
Qed.

Lemma heartbeat_scan_no_failure_line (t : Z) (enabled : bool) (hs : list Host) :
  filter is_heartbeat_failure (fst (heartbeat_scan config t enabled hs)) = [].
Proof.
  induction hs as [|h hs IH]; [reflexivity|]. cbn [heartbeat_scan].
  destruct (stale config t h); [|exact IH].
  destruct (notifyOnHostOffline config && enabled).
  - destruct (notice_fails h); [reflexivity|].
    destruct (heartbeat_scan config t enabled hs) as [es failed].
    cbn [fst] in *. cbn. exact IH.
  - destruct (heartbeat_scan config t enabled hs) as [es failed].
    cbn [fst] in *. cbn. exact IH.
Qed.

Lemma disk_events_no_failure_line (enabled : bool) (hs : list Host) :
  filter is_heartbeat_failure
         (flat_map (disk_events config usageAtLeast enabled) hs) = [].
Proof.
  induction hs as [|h hs IH]; [reflexivity|].
  cbn [flat_map]. rewrite filter_app, IH, app_nil_r.
  unfold disk_events.
  destruct (falsy _ || is_undefined _); [reflexivity|].
  destruct (usageAtLeast _ _ _); [|reflexivity].
  now destruct (notifyOnLowDisk config && enabled).
Qed.

(** C6, amended: the sweep never raises.  When the heartbeat check
    meets its first failure at a host, the failure is caught and logged
    once for that check, which ends there: what it emits is what it
    emitted for the hosts before that one, the warning for that host and
    the failure line, whatever hosts come after it, and no host is marked
    offline in that sweep.  The disk check still evaluates every host of
    the list. *)
Theorem C6_sweep_contains_failures
        (t t_mark : Z) (enabled : bool) (tr : list Event)
        (before after : list Host) (h : Host) :
  let w := {| hosts := before ++ h :: after; telegramEnabled := enabled;
              trace := tr |} in
  let checked :=
    (fst (heartbeat_scan config t enabled before)
     ++ [log_event "MonitorWorker" Warn ("Host offline detected: " ++ name h);
         log_event "MonitorWorker" Error "Failed to check host heartbeats"])%list in
  let swept :=
    ([log_event "MonitorWorker" Debug "Running monitoring check"]
     ++ checked
     ++ flat_map (disk_events config usageAtLeast enabled)
                 (before ++ h :: after)
     ++ [log_event "MonitorWorker" Debug "System statistics"])%list in
  snd (heartbeat_scan config t enabled before) = false ->
  stale config t h = true ->
  notifyOnHostOffline config && enabled = true ->
  notice_fails h = true ->
  (forall w0, fst (runCheck config usageAtLeast t t_mark w0) = Return tt)
  /\ checkHostHeartbeats config t t_mark w
     = (Return tt,
        {| hosts := before ++ h :: after; telegramEnabled := enabled;
           trace := (tr ++ checked)%list |})
  /\ runCheck config usageAtLeast t t_mark w
     = (Return tt,
        {| hosts := before ++ h :: after; telegramEnabled := enabled;
           trace := (tr ++ swept)%list |})
  /\ List.length (filter is_heartbeat_failure swept) = 1%nat.
Proof.
  cbv zeta. intros Hb Hs Hn Hf.
  pose proof (heartbeat_scan_fails_at t enabled before after h Hb Hs Hn Hf)
    as Hscan.
  split; [|split; [|split]].
  - intros w0. now rewrite runCheck_run.
  - rewrite checkHostHeartbeats_run. cbn [hosts telegramEnabled trace].
    unfold hosts_after, heartbeat_events. rewrite Hscan. cbn [snd].
    now rewrite <- app_assoc.
  - rewrite runCheck_run. cbn [hosts telegramEnabled trace].
    unfold hosts_after, heartbeat_events. rewrite Hscan. cbn [snd].
    now rewrite <- !app_assoc.
  - rewrite !filter_app, heartbeat_scan_no_failure_line,
      disk_events_no_failure_line. reflexivity.
Qed.

Lemma disk_events_skipped (enabled : bool) (h : Host) :
  diskTotal h = Val 0 \/ diskTotal h = Null \/ diskUsed h = Undefined ->
  disk_events config usageAtLeast enabled h = [].
Proof.
  unfold disk_events.
  intros [H | [H | H]]; rewrite H; cbn; [reflexivity | reflexivity |].
  now rewrite orb_true_r.
Qed.

Lemma disk_events_total_nonzero
      (g : number -> number -> Z -> bool) (enabled : bool) (h : Host) :
  (forall u total threshold,
      total <> 0 ->
      g (Int u) (Int total) threshold
      = usageAtLeast (Int u) (Int total) threshold) ->
  disk_events config g enabled h = disk_events config usageAtLeast enabled h.
Proof.
  intros Hg. unfold disk_events.
  destruct (diskTotal h) as [| |total]; try reflexivity.
  cbn [falsy to_number]. unfold truthy_int. rewrite negb_involutive.
  destruct (Z.eqb_spec total 0) as [|Hne]; [reflexivity|].
  destruct (diskUsed h) as [| |u]; cbn [is_undefined orb to_number];
    [reflexivity | now rewrite Hg | now rewrite Hg].
Qed.

(** C9: a host whose [diskTotal] is zero or null, or whose [diskUsed]
    is undefined, is passed over by the disk check: its iteration leaves
    the world as it was, the check behaves as if the host were not
    listed, and the outcome of the check never depends on what the
    division gives for a zero total. *)
Theorem C9_disk_check_skips_unknown_disk
        (h : Host) (before after : list Host) (enabled : bool)
        (tr : list Event) :
  diskTotal h = Val 0 \/ diskTotal h = Null \/ diskUsed h = Undefined ->
  (forall w, disk_body config usageAtLeast h w = (Return tt, w))
  /\ trace (snd (checkDiskSpace config usageAtLeast
                   {| hosts := before ++ h :: after;
                      telegramEnabled := enabled; trace := tr |}))
     = trace (snd (checkDiskSpace config usageAtLeast
                     {| hosts := before ++ after;
                        telegramEnabled := enabled; trace := tr |}))
  /\ (forall g,
         (forall u total threshold,
             total <> 0 ->
             g (Int u) (Int total) threshold
             = usageAtLeast (Int u) (Int total) threshold) ->
         forall w, checkDiskSpace config g w
                   = checkDiskSpace config usageAtLeast w).
Proof.
  intros Hskip. split; [|split].
  - intros w. rewrite disk_body_run, (disk_events_skipped _ _ Hskip).
    now rewrite add_events_nil.
  - rewrite !checkDiskSpace_run. cbn [snd trace add_events hosts telegramEnabled].
    rewrite !flat_map_app. cbn [flat_map].
    now rewrite (disk_events_skipped _ _ Hskip).
  - intros g Hg w. rewrite !checkDiskSpace_run. do 2 f_equal.
    induction (hosts w) as [|x xs IH]; [reflexivity|].
    cbn [flat_map]. now rewrite IH, (disk_events_total_nonzero g _ _ Hg).
Qed.

End MonitorClaims.

(** ** The monitor: the claims at concrete inputs *)

Section MonitorWitnesses.
Import Js Eff Monitor.

(** The transition of the specification: heartbeat 400 seconds old,
    timeout 300. *)
Lemma C1_stale_online_host_marked_offline_witness :
  let h := example_host "vps-1" "online" (Val 600) (Val 100) (Val 10) in
  let w := example_world [h] in
  let w' := snd (runCheck defaultConfig usageAtLeast_exact 1000 1000 w) in
  1000 - 600 > hostHeartbeatTimeout defaultConfig
  /\ In (mark 1000 h) (hosts w')
  /\ exists added,
      trace w' = (trace w ++ added)%list
      /\ List.length (filter (is_offline_notice "vps-1") added) = 1%nat.
Proof.
  cbv zeta. split; [reflexivity|].
  pose (h := example_host "vps-1" "online" (Val 600) (Val 100) (Val 10)).
  assert (Hok : Forall (fun x => notice_fails x = false)
                       (hosts (example_world [h])))
    by (repeat constructor).
  assert (Hnd : NoDup (map name (hosts (example_world [h]))))
    by (repeat constructor; simpl; tauto).
  destruct (C1_stale_online_host_marked_offline defaultConfig
              usageAtLeast_exact 1000 1000 (example_world [h]) h 600
              Hok Hnd (Z.le_refl _) (or_introl eq_refl) eq_refl eq_refl)
    as [Hmark Hnote].
  split; [exact (Hmark eq_refl)|].
  apply Hnote; [discriminate | reflexivity | reflexivity].
Defined.

Lemma C6_sweep_contains_failures_witness :
  let early := example_host "vps-9" "online" (Val 500) (Val 100) (Val 10) in
  let bad := example_host "vps-0" "online" (Val (-9000000000000))
               (Val 100) (Val 95) in
  let late := example_host "vps-1" "online" (Val 600) (Val 100) (Val 95) in
  notice_fails bad = true
  /\ runCheck defaultConfig usageAtLeast_exact 1000 1000
       (example_world [early; bad; late])
     = (Return tt,
        {| hosts := [early; bad; late]; telegramEnabled := true;
           trace :=
             [log_event "MonitorWorker" Debug "Running monitoring check";
              log_event "MonitorWorker" Warn "Host offline detected: vps-9";
              Notification "Host Offline" "vps-9";
              log_event "MonitorWorker" Warn "Host offline detected: vps-0";
              log_event "MonitorWorker" Error "Failed to check host heartbeats";
              log_event "MonitorWorker" Warn "Low disk space: vps-0";
              Notification "Low Disk Space" "vps-0";
              log_event "MonitorWorker" Warn "Low disk space: vps-1";
              Notification "Low Disk Space" "vps-1";
              log_event "MonitorWorker" Debug "System statistics"] |}).
Proof.
  cbv zeta. split; [reflexivity|].
  exact (proj1 (proj2 (proj2
    (C6_sweep_contains_failures defaultConfig usageAtLeast_exact 1000 1000
       true []
       [example_host "vps-9" "online" (Val 500) (Val 100) (Val 10)]
       [example_host "vps-1" "online" (Val 600) (Val 100) (Val 95)]
       (example_host "vps-0" "online" (Val (-9000000000000)) (Val 100) (Val 95))
       eq_refl eq_refl eq_refl eq_refl)))).
Defined.

Lemma C9_disk_check_skips_unknown_disk_witness :
  let fresh := example_host "vps-3" "online" (Val 1000) (Val 0) (Val 0) in
  let full := example_host "vps-1" "online" (Val 1000) (Val 100) (Val 95) in
  diskTotal fresh = Val 0
  /\ trace (snd (checkDiskSpace defaultConfig usageAtLeast_exact
                   (example_world [fresh; full])))
     = trace (snd (checkDiskSpace defaultConfig usageAtLeast_exact
                     (example_world [full])))
  /\ trace (snd (checkDiskSpace defaultConfig usageAtLeast_exact
                   (example_world [full])))
     = [log_event "MonitorWorker" Warn "Low disk space: vps-1";
        Notification "Low Disk Space" "vps-1"].
Proof.
  cbv zeta. split; [reflexivity|]. split; [|reflexivity].
  exact (proj1 (proj2
    (C9_disk_check_skips_unknown_disk defaultConfig usageAtLeast_exact
       (example_host "vps-3" "online" (Val 1000) (Val 0) (Val 0))
       [] [example_host "vps-1" "online" (Val 1000) (Val 100) (Val 95)]
       true [] (or_introl eq_refl)))).
Defined.

(** The scenario of the specification: 95 used of 100 at threshold 90
    gives one low-disk notification. *)
Example low_disk_scenario :
  trace (snd (checkDiskSpace defaultConfig usageAtLeast_exact
                (example_world
                   [example_host "vps-1" "online" (Val 0) (Val 100) (Val 95)])))
  = [log_event "MonitorWorker" Warn "Low disk space: vps-1";
     Notification "Low Disk Space" "vps-1"].
Proof. reflexivity. Qed.

(** A stored [diskUsed] is a number or [null], never [undefined]: a
    host with a total and no usage yet is evaluated, with usage 0. *)
Example null_usage_is_evaluated :
  disk_events defaultConfig (fun _ _ _ => true) true
    (example_host "vps-4" "online" (Val 0) (Val 100) Null)
  = [log_event "MonitorWorker" Warn "Low disk space: vps-4";
     Notification "Low Disk Space" "vps-4"].
Proof. reflexivity. Qed.

End MonitorWitnesses.

(** ** DNS: what the adapter leaves alone *)

Section AdapterFrames.
Import Js Eff Dns.

Lemma same_store_refl (w : World) : same_store w w.
Proof. repeat split. Qed.

Lemma same_store_trans (w1 w2 w3 : World) :
  same_store w1 w2 -> same_store w2 w3 -> same_store w1 w3.
Proof.
  unfold same_store. intros (a1 & a2 & a3 & a4 & a5) (b1 & b2 & b3 & b4 & b5).
  repeat split; congruence.
Qed.

Lemma same_store_log (l : list LogEntry) (w : World) :
  same_store w (with_log l w).
Proof. repeat split. Qed.

Lemma same_store_net (v : Vendor) (fs : list Fault) (rs : list Request)
      (w : World) :
  same_store w (with_net v fs rs w).
Proof. repeat split. Qed.

Lemma only_read_refl (w : World) : only_read w w.
Proof.
  split; [apply same_store_refl|]. split; [reflexivity|].
  exists []. now rewrite app_nil_r.
Qed.

Lemma only_read_trans (w1 w2 w3 : World) :
  only_read w1 w2 -> only_read w2 w3 -> only_read w1 w3.
Proof.
  intros (S1 & V1 & a1 & E1 & R1) (S2 & V2 & a2 & E2 & R2).
  split; [exact (same_store_trans _ _ _ S1 S2)|]. split; [congruence|].
  exists (a1 ++ a2)%list. rewrite E2, E1, app_assoc. split; [reflexivity|].
  now rewrite forallb_app, R1, R2.
Qed.

Lemma only_read_log (l : list LogEntry) (w : World) :
  only_read w (with_log l w).
Proof.
  split; [apply same_store_log|]. split; [reflexivity|].
  exists []. cbn. now rewrite app_nil_r.
Qed.

(** One [fetch], whatever happens to it: the request is recorded, the
    store is left alone, and a read leaves the vendor alone. *)
Lemma fetch_any (req : Request) (w : World) :
  exists o w',
    fetch req w = (o, w')
    /\ same_store w w'
    /\ log w' = log w
    /\ sent w' = (sent w ++ [req])%list
    /\ (is_read req = true -> vendor w' = vendor w).
Proof.
  unfold fetch.
  destruct (faults w) as [|[| |] fs];
    try (destruct (serve req (vendor w)) as [body v'] eqn:E);
    do 2 eexists; (split; [reflexivity|]);
    (split; [apply same_store_net|]); cbn; (split; [reflexivity|]);
    (split; [reflexivity|]); intros Hr; try reflexivity;
    destruct req; try discriminate Hr; cbn in E; congruence.
Qed.

Lemma fetch_read (req : Request) (w : World) :
  is_read req = true ->
  exists o w', fetch req w = (o, w') /\ only_read w w'.
Proof.
  intros Hr. destruct (fetch_any req w) as (o & w' & E & S & _ & Hs & Hv).
  exists o, w'. split; [exact E|]. split; [exact S|]. split; [now apply Hv|].
  exists [req]. split; [exact Hs|]. cbn. now rewrite Hr.
Qed.

Lemma getZoneId_reads (this : CloudflareProvider) (domain : string) (w : World) :
  exists r w', getZoneId this domain w = (Return r, w') /\ only_read w w'.
Proof.
  unfold getZoneId, try_catch, bind.
  destruct (fetch_read (GetZones (getBaseDomain domain)) w eq_refl)
    as (o & w1 & -> & R).
  destruct o as [data|e].
  - destruct data as [[|] [|z zs]|ok rs|ok]; unfold ret; eauto.
  - unfold write_log, modify, ret. do 2 eexists. split; [reflexivity|].
    exact (only_read_trans _ _ _ R (only_read_log _ _)).
Qed.

Lemma findRecord_reads (this : CloudflareProvider) (zone domain type : string)
      (w : World) :
  exists r w', findRecord this zone domain type w = (Return r, w')
               /\ only_read w w'.
Proof.
  unfold findRecord, try_catch, bind.
  destruct (fetch_read (GetRecords zone type domain) w eq_refl)
    as (o & w1 & -> & R).
  destruct o as [data|e].
  - destruct data as [ok zs|[|] [|r rs]|ok]; unfold ret; eauto.
  - unfold write_log, modify, ret. do 2 eexists. split; [reflexivity|].
    exact (only_read_trans _ _ _ R (only_read_log _ _)).
Qed.

Lemma resolveZone_reads (this : CloudflareProvider) (domain : string)
      (w : World) :
  exists r w', resolveZone this domain w = (Return r, w') /\ only_read w w'.
Proof.
  unfold resolveZone.
  destruct (zoneId this) as [z|]; [destruct (truthy_string z)|];
    try apply getZoneId_reads.
  unfold ret. do 2 eexists. split; [reflexivity | apply only_read_refl].
Qed.

End AdapterFrames.

(** ** DNS: more on the adapter *)

Section AdapterMore.
Import Js Eff Dns.

Lemma getRecord_reads
      (this : CloudflareProvider) (domain type : string) (w : World) :
  exists r w', getRecord this domain type w = (Return r, w') /\ only_read w w'.
Proof.
  unfold getRecord, try_catch, bind at 1.
  destruct (resolveZone_reads this domain w) as (z & w1 & -> & R1).
  destruct z as [zone|]; [|unfold ret; eauto].
  destruct (falsy_zone (Some zone)); [unfold ret; eauto|].
  unfold bind.
  destruct (findRecord_reads this zone domain type w1) as (r & w2 & -> & R2).
  unfold ret. do 2 eexists. split; [reflexivity|].
  exact (only_read_trans _ _ _ R1 R2).
Qed.

(** [getRecord] only reads: whatever happens to its requests, it
    returns, the requests it issued are lookups, and the vendor's zones
    and records and the store are what they were. *)
Theorem getRecord_only_reads
        (this : CloudflareProvider) (domain type : string) (w : World) :
  exists r w',
    getRecord this domain type w = (Return r, w')
    /\ vendor w' = vendor w
    /\ dnsRecords w' = dnsRecords w
    /\ exists added,
        sent w' = (sent w ++ added)%list /\ forallb is_read added = true.
Proof.
  destruct (getRecord_reads this domain type w)
    as (r & w' & E & (_ & _ & Hrows & _) & Hv & Hs).
  exists r, w'. auto.
Qed.

Lemma getRecord_served (this : CloudflareProvider) (zone domain type : string)
      (w : World) :
  faults w = [] ->
  zone_of this domain (vendor w) = Some zone ->
  truthy_string zone = true ->
  exists w',
    getRecord this domain type w
    = (Return (content_or_null (hd_error (matching zone type domain (vendor w)))),
       w').
Proof.
  intros Hf Hz Ht. unfold getRecord, try_catch, bind at 1.
  rewrite (resolveZone_served _ _ _ Hf), Hz. cbn [falsy_zone]. rewrite Ht.
  cbn [negb]. unfold bind. rewrite findRecord_served by reflexivity.
  cbn [vendor with_net]. unfold ret. eauto.
Qed.

Lemma matching_head_after_write (zone type name value : string) (v : Vendor) :
  exists r,
    hd_error (matching zone type name
                (snd (serve (write_request zone type name value v) v)))
    = Some r
    /\ rec_content r = value.
Proof.
  unfold write_request.
  destruct (matching zone type name v) as [|r0 rs] eqn:E.
  - rewrite matching_after_post, E. eexists. split; reflexivity.
  - pose proof (matching_zone _ _ _ _ _ _ E) as Hzone.
    rewrite matching_after_put, E. cbn [map hd_error]. unfold set_content.
    rewrite Hzone, String.eqb_refl, Nat.eqb_refl. cbn [andb].
    eexists. split; reflexivity.
Qed.

(** What [updateRecord] wrote, [getRecord] reads back: on a vendor that
    serves the requests, for a resolvable zone and a non-empty value,
    however many records the key had before. *)
Theorem updateRecord_then_getRecord
        (this : CloudflareProvider) (zone domain type value : string)
        (w : World) :
  faults w = [] ->
  zone_of this domain (vendor w) = Some zone ->
  truthy_string zone = true ->
  truthy_string value = true ->
  exists w1 w2,
    updateRecord this domain type value w = (Return true, w1)
    /\ getRecord this domain type w1 = (Return (Some value), w2).
Proof.
  intros Hf Hz Ht Hv.
  destruct (updateRecord_served this zone domain type value w Hf Hz Ht)
    as (w1 & E1 & Hv1 & _ & Hf1 & _).
  assert (Hz1 : zone_of this domain (vendor w1) = Some zone).
  { rewrite Hv1, zone_of_after_write; [exact Hz|].
    unfold write_request. now destruct (matching _ _ _ _). }
  destruct (getRecord_served this zone domain type w1 Hf1 Hz1 Ht) as (w2 & E2).
  exists w1, w2. split; [exact E1|]. rewrite E2, Hv1.
  destruct (matching_head_after_write zone type domain value (vendor w))
    as (r & -> & Hc).
  cbn [content_or_null]. now rewrite Hc, Hv.
Qed.

Lemma updateRecord_then_getRecord_witness :
  let w := example_world None [example_record; example_record] [] in
  exists w1 w2,
    updateRecord example_provider "hk01.example.com" "A" "192.0.2.7" w
    = (Return true, w1)
    /\ getRecord example_provider "hk01.example.com" "A" w1
       = (Return (Some "192.0.2.7"), w2).
Proof.
  apply (updateRecord_then_getRecord example_provider "zone-1"); reflexivity.
Defined.

(** Without a zone nothing is written: when no zone identifier is
    configured and the zone lookup fails, is refused or finds no zone,
    [updateRecord] answers [false] after that one lookup and the vendor's
    records are untouched. *)
Theorem updateRecord_without_zone
        (this : CloudflareProvider) (domain type value : string) (w : World) :
  present (zoneId this) = false ->
  (zones_named (getBaseDomain domain) (vendor w) = []
   \/ (exists fs, faults w = TransportError :: fs)
   \/ (exists fs, faults w = VendorError :: fs)) ->
  exists w',
    updateRecord this domain type value w = (Return false, w')
    /\ vendor w' = vendor w
    /\ sent w' = (sent w ++ [GetZones (getBaseDomain domain)])%list.
Proof.
  intros Hp Hz.
  assert (E : exists w1,
             resolveZone this domain w = (Return None, w1)
             /\ vendor w1 = vendor w
             /\ sent w1 = (sent w ++ [GetZones (getBaseDomain domain)])%list).
  { assert (G : exists w1,
               getZoneId this domain w = (Return None, w1)
               /\ vendor w1 = vendor w
               /\ sent w1 = (sent w ++ [GetZones (getBaseDomain domain)])%list).
    { unfold getZoneId, try_catch, bind, fetch.
      destruct Hz as [Hz | [(fs & ->) | (fs & ->)]].
      - unfold zones_named in Hz.
        destruct (faults w) as [|[| |] fs]; cbn [serve]; rewrite ?Hz;
          cbn; eexists; repeat split; reflexivity.
      - cbn. eexists. repeat split; reflexivity.
      - cbn. eexists. repeat split; reflexivity. }
    unfold resolveZone. unfold present in Hp.
    destruct (zoneId this) as [z|]; [rewrite Hp|]; exact G. }
  destruct E as (w1 & E & Hv & Hs).
  unfold updateRecord, try_catch, bind. rewrite E. cbn.
  eexists. split; [reflexivity|]. cbn. now split.
Qed.

Lemma updateRecord_without_zone_witness :
  let w := example_world None [example_record] [TransportError] in
  exists w',
    updateRecord example_provider "hk01.example.com" "A" "192.0.2.7" w
    = (Return false, w')
    /\ vendor w' = vendor w
    /\ sent w' = [GetZones "example.com"].
Proof.
  apply (updateRecord_without_zone example_provider "hk01.example.com" "A"
           "192.0.2.7" (example_world None [example_record] [TransportError]));
    [reflexivity | right; left; eexists; reflexivity].
Defined.

End AdapterMore.

(** ** Labels of a domain name: [split('.')] and [join('.')] *)

Section Labels.
Import Js Eff Dns.

Lemma split_dot_step (c : ascii) (s : string) :
  split_from "." 0 (String c s)
  = (let (p, ps) := split_from "." 0 s in
     if Ascii.eqb c "." then (EmptyString, p :: ps) else (String c p, ps)).
Proof.
  cbn [split_from String.prefix String.length Nat.sub].
  destruct (ascii_dec "." c) as [<-|Hne].
  - cbn. now destruct s.
  - destruct (Ascii.eqb_spec c "."); [congruence | reflexivity].
Qed.

Lemma concat_cons_char (sep : string) (c : ascii) (p : string)
      (ps : list string) :
  String.concat sep (String c p :: ps) = String c (String.concat sep (p :: ps)).
Proof. now destruct ps. Qed.

(** Joining the labels gives the name back. *)
Lemma join_split_dot (s : string) : join "." (split "." s) = s.
Proof.
  unfold join, split. induction s as [|c s IH]; [reflexivity|].
  rewrite split_dot_step. destruct (split_from "." 0 s) as [p ps].
  destruct (Ascii.eqb_spec c ".") as [->|_].
  - change (String.concat "." (EmptyString :: p :: ps))
      with (EmptyString ++ "." ++ String.concat "." (p :: ps)).
    now rewrite IH.
  - now rewrite concat_cons_char, IH.
Qed.

Lemma split_labels_dot_free (s : string) :
  forallb dot_free (split "." s) = true.
Proof.
  unfold split. induction s as [|c s IH]; [reflexivity|].
  rewrite split_dot_step. destruct (split_from "." 0 s) as [p ps].
  cbn [forallb] in *. destruct (Ascii.eqb c ".") eqn:E.
  - exact IH.
  - cbn [forallb dot_free]. rewrite E. exact IH.
Qed.

Lemma split_from_label (x rest : string) :
  dot_free x = true ->
  split_from "." 0 (x ++ rest)
  = (let (p, ps) := split_from "." 0 rest in (x ++ p, ps)).
Proof.
  induction x as [|c x IH]; intros H.
  - cbn. now destruct (split_from "." 0 rest).
  - cbn [dot_free] in H. apply andb_true_iff in H as [Hc Hx].
    cbn [append]. rewrite split_dot_step, (IH Hx).
    apply negb_true_iff in Hc. rewrite Hc.
    now destruct (split_from "." 0 rest).
Qed.

(** Splitting the join of labels gives the labels back. *)
Lemma split_join_dot (l : list string) :
  l <> [] -> forallb dot_free l = true -> split "." (join "." l) = l.
Proof.
  unfold split, join. induction l as [|x l IH]; intros Hne H; [congruence|].
  cbn [forallb] in H. apply andb_true_iff in H as [Hx Hl].
  destruct l as [|y l].
  - cbn [String.concat]. rewrite <- (append_empty_r x) at 1.
    rewrite (split_from_label _ _ Hx). cbn. now rewrite append_empty_r.
  - change (String.concat "." (x :: y :: l))
      with (x ++ String "." (String.concat "." (y :: l))).
    rewrite (split_from_label _ _ Hx), split_dot_step.
    specialize (IH ltac:(discriminate) Hl).
    destruct (split_from "." 0 (String.concat "." (y :: l))) as [p ps].
    cbn. rewrite append_empty_r. now rewrite IH.
Qed.

Lemma join_app_suffix (a b : list string) :
  b <> [] -> exists pre, join "." (a ++ b) = pre ++ join "." b.
Proof.
  unfold join. intros Hb. induction a as [|x a [pre IH]].
  - now exists EmptyString.
  - cbn [app]. destruct (a ++ b)%list as [|y l] eqn:E.
    + destruct a; [cbn in E; congruence | discriminate E].
    + exists (x ++ "." ++ pre).
      change (String.concat "." (x :: y :: l))
        with (x ++ "." ++ String.concat "." (y :: l)).
      now rewrite IH, !append_assoc.
Qed.

Lemma forallb_skipn {A} (f : A -> bool) (n : nat) (l : list A) :
  forallb f l = true -> forallb f (skipn n l) = true.
Proof.
  revert l. induction n as [|n IH]; intros l H; [exact H|].
  destruct l as [|x l]; [reflexivity|]. cbn in *.
  apply andb_true_iff in H as [_ H]. now apply IH.
Qed.

(** [getBaseDomain] keeps a name of one or two labels; its result is
    always a suffix of the name with at most two labels, so applying it
    again changes nothing. *)
Theorem getBaseDomain_two_labels (domain : string) :
  (exists pre, domain = pre ++ getBaseDomain domain)
  /\ (List.length (split "." (getBaseDomain domain)) <= 2)%nat
  /\ ((List.length (split "." domain) <= 2)%nat -> getBaseDomain domain = domain)
  /\ getBaseDomain (getBaseDomain domain) = getBaseDomain domain.
Proof.
  assert (Short : forall d, (List.length (split "." d) <= 2)%nat ->
                            getBaseDomain d = d).
  { intros d H. unfold getBaseDomain.
    destruct (Nat.leb_spec 2 (List.length (split "." d))); [|reflexivity].
    replace (List.length (split "." d) - 2)%nat with 0%nat by lia.
    cbn [skipn]. apply join_split_dot. }
  assert (Two : (List.length (split "." (getBaseDomain domain)) <= 2)%nat).
  { unfold getBaseDomain.
    destruct (Nat.leb_spec 2 (List.length (split "." domain))) as [H|H]; [|lia].
    rewrite split_join_dot.
    - rewrite length_skipn. lia.
    - intros E. apply (f_equal (@List.length string)) in E.
      rewrite length_skipn in E. cbn in E. lia.
    - apply forallb_skipn, split_labels_dot_free. }
  split; [|split; [exact Two | split; [apply Short | now apply Short]]].
  unfold getBaseDomain.
  destruct (Nat.leb_spec 2 (List.length (split "." domain))) as [H|H];
    [|now exists EmptyString].
  destruct (join_app_suffix
              (firstn (List.length (split "." domain) - 2) (split "." domain))
              (skipn (List.length (split "." domain) - 2) (split "." domain)))
    as [pre E].
  - intros E. apply (f_equal (@List.length string)) in E.
    rewrite length_skipn in E. cbn in E. lia.
  - rewrite firstn_skipn, join_split_dot in E. now exists pre.
Qed.

Lemma getBaseDomain_two_labels_witness :
  (List.length (split "." "example.com") <= 2)%nat
  /\ getBaseDomain "example.com" = "example.com"
  /\ getBaseDomain (getBaseDomain "a.b.hk01.example.com") = "example.com".
Proof.
  split; [cbn; lia|].
  destruct (getBaseDomain_two_labels "example.com") as (_ & _ & Hshort & _).
  split; [apply Hshort; cbn; lia | reflexivity].
Defined.

End Labels.

(** ** DNS: more on the service *)

Section ServiceMore.
Import Js Eff Dns.

(** [updateRecord] returns, and leaves the store and the provider
    alone, whatever happens to its requests. *)
Lemma updateRecord_frame (this : CloudflareProvider)
      (domain type value : string) (w : World) :
  exists b w',
    updateRecord this domain type value w = (Return b, w')
    /\ same_store w w'.
Proof.
  unfold updateRecord, try_catch, bind at 1.
  destruct (resolveZone_reads this domain w) as (z & w1 & -> & (S1 & _)).
  destruct z as [zone|].
  2:{ unfold throw, write_log, modify, bind, ret. do 2 eexists.
      split; [reflexivity|].
      exact (same_store_trans _ _ _ S1 (same_store_log _ _)). }
  destruct (falsy_zone (Some zone)).
  { unfold throw, write_log, modify, bind, ret. do 2 eexists.
    split; [reflexivity|].
    exact (same_store_trans _ _ _ S1 (same_store_log _ _)). }
  unfold bind at 1.
  destruct (findRecord_reads this zone domain type w1) as (r & w2 & -> & (S2 & _)).
  pose proof (same_store_trans _ _ _ S1 S2) as S12.
  destruct r as [r|]; unfold updateExistingRecord, createNewRecord, bind.
  - destruct (fetch_any (PutRecord zone (rec_id r) value) w2)
      as (o & w3 & -> & S3 & _).
    destruct o; unfold throw, write_log, modify, bind, ret;
      do 2 eexists; (split; [reflexivity|]);
      exact (same_store_trans _ _ _ (same_store_trans _ _ _ S12 S3)
               (same_store_log _ _)).
  - destruct (fetch_any (PostRecord zone type domain value) w2)
      as (o & w3 & -> & S3 & _).
    destruct o; unfold throw, write_log, modify, bind, ret;
      do 2 eexists; (split; [reflexivity|]);
      exact (same_store_trans _ _ _ (same_store_trans _ _ _ S12 S3)
               (same_store_log _ _)).
Qed.

Lemma same_row_by_id (rows : list DnsRow) (a b : DnsRow) :
  NoDup (map row_id rows) -> In a rows -> In b rows ->
  row_id a = row_id b -> a = b.
Proof.
  induction rows as [|x rows IH]; intros Hnd Ha Hb E; [contradiction|].
  cbn [map] in Hnd. apply NoDup_cons_iff in Hnd as [Hx Hnd].
  destruct Ha as [<-|Ha], Hb as [<-|Hb]; try reflexivity.
  - exfalso. apply Hx. rewrite E. now apply in_map.
  - exfalso. apply Hx. rewrite <- E. now apply in_map.
  - now apply IH.
Qed.

Lemma filter_map_in {A} (f : A -> bool) (g : A -> A) (l : list A) :
  (forall x, In x l -> f (g x) = f x) ->
  (forall x, In x l -> f x = true -> g x = x) ->
  filter f (map g l) = filter f l.
Proof.
  induction l as [|x l IH]; intros Hf Hg; [reflexivity|].
  cbn [map filter]. rewrite (Hf x (or_introl eq_refl)).
  rewrite IH;
    [| intros y Hy; apply Hf; now right
     | intros y Hy Ey; apply Hg; [now right | exact Ey]].
  destruct (f x) eqn:E; [|reflexivity].
  now rewrite (Hg x (or_introl eq_refl) E).
Qed.

Lemma filter_map_commute {A} (f : A -> bool) (g : A -> A) (l : list A) :
  (forall x, f (g x) = f x) -> filter f (map g l) = map g (filter f l).
Proof.
  intros Hf. induction l as [|x l IH]; [reflexivity|].
  cbn [map filter]. rewrite Hf, IH. now destruct (f x).
Qed.

(** The write-back is an upsert keyed by the node: when
    [updateDnsRecord] answers [true], the first row [getNodeDnsRecords]
    lists for the node holds the domain, type and value of the request and
    the time of the update; the node has one row if it had none and as many
    as before otherwise; and, row identifiers being distinct, the rows of
    the other nodes are untouched. *)
Theorem updateDnsRecord_writes_back
        (request : DnsUpdateRequest) (w w' : World) :
  updateDnsRecord request w = (Return true, w') ->
  exists r rest,
    fst (getNodeDnsRecords (req_nodeId request) w') = Return (r :: rest)
    /\ nodeId r = req_nodeId request
    /\ domain r = req_domain request
    /\ type r = req_type request
    /\ value r = req_value request
    /\ lastUpdated r = Some (now w)
    /\ List.length (r :: rest)
       = Nat.max 1 (List.length (rows_of (req_nodeId request) (dnsRecords w)))
    /\ (NoDup (map row_id (dnsRecords w)) ->
        rows_of_others (req_nodeId request) (dnsRecords w')
        = rows_of_others (req_nodeId request) (dnsRecords w)).
Proof.
  unfold updateDnsRecord, try_catch, bind at 1, gets.
  destruct (defaultProvider w) as [p|]; [|discriminate].
  unfold bind at 1, select_by_node, gets. unfold bind at 1.
  destruct (updateRecord_frame p (req_domain request) (req_type request)
              (req_value request) w) as (b & w1 & -> & (_ & Hn & Hr & Hx & Ht)).
  destruct b; [|discriminate].
  unfold bind at 1, gets. unfold bind at 1.
  fold (rows_of (req_nodeId request) (dnsRecords w)).
  destruct (rows_of (req_nodeId request) (dnsRecords w)) as [|n ns] eqn:E;
    cbn [firstn].
  - unfold insert_row.
    destruct (existsb (Z.eqb (req_nodeId request)) (nodeIds w1)); [|discriminate].
    unfold bind, write_log, modify, ret. intros [= <-].
    unfold getNodeDnsRecords, try_catch, gets. cbn [fst dnsRecords with_log with_rows].
    rewrite Hr, Ht. fold (rows_of (req_nodeId request)).
    unfold rows_of, rows_of_others in *. rewrite !filter_app, E. cbn.
    rewrite Z.eqb_refl. cbn. do 2 eexists. split; [reflexivity|].
    repeat split. now rewrite app_nil_r.
  - unfold update_row, bind, write_log, modify, ret. intros [= <-].
    unfold getNodeDnsRecords, try_catch, gets. cbn [fst dnsRecords with_log with_rows].
    rewrite Hr, Ht. unfold rows_of, rows_of_others in *.
    rewrite filter_map_commute by (intros x; now destruct (row_id x =? row_id n)).
    rewrite E. cbn [map]. rewrite Z.eqb_refl.
    assert (Hin : In n (filter (fun r => nodeId r =? req_nodeId request)
                               (dnsRecords w))) by (rewrite E; now left).
    apply filter_In in Hin as [Hin Hnode]. apply Z.eqb_eq in Hnode.
    do 2 eexists. split; [reflexivity|]. cbn.
    rewrite length_map. repeat split; try exact Hnode.
    intros Hnd. apply filter_map_in.
    + intros x _. now destruct (row_id x =? row_id n).
    + intros x Hx' Ho. destruct (Z.eqb_spec (row_id x) (row_id n)) as [Eid|];
        [|reflexivity].
      rewrite (same_row_by_id _ _ _ Hnd Hx' Hin Eid) in Ho.
      rewrite Hnode, Z.eqb_refl in Ho. discriminate Ho.
Qed.

Lemma updateDnsRecord_writes_back_witness :
  let w := example_world (Some example_provider) [] [] in
  exists w' r rest,
    updateDnsRecord (example_request 1 "192.0.2.7") w = (Return true, w')
    /\ fst (getNodeDnsRecords 1 w') = Return (r :: rest)
    /\ value r = "192.0.2.7"
    /\ lastUpdated r = Some 1700000000
    /\ List.length (r :: rest) = 1%nat.
Proof.
  destruct (updateDnsRecord (example_request 1 "192.0.2.7")
              (example_world (Some example_provider) [] [])) as [o w'] eqn:E.
  assert (Ho : o = Return true)
    by (apply (f_equal fst) in E; symmetry; exact E).
  subst o.
  destruct (updateDnsRecord_writes_back _ _ _ E)
    as (r & rest & Hg & _ & _ & _ & Hv & Hu & Hl & _).
  exists w', r, rest. repeat split; assumption.
Defined.

(** The store changes only when [updateDnsRecord] answers [true]: when
    it answers [false] or raises, the rows, the node ids and the provider
    are what they were. *)
Theorem updateDnsRecord_store_kept
        (request : DnsUpdateRequest) (w w' : World) (o : outcome bool) :
  updateDnsRecord request w = (o, w') ->
  o <> Return true ->
  dnsRecords w' = dnsRecords w
  /\ nextRowId w' = nextRowId w
  /\ defaultProvider w' = defaultProvider w.
Proof.
  unfold updateDnsRecord, try_catch, bind at 1, gets.
  destruct (defaultProvider w) as [p|] eqn:Hp.
  2:{ unfold throw, bind, write_log, modify. intros [= <- <-] _. cbn. auto. }
  unfold bind at 1, select_by_node, gets. unfold bind at 1.
  destruct (updateRecord_frame p (req_domain request) (req_type request)
              (req_value request) w) as (b & w1 & -> & (Hd & Hn & Hr & Hx & Ht)).
  destruct b.
  2:{ unfold ret. intros [= <- <-] _. rewrite Hd, Hr, Hx. auto. }
  unfold bind at 1, gets. unfold bind at 1.
  destruct (firstn 1 _) as [|n ns].
  - unfold insert_row.
    destruct (existsb (Z.eqb (req_nodeId request)) (nodeIds w1)).
    + unfold bind, write_log, modify, ret. intros [= <- <-] H. now elim H.
    + unfold throw, bind, write_log, modify. intros [= <- <-] _. cbn.
      rewrite Hd, Hr, Hx. auto.
  - unfold update_row, bind, write_log, modify, ret.
    intros [= <- <-] H. now elim H.
Qed.

Lemma updateDnsRecord_store_kept_witness :
  let w := example_world (Some example_provider) [] [Healthy; Healthy; TransportError] in
  fst (updateDnsRecord (example_request 1 "192.0.2.7") w) = Return false
  /\ dnsRecords (snd (updateDnsRecord (example_request 1 "192.0.2.7") w))
     = dnsRecords w.
Proof.
  split; [reflexivity|].
  destruct (updateDnsRecord (example_request 1 "192.0.2.7")
              (example_world (Some example_provider) []
                 [Healthy; Healthy; TransportError])) as [o w'] eqn:E.
  assert (Ho : o = Return false)
    by (apply (f_equal fst) in E; symmetry; exact E).
  subst o.
  exact (proj1 (updateDnsRecord_store_kept _ _ _ _ E ltac:(discriminate))).
Defined.

(** The provider write and the write-back are not atomic: for a node
    that does not exist and has no row yet, on a vendor that serves the
    requests, [updateDnsRecord] raises at the write-back, after the vendor
    took the value; the store keeps its rows and the worker answers
    [false]. *)
Theorem updateDnsRecord_not_atomic
        (request : DnsUpdateRequest) (p : CloudflareProvider) (zone : string)
        (w : World) :
  defaultProvider w = Some p ->
  faults w = [] ->
  zone_of p (req_domain request) (vendor w) = Some zone ->
  truthy_string zone = true ->
  rows_of (req_nodeId request) (dnsRecords w) = [] ->
  existsb (Z.eqb (req_nodeId request)) (nodeIds w) = false ->
  exists w' r,
    updateDnsRecord request w = (Throw "FOREIGN KEY constraint failed", w')
    /\ dnsRecords w' = dnsRecords w
    /\ hd_error (matching zone (req_type request) (req_domain request)
                          (vendor w')) = Some r
    /\ rec_content r = req_value request
    /\ fst (addUpdateTask request w) = Return false.
Proof.
  intros Hp Hf Hz Ht Hrows Hfk.
  destruct (updateRecord_served p zone (req_domain request) (req_type request)
              (req_value request) w Hf Hz Ht)
    as (w1 & E1 & Hv1 & _ & _ & _ & Hr1 & Hn1).
  destruct (matching_head_after_write zone (req_type request)
              (req_domain request) (req_value request) (vendor w))
    as (r & Hhd & Hc).
  rewrite <- Hv1 in Hhd.
  assert (E : exists w',
             updateDnsRecord request w
             = (Throw "FOREIGN KEY constraint failed", w')
             /\ dnsRecords w' = dnsRecords w /\ vendor w' = vendor w1).
  { unfold updateDnsRecord, try_catch, bind at 1, gets. rewrite Hp.
    unfold bind at 1, select_by_node, gets. unfold bind at 1. rewrite E1.
    unfold bind at 1, gets. unfold bind at 1.
    fold (rows_of (req_nodeId request) (dnsRecords w)). rewrite Hrows.
    cbn [firstn]. unfold insert_row. rewrite Hn1, Hfk.
    unfold throw, bind, write_log, modify. eexists.
    split; [reflexivity|]. cbn. now split. }
  destruct E as (w' & E & Hr' & Hv').
  exists w', r. split; [exact E|]. split; [exact Hr'|].
  rewrite Hv'. split; [exact Hhd|]. split; [exact Hc|].
  unfold addUpdateTask. rewrite addUpdateTask_behind_run.
  unfold task, bind, write_log at 1, modify.
  assert (E' : exists w2,
             updateDnsRecord request
               (with_log (log w ++
                  [ {| logger := "DnsWorker"; level := Info;
                       message := "Processing DNS update: " ++ req_domain request
                                  ++ " (" ++ req_type request ++ ")" |} ])%list w)
             = (Throw "FOREIGN KEY constraint failed", w2)).
  { unfold updateDnsRecord, try_catch, bind at 1, gets.
    cbn [defaultProvider with_log]. rewrite Hp.
    unfold bind at 1, select_by_node, gets. unfold bind at 1.
    destruct (updateRecord_served p zone (req_domain request)
                (req_type request) (req_value request)
                (with_log (log w ++
                  [ {| logger := "DnsWorker"; level := Info;
                       message := "Processing DNS update: " ++ req_domain request
                                  ++ " (" ++ req_type request ++ ")" |} ])%list w)
                Hf Hz Ht) as (w2 & -> & _ & _ & _ & _ & Hr2 & Hn2).
    unfold bind at 1, gets. unfold bind at 1.
    cbn [dnsRecords with_log].
    fold (rows_of (req_nodeId request) (dnsRecords w)). rewrite Hrows.
    cbn [firstn]. unfold insert_row. rewrite Hn2. cbn [nodeIds with_log].
    rewrite Hfk. unfold throw, bind, write_log, modify. eauto. }
  destruct E' as (w2 & ->). reflexivity.
Qed.

Lemma updateDnsRecord_not_atomic_witness :
  let w := example_world (Some example_provider) [] [] in
  exists w' r,
    updateDnsRecord (example_request 5 "192.0.2.7") w
    = (Throw "FOREIGN KEY constraint failed", w')
    /\ dnsRecords w' = []
    /\ hd_error (matching "zone-1" "A" "hk01.example.com" (vendor w')) = Some r
    /\ rec_content r = "192.0.2.7"
    /\ fst (addUpdateTask (example_request 5 "192.0.2.7") w) = Return false.
Proof.
  apply (updateDnsRecord_not_atomic (example_request 5 "192.0.2.7")
           example_provider "zone-1"
           (example_world (Some example_provider) [] []));
    reflexivity.
Defined.

(** Only Cloudflare with a token gives a provider: [createDnsProvider]
    succeeds exactly then, with the token and the zone of the
    configuration; [initializeDnsProvider] installs that provider, and
    otherwise raises the factory's error and leaves the provider that was
    installed. *)
Theorem initializeDnsProvider_cloudflare_only
        (config : DnsProviderConfig) (w : World) :
  (forall p, createDnsProvider config = Return p <->
             (provider config = "cloudflare"
              /\ truthy_string (apiKey config) = true
              /\ p = {| apiToken := apiKey config;
                        zoneId := config_zoneId config |}))
  /\ (forall p, createDnsProvider config = Return p ->
                exists w', initializeDnsProvider config w = (Return tt, w')
                           /\ defaultProvider w' = Some p
                           /\ validateDnsConfig config = true)
  /\ (forall e, createDnsProvider config = Throw e ->
                exists w', initializeDnsProvider config w = (Throw e, w')
                           /\ defaultProvider w' = defaultProvider w).
Proof.
  split; [|split].
  - intros p. unfold createDnsProvider.
    destruct (String.eqb_spec (provider config) "cloudflare") as [Hc|Hc].
    + destruct (truthy_string (apiKey config)); cbn [negb]; split.
      * intros [= <-]. auto.
      * intros (_ & _ & ->). reflexivity.
      * discriminate.
      * intros (_ & H & _). discriminate H.
    + split.
      * destruct (String.eqb (provider config) "godaddy");
          [discriminate|].
        destruct (String.eqb (provider config) "namecheap"); discriminate.
      * intros (H & _). contradiction.
  - intros p Hp. unfold initializeDnsProvider, try_catch. rewrite Hp.
    unfold write_log, modify. eexists. split; [reflexivity|].
    split; [reflexivity|]. unfold createDnsProvider, validateDnsConfig in *.
    destruct (String.eqb (provider config) "cloudflare").
    + destruct (truthy_string (apiKey config)); [reflexivity | discriminate].
    + destruct (String.eqb (provider config) "godaddy"); [discriminate|].
      destruct (String.eqb (provider config) "namecheap"); discriminate.
  - intros e He. unfold initializeDnsProvider, try_catch. rewrite He.
    unfold throw, bind, write_log, modify. eexists. split; reflexivity.
Qed.

Lemma initializeDnsProvider_cloudflare_only_witness :
  let config := {| provider := "godaddy"; apiKey := "key";
                   apiSecret := Some "secret"; config_zoneId := None |} in
  let w := example_world (Some example_provider) [] [] in
  validateDnsConfig config = true
  /\ exists e w', initializeDnsProvider config w = (Throw e, w')
                  /\ defaultProvider w' = Some example_provider.
Proof.
  split; [reflexivity|].
  destruct (initializeDnsProvider_cloudflare_only
              {| provider := "godaddy"; apiKey := "key";
                 apiSecret := Some "secret"; config_zoneId := None |}
              (example_world (Some example_provider) [] []))
    as (_ & _ & H).
  destruct (H _ eq_refl) as (w' & E & Hp).
  eexists. exists w'. split; [exact E | exact Hp].
Defined.

(** From the environment to a provider: the configuration read by
    [getDnsConfig] is accepted by [createDnsProvider] exactly when the
    lower-cased [DNS_PROVIDER], [cloudflare] when unset or empty, is
    [cloudflare] and [CLOUDFLARE_API_TOKEN] is set and not empty; the
    provider then carries that token and [CLOUDFLARE_ZONE_ID]. *)
Theorem getDnsConfig_gives_provider
        (env : string -> option string) (toLowerCase : string -> string)
        (p : CloudflareProvider) :
  (exists config, getDnsConfig env toLowerCase = Return config
                  /\ createDnsProvider config = Return p)
  <-> (toLowerCase (or_string (env "DNS_PROVIDER") "cloudflare") = "cloudflare"
       /\ present (env "CLOUDFLARE_API_TOKEN") = true
       /\ p = {| apiToken := or_string (env "CLOUDFLARE_API_TOKEN") EmptyString;
                 zoneId := env "CLOUDFLARE_ZONE_ID" |}).
Proof.
  unfold getDnsConfig.
  destruct (String.eqb_spec
              (toLowerCase (or_string (env "DNS_PROVIDER") "cloudflare"))
              "cloudflare") as [Hc|Hc].
  - split.
    + intros (config & [= <-] & Hp). unfold createDnsProvider in Hp.
      cbn in Hp. split; [exact Hc|].
      destruct (env "CLOUDFLARE_API_TOKEN") as [t|]; cbn in *;
        [|discriminate Hp].
      destruct (truthy_string t) eqn:Et; cbn in *; [|discriminate Hp].
      rewrite Et in Hp. cbn in Hp. injection Hp as <-. auto.
    + intros (_ & Ht & ->). eexists. split; [reflexivity|].
      unfold createDnsProvider. cbn.
      destruct (env "CLOUDFLARE_API_TOKEN") as [t|]; cbn in *;
        [|discriminate Ht].
      rewrite Ht. cbn. now rewrite Ht.
  - split; [|intros (H & _); contradiction].
    intros (config & Hg & Hp).
    destruct (String.eqb _ "godaddy");
      [injection Hg as <-; unfold createDnsProvider in Hp; cbn in Hp;
       discriminate Hp|].
    destruct (String.eqb _ "namecheap");
      [injection Hg as <-; unfold createDnsProvider in Hp; cbn in Hp;
       discriminate Hp | discriminate Hg].
Qed.

Lemma getDnsConfig_gives_provider_witness :
  let env := fun k : string =>
               if String.eqb k "CLOUDFLARE_API_TOKEN" then Some "token"
               else None in
  exists config,
    getDnsConfig env (fun s => s) = Return config
    /\ createDnsProvider config
       = Return {| apiToken := "token"; zoneId := None |}.
Proof.
  cbv zeta.
  apply (proj2 (getDnsConfig_gives_provider
                  (fun k : string =>
                     if String.eqb k "CLOUDFLARE_API_TOKEN" then Some "token"
                     else None)
                  (fun s => s) {| apiToken := "token"; zoneId := None |})).
  repeat split.
Defined.

(** [checkDnsRecord] raises exactly when no provider was initialised.
    With a provider it returns whatever happens to the lookups, and for a
    supplied, non-empty expectation [matches] holds exactly when the
    record's content is the expectation; an empty expectation counts as
    none. *)
Theorem checkDnsRecord_expectation (request : DnsCheckRequest) (w : World) :
  (defaultProvider w = None ->
   exists w', checkDnsRecord request w
              = (Throw "DNS provider not initialized", w'))
  /\ (forall p, defaultProvider w = Some p ->
        exists r w',
          checkDnsRecord request w = (Return r, w')
          /\ res_domain r = chk_domain request
          /\ vendor w' = vendor w
          /\ (forall e, expectedValue request = Some e ->
                truthy_string e = true ->
                (matches r = true <-> currentValue r = Some e))
          /\ (expectedValue request = Some EmptyString -> matches r = true)).
Proof.
  split.
  - intros Hp. unfold checkDnsRecord, try_catch, bind, gets. rewrite Hp.
    unfold throw, write_log, modify. eauto.
  - intros p Hp.
    destruct (getRecord_reads p (chk_domain request) "A" w)
      as (current & w1 & E & _ & Hv & _).
    unfold checkDnsRecord, try_catch, bind, gets. rewrite Hp, E.
    unfold ret. do 2 eexists. split; [reflexivity|]. cbn.
    split; [reflexivity|]. split; [exact Hv|]. split.
    + intros e -> ->. unfold strict_eq. destruct current as [c|].
      * destruct (String.eqb_spec c e); split; congruence.
      * split; discriminate.
    + now intros ->.
Qed.

Lemma checkDnsRecord_expectation_witness :
  let request := {| chk_domain := "hk01.example.com";
                    expectedValue := Some "192.0.2.1" |} in
  let w := example_world (Some example_provider) [example_record] [] in
  exists r w',
    checkDnsRecord request w = (Return r, w')
    /\ (matches r = true <-> currentValue r = Some "192.0.2.1")
    /\ matches r = true.
Proof.
  destruct (proj2 (checkDnsRecord_expectation
                     {| chk_domain := "hk01.example.com";
                        expectedValue := Some "192.0.2.1" |}
                     (example_world (Some example_provider) [example_record] []))
                  example_provider eq_refl)
    as (r & w' & E & _ & _ & Hm & _).
  exists r, w'. split; [exact E|]. split; [exact (Hm _ eq_refl eq_refl)|].
  apply (f_equal fst) in E. cbn in E. injection E as <-. reflexivity.
Defined.

(** Before a provider is initialised the worker answers [false] to
    every task of a batch, sends nothing to the vendor and writes nothing
    to the store. *)
Theorem addUpdateTasks_without_provider
        (requests : list DnsUpdateRequest) (w : World) :
  defaultProvider w = None ->
  exists w',
    addUpdateTasks requests w
    = (Return (repeat false (List.length requests)), w')
    /\ sent w' = sent w
    /\ vendor w' = vendor w
    /\ dnsRecords w' = dnsRecords w
    /\ defaultProvider w' = None.
Proof.
  rewrite addUpdateTasks_batch. generalize 0%nat. revert w.
  induction requests as [|request requests IH]; intros w behind Hp.
  - exists w. cbn. auto.
  - cbn [batch List.length repeat]. unfold bind at 1.
    assert (E : exists w1,
               addUpdateTask_behind (List.length requests + behind) request w
               = (Return false, w1)
               /\ sent w1 = sent w /\ vendor w1 = vendor w
               /\ dnsRecords w1 = dnsRecords w /\ defaultProvider w1 = None).
    { rewrite addUpdateTask_behind_run.
      unfold task, updateDnsRecord, try_catch, bind, gets, write_log, modify,
        throw.
      cbn [defaultProvider with_log]. rewrite Hp. cbn.
      eexists. split; [reflexivity|]. cbn. auto. }
    destruct E as (w1 & -> & Hs & Hv & Hr & Hp1).
    unfold bind at 1.
    destruct (IH w1 behind Hp1) as (w' & -> & Hs' & Hv' & Hr' & Hp').
    exists w'. split; [reflexivity|]. repeat split; congruence.
Qed.

Lemma addUpdateTasks_without_provider_witness :
  let w := example_world None [example_record] [] in
  exists w',
    addUpdateTasks [example_request 1 "192.0.2.7"; example_request 1 "192.0.2.9"] w
    = (Return [false; false], w')
    /\ sent w' = []
    /\ vendor w' = vendor w.
Proof.
  destruct (addUpdateTasks_without_provider
              [example_request 1 "192.0.2.7"; example_request 1 "192.0.2.9"]
              (example_world None [example_record] []) eq_refl)
    as (w' & E & Hs & Hv & _).
  exists w'. split; [exact E|]. split; [exact Hs | exact Hv].
Defined.

(** [deleteDnsRecord] deletes from the store only: it answers whether
    a row had the identifier, keeps the other rows, and issues no request,
    so the vendor's record stays and a lookup of the domain afterwards
    still returns its content. *)
Theorem deleteDnsRecord_store_only
        (recordId : Z) (this : CloudflareProvider) (zone domain type : string)
        (w : World) :
  faults w = [] ->
  zone_of this domain (vendor w) = Some zone ->
  truthy_string zone = true ->
  exists b w',
    deleteDnsRecord recordId w = (Return b, w')
    /\ (b = true <-> In recordId (map row_id (dnsRecords w)))
    /\ dnsRecords w'
       = filter (fun r => negb (row_id r =? recordId)) (dnsRecords w)
    /\ vendor w' = vendor w
    /\ sent w' = sent w
    /\ fst (getRecord this domain type w')
       = Return (content_or_null
                   (hd_error (matching zone type domain (vendor w)))).
Proof.
  intros Hf Hz Ht. do 2 eexists. split; [reflexivity|].
  cbn [dnsRecords vendor sent with_rows]. split; [|repeat split].
  - destruct (filter (fun r => row_id r =? recordId) (dnsRecords w))
      as [|x xs] eqn:E; cbn [List.length Nat.ltb Nat.leb].
    + split; [discriminate|]. intros Hin. exfalso.
      apply in_map_iff in Hin as (r & Er & Hr).
      assert (In r (filter (fun r => row_id r =? recordId) (dnsRecords w)))
        by (apply filter_In; split; [exact Hr | now apply Z.eqb_eq]).
      rewrite E in H. contradiction.
    + split; [intros _|reflexivity].
      assert (Hx : In x (filter (fun r => row_id r =? recordId) (dnsRecords w)))
        by (rewrite E; now left).
      apply filter_In in Hx as [Hx Ex]. apply Z.eqb_eq in Ex.
      rewrite <- Ex. now apply in_map.
  - match goal with
    | |- fst (getRecord _ _ _ ?w1) = _ =>
        destruct (getRecord_served this zone domain type w1 Hf Hz Ht)
          as (w2 & ->)
    end.
    reflexivity.
Qed.

Lemma deleteDnsRecord_store_only_witness :
  exists b w',
    deleteDnsRecord 1 (example_world (Some example_provider) [example_record] [])
    = (Return b, w')
    /\ fst (getRecord example_provider "hk01.example.com" "A" w')
       = Return (Some "192.0.2.1").
Proof.
  destruct (deleteDnsRecord_store_only 1 example_provider "zone-1"
              "hk01.example.com" "A"
              (example_world (Some example_provider) [example_record] [])
              eq_refl eq_refl eq_refl)
    as (b & w' & E & _ & _ & _ & _ & Hg).
  exists b, w'. split; [exact E | exact Hg].
Defined.

End ServiceMore.

(** ** The monitor: more on the sweep *)

Section MonitorMore.
Import Js Eff Monitor.

Variable config : MonitorConfig.
Variable usageAtLeast : number -> number -> Z -> bool.

Lemma same_host_by_name (hs : list Host) (a b : Host) :
  NoDup (map name hs) -> In a hs -> In b hs -> name a = name b -> a = b.
Proof.
  induction hs as [|x hs IH]; intros Hnd Ha Hb E; [contradiction|].
  cbn [map] in Hnd. apply NoDup_cons_iff in Hnd as [Hx Hnd].
  destruct Ha as [<-|Ha], Hb as [<-|Hb]; try reflexivity.
  - exfalso. apply Hx. rewrite E. now apply in_map.
  - exfalso. apply Hx. rewrite <- E. now apply in_map.
  - now apply IH.
Qed.

(** No host of that name is stale: the heartbeat check attempts no
    offline notification under that name, however the loop ends. *)
Lemma heartbeat_events_silent (t t_mark : Z) (enabled : bool) (n : string)
      (hs : list Host) :
  (forall x, In x hs -> name x = n -> stale config t x = false) ->
  filter (is_offline_notice n) (heartbeat_events config t t_mark enabled hs) = [].
Proof.
  intros H. unfold heartbeat_events.
  assert (S : filter (is_offline_notice n)
                     (fst (heartbeat_scan config t enabled hs)) = []).
  { induction hs as [|h hs IH]; [reflexivity|].
    cbn [heartbeat_scan].
    assert (IH' := IH (fun x Hx => H x (or_intror Hx))).
    destruct (stale config t h) eqn:Hst; [|exact IH'].
    assert (Hne : String.eqb (name h) n = false).
    { destruct (String.eqb_spec (name h) n) as [E|]; [|reflexivity].
      rewrite (H h (or_introl eq_refl) E) in Hst. discriminate Hst. }
    destruct (notifyOnHostOffline config && enabled).
    - destruct (notice_fails h); [reflexivity|].
      destruct (heartbeat_scan config t enabled hs) as [es failed].
      cbn in *. now rewrite Hne.
    - destruct (heartbeat_scan config t enabled hs) as [es failed].
      exact IH'. }
  destruct (heartbeat_scan config t enabled hs) as [es [|]]; cbn [fst] in S;
    rewrite filter_app, S; [reflexivity|].
  apply mark_events_no_offline_notice.
Qed.

Lemma sweep_added_notices (t t_mark : Z) (w : World) (n : string) :
  exists added,
    trace (snd (runCheck config usageAtLeast t t_mark w))
    = (trace w ++ added)%list
    /\ filter (is_offline_notice n) added
       = filter (is_offline_notice n)
           (heartbeat_events config t t_mark (telegramEnabled w) (hosts w)).
Proof.
  rewrite runCheck_run. cbn [snd trace]. eexists. split; [reflexivity|].
  rewrite !filter_app, (disk_events_no_offline_notice config usageAtLeast).
  cbn. now rewrite app_nil_r.
Qed.

Lemma fresh_host_kept (t t_mark : Z) (w : World) (h : Host) (lh : Z) :
  In h (hosts w) ->
  lastHeartbeat h = Val lh ->
  t_mark - lh <= hostHeartbeatTimeout config ->
  In h (hosts (snd (runCheck config usageAtLeast t t_mark w))).
Proof.
  intros Hin Hlh Hfresh.
  rewrite runCheck_run. cbn [snd hosts]. unfold hosts_after.
  destruct (snd _); [exact Hin|].
  unfold marked. apply in_map_iff. exists h. split; [|exact Hin].
  unfold stale_in_store. rewrite Hlh.
  destruct (Z.ltb_spec lh (t_mark - hostHeartbeatTimeout config));
    [lia | reflexivity].
Qed.

Lemma fresh_host_silent (t t_mark : Z) (w : World) (h : Host) (lh : Z) :
  NoDup (map name (hosts w)) ->
  In h (hosts w) ->
  lastHeartbeat h = Val lh ->
  t - lh <= hostHeartbeatTimeout config ->
  exists added,
    trace (snd (runCheck config usageAtLeast t t_mark w))
    = (trace w ++ added)%list
    /\ filter (is_offline_notice (name h)) added = [].
Proof.
  intros Hnd Hin Hlh Hfresh.
  destruct (sweep_added_notices t t_mark w (name h)) as (added & E & F).
  exists added. split; [exact E|]. rewrite F.
  apply heartbeat_events_silent. intros x Hx Hn.
  rewrite (same_host_by_name _ _ _ Hnd Hx Hin Hn).
  unfold stale. rewrite Hlh, or_int_val.
  destruct (Z.gtb_spec (t - lh) (hostHeartbeatTimeout config));
    [lia | apply andb_false_r].
Qed.

(** A sweep spares the hosts whose heartbeat is recent: among hosts
    with distinct names, a host whose last heartbeat is at most
    [hostHeartbeatTimeout] seconds old when [markOfflineHosts] runs keeps
    its row as it is, and no offline notification is attempted for it. *)
Theorem sweep_spares_fresh_hosts
        (t t_mark : Z) (w : World) (h : Host) (lh : Z) :
  t <= t_mark ->
  NoDup (map name (hosts w)) ->
  In h (hosts w) ->
  lastHeartbeat h = Val lh ->
  t_mark - lh <= hostHeartbeatTimeout config ->
  let w' := snd (runCheck config usageAtLeast t t_mark w) in
  In h (hosts w')
  /\ exists added,
      trace w' = (trace w ++ added)%list
      /\ filter (is_offline_notice (name h)) added = [].
Proof.
  intros Ht Hnd Hin Hlh Hfresh w'. subst w'. split.
  - now apply (fresh_host_kept t t_mark w h lh).
  - apply (fresh_host_silent t t_mark w h lh); auto. lia.
Qed.

(** A sweep only ever turns stale online rows offline: it adds,
    removes and renames no host, and each row is as it was unless it was
    stored as [online] with a heartbeat older than the timeout, in which
    case only its status and [updatedAt] change. *)
Theorem sweep_only_marks_stale_online (t t_mark : Z) (w : World) :
  let w' := snd (runCheck config usageAtLeast t t_mark w) in
  map name (hosts w') = map name (hosts w)
  /\ Forall2
       (fun h h' =>
          h' = h
          \/ (status h = "online"
              /\ (exists lh, lastHeartbeat h = Val lh
                             /\ lh < t_mark - hostHeartbeatTimeout config)
              /\ h' = mark t_mark h))
       (hosts w) (hosts w').
Proof.
  cbv zeta. rewrite runCheck_run. cbn [snd hosts]. unfold hosts_after.
  destruct (snd _).
  - split; [reflexivity|]. induction (hosts w); constructor; auto.
  - unfold marked. split.
    + rewrite map_map. apply map_ext. intros h.
      now destruct (stale_in_store _ h).
    + induction (hosts w) as [|h hs IH]; cbn [map]; constructor; [|exact IH].
      unfold stale_in_store.
      destruct (lastHeartbeat h) as [| |lh] eqn:E; auto.
      destruct (Z.ltb_spec lh (t_mark - hostHeartbeatTimeout config)); auto.
      destruct (String.eqb_spec (status h) "online"); cbn; auto.
      right. split; [assumption|]. split; [|reflexivity]. now exists lh.
Qed.

Lemma sweep_keeps_names (t t_mark : Z) (w : World) :
  map name (hosts (snd (runCheck config usageAtLeast t t_mark w)))
  = map name (hosts w).
Proof.
  rewrite runCheck_run. cbn [snd hosts]. unfold hosts_after.
  destruct (snd _); [reflexivity|].
  unfold marked. rewrite map_map. apply map_ext. intros h.
  now destruct (stale_in_store _ h).
Qed.

Lemma offline_row_kept (t t_mark : Z) (w : World) (x : Host) :
  In x (hosts w) -> status x = "offline" ->
  In x (hosts (snd (runCheck config usageAtLeast t t_mark w))).
Proof.
  intros Hin Hoff. rewrite runCheck_run. cbn [snd hosts]. unfold hosts_after.
  destruct (snd _); [exact Hin|].
  unfold marked. apply in_map_iff. exists x. split; [|exact Hin].
  unfold stale_in_store. rewrite Hoff.
  now destruct (lastHeartbeat x) as [| |z]; [| |destruct (z <? _)].
Qed.

Lemma offline_row_silent (t t_mark : Z) (w : World) (x : Host) :
  NoDup (map name (hosts w)) -> In x (hosts w) -> status x = "offline" ->
  exists added,
    trace (snd (runCheck config usageAtLeast t t_mark w))
    = (trace w ++ added)%list
    /\ filter (is_offline_notice (name x)) added = [].
Proof.
  intros Hnd Hin Hoff.
  destruct (sweep_added_notices t t_mark w (name x)) as (added & E & F).
  exists added. split; [exact E|]. rewrite F.
  apply heartbeat_events_silent. intros y Hy Hn.
  rewrite (same_host_by_name _ _ _ Hnd Hy Hin Hn).
  unfold stale. now rewrite Hoff.
Qed.

Lemma offline_row_through_sweeps (later : list (Z * Z)) (w : World) (x : Host) :
  NoDup (map name (hosts w)) -> In x (hosts w) -> status x = "offline" ->
  In x (hosts (sweeps config usageAtLeast later w))
  /\ exists added,
      trace (sweeps config usageAtLeast later w) = (trace w ++ added)%list
      /\ filter (is_offline_notice (name x)) added = [].
Proof.
  revert w. induction later as [|[t t_mark] later IH]; intros w Hnd Hin Hoff.
  - split; [exact Hin|]. exists []. now rewrite app_nil_r.
  - unfold sweeps in *. cbn [fold_left fst snd].
    destruct (offline_row_silent t t_mark w x Hnd Hin Hoff) as (a1 & E1 & F1).
    destruct (IH (snd (runCheck config usageAtLeast t t_mark w)))
      as (Hkept & a2 & E2 & F2).
    + now rewrite sweep_keeps_names.
    + now apply offline_row_kept.
    + exact Hoff.
    + split; [exact Hkept|]. exists (a1 ++ a2)%list.
      rewrite E2, E1, <- app_assoc. split; [reflexivity|].
      now rewrite filter_app, F1, F2.
Qed.

(** The alert for an online host is given once: after a sweep that
    marked it offline, the sweeps that follow, however many and whenever
    they run, attempt no offline notification for it and leave its row
    offline, as long as nothing else writes the table between them (no
    heartbeat of the host arrives). *)
Theorem offline_host_not_alerted_again
        (t1 t1_mark : Z) (later : list (Z * Z)) (w : World) (h : Host)
        (lh : Z) :
  Forall (fun x => notice_fails x = false) (hosts w) ->
  NoDup (map name (hosts w)) ->
  t1 <= t1_mark ->
  In h (hosts w) ->
  status h = "online" ->
  lastHeartbeat h = Val lh ->
  t1 - lh > hostHeartbeatTimeout config ->
  let w1 := snd (runCheck config usageAtLeast t1 t1_mark w) in
  let w2 := sweeps config usageAtLeast later w1 in
  In (mark t1_mark h) (hosts w1)
  /\ In (mark t1_mark h) (hosts w2)
  /\ exists added,
      trace w2 = (trace w1 ++ added)%list
      /\ filter (is_offline_notice (name h)) added = [].
Proof.
  intros Hok Hnd Ht Hin Hon Hlh Hold w1 w2.
  assert (Hstore : stale_in_store (t1_mark - hostHeartbeatTimeout config) h = true).
  { unfold stale_in_store. rewrite Hlh, Hon.
    destruct (Z.ltb_spec lh (t1_mark - hostHeartbeatTimeout config));
      [reflexivity | lia]. }
  assert (H1 : hosts w1 = marked t1_mark (hostHeartbeatTimeout config) (hosts w)).
  { subst w1. rewrite runCheck_run. cbn [snd hosts]. unfold hosts_after.
    now rewrite (heartbeat_scan_no_failure config t1 _ _ Hok). }
  assert (Hin1 : In (mark t1_mark h) (hosts w1)).
  { rewrite H1. unfold marked. apply in_map_iff. exists h.
    now rewrite Hstore. }
  split; [exact Hin1|].
  apply (offline_row_through_sweeps later w1 (mark t1_mark h));
    [|exact Hin1 | reflexivity].
  subst w1. now rewrite sweep_keeps_names.
Qed.

End MonitorMore.

Section MonitorMoreWitnesses.
Import Js Eff Monitor.

Lemma sweep_spares_fresh_hosts_witness :
  let fresh := example_host "vps-1" "online" (Val 900) (Val 100) (Val 10) in
  let w := example_world
             [example_host "vps-0" "online" (Val 600) (Val 100) (Val 10); fresh] in
  let w' := snd (runCheck defaultConfig usageAtLeast_exact 1000 1000 w) in
  1000 - 900 <= hostHeartbeatTimeout defaultConfig
  /\ In fresh (hosts w')
  /\ exists added,
      trace w' = (trace w ++ added)%list
      /\ filter (is_offline_notice "vps-1") added = [].
Proof.
  cbv zeta. split; [discriminate|].
  apply (sweep_spares_fresh_hosts defaultConfig usageAtLeast_exact 1000 1000
           (example_world
              [example_host "vps-0" "online" (Val 600) (Val 100) (Val 10);
               example_host "vps-1" "online" (Val 900) (Val 100) (Val 10)])
           (example_host "vps-1" "online" (Val 900) (Val 100) (Val 10)) 900).
  - apply Z.le_refl.
  - repeat constructor; cbn; intuition discriminate.
  - right. now left.
  - reflexivity.
  - discriminate.
Defined.

Lemma offline_host_not_alerted_again_witness :
  let h := example_host "vps-1" "online" (Val 600) (Val 100) (Val 10) in
  let w := example_world [h] in
  let w1 := snd (runCheck defaultConfig usageAtLeast_exact 1000 1000 w) in
  let w2 := sweeps defaultConfig usageAtLeast_exact
              [(1060, 1060); (1120, 1121); (1180, 1180)] w1 in
  In (Notification "Host Offline" "vps-1") (trace w1)
  /\ In (mark 1000 h) (hosts w1)
  /\ In (mark 1000 h) (hosts w2)
  /\ exists added,
      trace w2 = (trace w1 ++ added)%list
      /\ filter (is_offline_notice "vps-1") added = [].
Proof.
  cbv zeta. split; [vm_compute; tauto|].
  apply (offline_host_not_alerted_again defaultConfig usageAtLeast_exact
           1000 1000 [(1060, 1060); (1120, 1121); (1180, 1180)]
           (example_world
              [example_host "vps-1" "online" (Val 600) (Val 100) (Val 10)])
           (example_host "vps-1" "online" (Val 600) (Val 100) (Val 10)) 600).
  - repeat constructor.
  - repeat constructor; cbn; tauto.
  - apply Z.le_refl.
  - now left.
  - reflexivity.
  - reflexivity.
  - reflexivity.
Defined.

(** A heartbeat between two sweeps puts the host back online, and a
    sweep after the timeout alerts for it again. *)
Example heartbeat_between_sweeps_alerts_again :
  let h := example_host "vps-1" "online" (Val 600) (Val 100) (Val 10) in
  let w1 := snd (runCheck defaultConfig usageAtLeast_exact 1000 1000
                   (example_world [h])) in
  let back := {| hosts := [example_host "vps-1" "online" (Val 1010)
                             (Val 100) (Val 10)];
                 telegramEnabled := true; trace := trace w1 |} in
  let w2 := snd (runCheck defaultConfig usageAtLeast_exact 1400 1400 back) in
  List.length (filter (is_offline_notice "vps-1") (trace w1)) = 1%nat
  /\ List.length (filter (is_offline_notice "vps-1") (trace w2)) = 2%nat.
Proof. split; reflexivity. Qed.

(** A host stored as [unknown] is notified again by every sweep. *)
Example unknown_host_notified_every_sweep :
  let h := example_host "vps-2" "unknown" (Val 600) (Val 100) (Val 10) in
  let w1 := snd (runCheck defaultConfig usageAtLeast_exact 1000 1000
                   (example_world [h])) in
  let w2 := snd (runCheck defaultConfig usageAtLeast_exact 1060 1060 w1) in
  List.length (filter (is_offline_notice "vps-2") (trace w1)) = 1%nat
  /\ List.length (filter (is_offline_notice "vps-2") (trace w2)) = 2%nat.
Proof. split; reflexivity. Qed.

End MonitorMoreWitnesses.

(** ** The monitor: the worker object *)

Section WorkerObject.
Import Js Eff Monitor.

Variable config : MonitorConfig.
Variable usageAtLeast : number -> number -> Z -> bool.

(** The worker and its timer agree. *)
Lemma call_keeps_timer (c : Call) (p : Process) :
  match intervalId (worker p) with
  | Some i => isRunning (worker p) = true
              /\ timers p = [(i, checkInterval config)]
  | None => isRunning (worker p) = false /\ timers p = []
  end ->
  let q := call config usageAtLeast c p in
  match intervalId (worker q) with
  | Some i => isRunning (worker q) = true
              /\ timers q = [(i, checkInterval config)]
  | None => isRunning (worker q) = false /\ timers q = []
  end.
Proof.
  destruct c as [t t_mark|]; cbn [call]; unfold start, stop;
    destruct (intervalId (worker p)) as [i|] eqn:Ei; intros [Hr Ht];
    rewrite Hr; cbn [negb worker timers intervalId isRunning].
  - now rewrite Ei.
  - rewrite Ht. now split.
  - rewrite Ht. cbn. now rewrite Nat.eqb_refl.
  - now rewrite Ei.
Qed.

Lemma start_when_running (t t_mark : Z) (q : Process) :
  isRunning (worker q) = true ->
  start config usageAtLeast t t_mark q
  = {| world := add_events
                  [log_event "MonitorWorker" Warn
                     "Monitor worker is already running"] (world q);
       worker := worker q; timers := timers q; nextTimer := nextTimer q |}.
Proof. unfold start. now intros ->. Qed.

(** However [start] and [stop] are called on a new worker, at most one
    interval timer is set, and exactly one while the worker is active; and
    a [start] on an active worker only logs a warning: no sweep is run, no
    host is touched and no timer is added. *)
Theorem worker_sets_one_timer (cs : list Call) (w : World) :
  let p := calls config usageAtLeast cs (fresh_process w) in
  (if isActive p
   then exists i, intervalId (worker p) = Some i
                  /\ timers p = [(i, checkInterval config)]
   else intervalId (worker p) = None /\ timers p = [])
  /\ forall t1 t1_mark t2 t2_mark,
      let q := start config usageAtLeast t1 t1_mark p in
      let q' := start config usageAtLeast t2 t2_mark q in
      isActive q = true
      /\ worker q' = worker q
      /\ timers q' = timers q
      /\ hosts (world q') = hosts (world q)
      /\ trace (world q')
         = (trace (world q)
            ++ [log_event "MonitorWorker" Warn
                  "Monitor worker is already running"])%list.
Proof.
  cbv zeta. split.
  - assert (Inv : forall cs p,
               match intervalId (worker p) with
               | Some i => isRunning (worker p) = true
                           /\ timers p = [(i, checkInterval config)]
               | None => isRunning (worker p) = false /\ timers p = []
               end ->
               match intervalId (worker (calls config usageAtLeast cs p)) with
               | Some i =>
                   isRunning (worker (calls config usageAtLeast cs p)) = true
                   /\ timers (calls config usageAtLeast cs p)
                      = [(i, checkInterval config)]
               | None =>
                   isRunning (worker (calls config usageAtLeast cs p)) = false
                   /\ timers (calls config usageAtLeast cs p) = []
               end).
    { clear cs. intros cs. unfold calls.
      induction cs as [|c cs IH]; intros p Hp; [exact Hp|].
      cbn [fold_left]. apply IH. now apply call_keeps_timer. }
    specialize (Inv cs (fresh_process w) (conj eq_refl eq_refl)).
    unfold isActive.
    destruct (intervalId (worker (calls config usageAtLeast cs (fresh_process w))))
      as [i|]; destruct Inv as [-> Ht]; eauto.
  - intros t1 t1_mark t2 t2_mark.
    assert (Hq : isActive (start config usageAtLeast t1 t1_mark
                             (calls config usageAtLeast cs (fresh_process w)))
                 = true).
    { unfold isActive, start.
      destruct (isRunning (worker (calls config usageAtLeast cs (fresh_process w))))
        eqn:E; [exact E | reflexivity]. }
    split; [exact Hq|]. unfold isActive in Hq.
    rewrite (start_when_running t2 t2_mark _ Hq). cbn. auto.
Qed.

End WorkerObject.

(** ** The host service *)

Section HostService.
Import Js Eff Hosts.

(** Run the primitive steps of the service on an explicit store. *)
Ltac run_db :=
  unfold try_catch, bind, gets, modify, ret, throw, Hosts.write_log; cbn.

Lemma lookup_name_absent (n : string) (hs : list Host) :
  ~ In n (map name hs) <-> filter (fun h => String.eqb (name h) n) hs = [].
Proof.
  induction hs as [|h hs IH]; cbn [map filter In]; [tauto|].
  destruct (String.eqb_spec (name h) n) as [E|E]; split.
  - tauto.
  - discriminate.
  - intros H. apply IH. tauto.
  - intros H [?|?]; [congruence | now apply IH in H].
Qed.

Lemma lookup_name_exists (n : string) (hs : list Host) :
  existsb (fun h => String.eqb (name h) n) hs = false
  <-> filter (fun h => String.eqb (name h) n) hs = [].
Proof.
  induction hs as [|h hs IH]; cbn [existsb filter]; [tauto|].
  destruct (String.eqb (name h) n); cbn; [split; discriminate | exact IH].
Qed.

Lemma lookup_id_absent (i : Z) (hs : list Host) :
  ~ In i (map id hs) <-> filter (fun x => id x =? i) hs = [].
Proof.
  induction hs as [|h hs IH]; cbn [map filter In]; [tauto|].
  destruct (Z.eqb_spec (id h) i) as [E|E]; split.
  - tauto.
  - discriminate.
  - intros H. apply IH. tauto.
  - intros H [?|?]; [congruence | now apply IH in H].
Qed.

Lemma lookup_id_unique (hs : list Host) (h : Host) :
  NoDup (map id hs) -> In h hs -> filter (fun x => id x =? id h) hs = [h].
Proof.
  induction hs as [|a hs IH]; intros Hnd Hin; [contradiction|].
  cbn [map] in Hnd. apply NoDup_cons_iff in Hnd as [Ha Hnd].
  cbn [filter]. destruct Hin as [->|Hin].
  - rewrite Z.eqb_refl. f_equal. now apply lookup_id_absent.
  - destruct (Z.eqb_spec (id a) (id h)) as [E|_].
    + exfalso. apply Ha. rewrite E. now apply in_map.
    + now apply IH.
Qed.

Lemma lookup_name_in (n : string) (hs : list Host) (h : Host) :
  hd_error (filter (fun x => String.eqb (name x) n) hs) = Some h ->
  In h hs /\ name h = n.
Proof.
  intros H.
  destruct (filter (fun x => String.eqb (name x) n) hs) as [|x xs] eqn:E;
    [discriminate|].
  injection H as ->.
  assert (Hin : In h (filter (fun x => String.eqb (name x) n) hs))
    by (rewrite E; now left).
  apply filter_In in Hin as [Hin Hn]. split; [exact Hin|].
  now apply String.eqb_eq.
Qed.

Lemma filter_name_map (n : string) (g : Host -> Host) (hs : list Host) :
  (forall h, name (g h) = name h) ->
  filter (fun x => String.eqb (name x) n) (map g hs)
  = map g (filter (fun x => String.eqb (name x) n) hs).
Proof.
  intros Hg. apply filter_map_commute. intros x. now rewrite Hg.
Qed.

(** [createHost] refuses a name that is taken and leaves the table as
    it is; otherwise it appends one row under the next key, with the
    status [unknown] and the current time as heartbeat unless given, and
    the host is then found under its name. *)
Theorem createHost_checks_name (hostInfo : HostInfo) (now : Z) (db : Db) :
  (In (i_name hostInfo) (map name (table db)) ->
   exists db',
     createHost hostInfo now db
     = (Throw ("Host with name '" ++ i_name hostInfo ++ "' already exists"), db')
     /\ table db' = table db
     /\ nextId db' = nextId db)
  /\ (~ In (i_name hostInfo) (map name (table db)) ->
      exists h db',
        createHost hostInfo now db = (Return h, db')
        /\ table db' = (table db ++ [h])%list
        /\ nextId db' = nextId db + 1
        /\ id h = nextId db
        /\ name h = i_name hostInfo
        /\ status h = or_string (i_status hostInfo) "unknown"
        /\ lastHeartbeat h = Some (int_or (i_lastHeartbeat hostInfo) now)
        /\ diskTotal h = i_diskTotal hostInfo
        /\ createdAt h = now
        /\ getHostByName (i_name hostInfo) db' = (Return (Some h), db')).
Proof.
  split.
  - intros Hin. unfold createHost, getHostByName. run_db.
    destruct (filter (fun h => String.eqb (name h) (i_name hostInfo)) (table db))
      as [|x xs] eqn:E.
    + apply lookup_name_absent in E. contradiction.
    + cbn. eexists. split; [reflexivity|]. now split.
  - intros Hout. pose proof (proj1 (lookup_name_absent _ _) Hout) as E.
    pose proof (proj2 (lookup_name_exists _ _) E) as Ex.
    unfold createHost, getHostByName, insert_host. run_db.
    rewrite E. cbn. rewrite Ex. cbn.
    do 2 eexists. split; [reflexivity|]. cbn.
    rewrite filter_app, E. cbn. rewrite String.eqb_refl.
    repeat split.
Qed.

Lemma createHost_checks_name_witness :
  exists h db',
    createHost (info_of_heartbeat (example_heartbeat "vps-1" 95)) 1000 empty_db
    = (Return h, db')
    /\ table db' = [h]
    /\ id h = 1
    /\ status h = "online"
    /\ lastHeartbeat h = Some 1000
    /\ exists db'',
        createHost (info_of_heartbeat (example_heartbeat "vps-1" 10)) 2000 db'
        = (Throw "Host with name 'vps-1' already exists", db'')
        /\ table db'' = [h].
Proof.
  destruct (proj2 (createHost_checks_name
                     (info_of_heartbeat (example_heartbeat "vps-1" 95))
                     1000 empty_db) (fun H => H))
    as (h & db' & E & Ht & _ & Hi & Hn & Hs & Hl & _).
  exists h, db'. split; [exact E|]. split; [exact Ht|]. split; [exact Hi|].
  split; [exact Hs|]. split; [exact Hl|].
  destruct (proj1 (createHost_checks_name
                     (info_of_heartbeat (example_heartbeat "vps-1" 10))
                     2000 db'))
    as (db'' & E2 & Ht2 & _).
  - rewrite Ht. cbn. left. exact Hn.
  - exists db''. split; [exact E2|]. now rewrite Ht2.
Defined.

Lemma processHeartbeat_known (heartbeat : HostHeartbeat) (now : Z) (db : Db)
      (h0 : Host) :
  hd_error (filter (fun h => String.eqb (name h) (hb_name heartbeat)) (table db))
  = Some h0 ->
  NoDup (map id (table db)) ->
  exists db',
    processHeartbeat heartbeat now db
    = (Return (Some (heartbeat_update heartbeat now h0)), db')
    /\ table db'
       = map (fun h => if id h =? id h0 then heartbeat_update heartbeat now h
                       else h) (table db)
    /\ nextId db' = nextId db.
Proof.
  intros E Hnd. destruct (lookup_name_in _ _ _ E) as [Hin _].
  unfold processHeartbeat, getHostByName, update_where_id. run_db.
  rewrite E. cbn. rewrite (lookup_id_unique _ _ Hnd Hin). cbn.
  eexists. split; [reflexivity|]. now split.
Qed.

Lemma processHeartbeat_unknown (heartbeat : HostHeartbeat) (now : Z) (db : Db) :
  ~ In (hb_name heartbeat) (map name (table db)) ->
  exists h db',
    processHeartbeat heartbeat now db = (Return (Some h), db')
    /\ table db' = (table db ++ [h])%list
    /\ nextId db' = nextId db + 1
    /\ id h = nextId db
    /\ name h = hb_name heartbeat
    /\ status h = "online"
    /\ lastHeartbeat h = Some now
    /\ updatedAt h = now
    /\ diskTotal h = 0
    /\ ip h = EmptyString.
Proof.
  intros Hout. pose proof (proj1 (lookup_name_absent _ _) Hout) as E.
  pose proof (proj2 (lookup_name_exists _ _) E) as Ex.
  unfold processHeartbeat, createHost, getHostByName, insert_host. run_db.
  rewrite E. cbn. rewrite E. cbn. rewrite Ex. cbn.
  do 2 eexists. split; [reflexivity|]. cbn. repeat split.
Qed.

(** After a heartbeat the host is online: [processHeartbeat] answers
    with the row of that name, stored as [online] with the time of the call
    as last heartbeat, and the host is found under its name; a known host
    keeps its key and creation time and the table its size, an unknown one
    is appended with address [''] and [diskTotal] 0. *)
Theorem processHeartbeat_marks_online
        (heartbeat : HostHeartbeat) (now : Z) (db : Db) :
  NoDup (map id (table db)) ->
  exists h db',
    processHeartbeat heartbeat now db = (Return (Some h), db')
    /\ name h = hb_name heartbeat
    /\ status h = "online"
    /\ lastHeartbeat h = Some now
    /\ updatedAt h = now
    /\ getHostByName (hb_name heartbeat) db' = (Return (Some h), db')
    /\ ((exists h0, In h0 (table db)
                    /\ name h0 = hb_name heartbeat
                    /\ id h = id h0 /\ createdAt h = createdAt h0
                    /\ diskTotal h = diskTotal h0
                    /\ diskUsed h = Some (hb_diskUsed heartbeat)
                    /\ List.length (table db') = List.length (table db))
        \/ (~ In (hb_name heartbeat) (map name (table db))
            /\ table db' = (table db ++ [h])%list
            /\ diskTotal h = 0
            /\ ip h = EmptyString)).
Proof.
  intros Hnd.
  destruct (hd_error (filter (fun h => String.eqb (name h) (hb_name heartbeat))
                             (table db))) as [h0|] eqn:E.
  - destruct (processHeartbeat_known heartbeat now db h0 E Hnd)
      as (db' & Ep & Ht & _).
    destruct (lookup_name_in _ _ _ E) as [Hin Hn].
    exists (heartbeat_update heartbeat now h0), db'.
    split; [exact Ep|]. cbn. split; [exact Hn|].
    split; [reflexivity|]. split; [reflexivity|]. split; [reflexivity|]. split.
    + unfold getHostByName. run_db. rewrite Ht.
      rewrite filter_name_map
        by (intros h; now destruct (id h =? id h0)).
      destruct (filter _ (table db)) as [|x xs]; [discriminate E|].
      injection E as ->. cbn. now rewrite Z.eqb_refl.
    + left. exists h0. repeat split; try assumption.
      now rewrite Ht, length_map.
  - destruct (filter (fun h => String.eqb (name h) (hb_name heartbeat))
                     (table db)) as [|x xs] eqn:F; [|discriminate E].
    pose proof (proj2 (lookup_name_absent _ _) F) as Hout.
    destruct (processHeartbeat_unknown heartbeat now db Hout)
      as (h & db' & Ep & Ht & _ & _ & Hn & Hs & Hl & Hu & Hd & Hi).
    exists h, db'. split; [exact Ep|]. split; [exact Hn|].
    split; [exact Hs|]. split; [exact Hl|]. split; [exact Hu|]. split.
    + unfold getHostByName. run_db. rewrite Ht, filter_app, F. cbn.
      now rewrite Hn, String.eqb_refl.
    + right. auto.
Qed.

Lemma processHeartbeat_marks_online_witness :
  exists h db',
    processHeartbeat (example_heartbeat "vps-1" 95) 1000 empty_db
    = (Return (Some h), db')
    /\ status h = "online"
    /\ lastHeartbeat h = Some 1000
    /\ getHostByName "vps-1" db' = (Return (Some h), db').
Proof.
  destruct (processHeartbeat_marks_online (example_heartbeat "vps-1" 95) 1000
              empty_db (NoDup_nil _))
    as (h & db' & E & _ & Hs & Hl & _ & Hg & _).
  exists h, db'. auto.
Defined.

Lemma consistent_map (g : Host -> Host) (hs : list Host) (n : Z)
      (l l' : list LogEntry) :
  (forall h, name (g h) = name h) ->
  (forall h, id (g h) = id h) ->
  consistent {| table := hs; nextId := n; log := l |} ->
  consistent {| table := map g hs; nextId := n; log := l' |}.
Proof.
  intros Hn Hi (H1 & H2 & H3). unfold consistent in *. cbn in *.
  rewrite !map_map.
  rewrite (map_ext _ name Hn), (map_ext _ id Hi).
  split; [exact H1|]. split; [exact H2|].
  rewrite Forall_map. apply (Forall_impl _ (P := fun h => id h < n));
    [|exact H3]. intros h. now rewrite Hi.
Qed.

Lemma rows_kept_distinct {K : Type} (column : Host -> K) (keep : Host -> bool)
      (rows : list Host) (Hd : NoDup (map column rows)) :
  NoDup (map column (filter keep rows)).
Proof.
  induction rows as [|h rows IH]; [exact Hd|].
  cbn [map] in Hd. apply NoDup_cons_iff in Hd as [Hh Hd].
  cbn [filter]. destruct (keep h); [|exact (IH Hd)].
  cbn [map]. constructor; [|exact (IH Hd)].
  intros Hin. apply Hh. apply in_map_iff in Hin as (y & E & Hy).
  apply filter_In in Hy as [Hy _]. rewrite <- E. now apply in_map.
Qed.

Lemma updateHost_table (i : Z) (update : HostUpdate) (now : Z) (db : Db) :
  (filter (fun h => id h =? i) (table db) = []
   /\ updateHost i update now db = (Return None, db))
  \/ (exists updated db',
         updateHost i update now db = (Return (Some updated), db')
         /\ hd_error (filter (fun h => id h =? i) (table db)) <> None
         /\ table db'
            = map (fun h => if id h =? i then apply_update update now h else h)
                  (table db)
         /\ nextId db' = nextId db).
Proof.
  destruct (filter (fun h => id h =? i) (table db)) as [|x xs] eqn:E.
  - left. split; [reflexivity|].
    unfold updateHost, getHostById, update_where_id. run_db. now rewrite E.
  - right. unfold updateHost, getHostById, update_where_id. run_db.
    rewrite E. cbn. rewrite E. cbn. do 2 eexists. split; [reflexivity|].
    split; [discriminate|]. split; reflexivity.
Qed.

Lemma consistent_append (db : Db) (h : Host) (l : list LogEntry) :
  consistent db ->
  ~ In (name h) (map name (table db)) -> id h = nextId db ->
  consistent {| table := (table db ++ [h])%list;
                nextId := nextId db + 1; log := l |}.
Proof.
  intros Hc Hn Hi. destruct Hc as (H1 & H2 & H3).
  unfold consistent. cbn. rewrite !map_app. cbn. split; [|split].
  - apply NoDup_app; [exact H1 | repeat constructor; tauto|].
    intros x Hx [<-|[]]. contradiction.
  - apply NoDup_app; [exact H2 | repeat constructor; tauto|].
    intros x Hx [<-|[]]. apply in_map_iff in Hx as (y & E & Hy).
    rewrite Forall_forall in H3. specialize (H3 y Hy). lia.
  - apply Forall_app. split.
    + apply (Forall_impl _ (P := fun x => id x < nextId db)); [|exact H3].
      intros x. lia.
    + constructor; [lia | constructor].
Qed.

Lemma createHost_table (hostInfo : HostInfo) (now : Z) (db : Db) :
  (exists e db',
      createHost hostInfo now db = (Throw e, db')
      /\ table db' = table db /\ nextId db' = nextId db)
  \/ (exists h db',
         createHost hostInfo now db = (Return h, db')
         /\ ~ In (name h) (map name (table db))
         /\ table db' = (table db ++ [h])%list
         /\ nextId db' = nextId db + 1
         /\ id h = nextId db).
Proof.
  destruct (filter (fun h => String.eqb (name h) (i_name hostInfo)) (table db))
    as [|x xs] eqn:E.
  - right. pose proof (proj2 (lookup_name_absent _ _) E) as Hout.
    pose proof (proj2 (lookup_name_exists _ _) E) as Ex.
    unfold createHost, getHostByName, insert_host. run_db.
    rewrite E. cbn. rewrite Ex. cbn.
    do 2 eexists. split; [reflexivity|]. cbn. now repeat split.
  - left. unfold createHost, getHostByName. run_db. rewrite E. cbn.
    do 2 eexists. split; [reflexivity|]. now split.
Qed.

Lemma processHeartbeat_consistent (heartbeat : HostHeartbeat) (now : Z)
      (db : Db) :
  consistent db -> consistent (snd (processHeartbeat heartbeat now db)).
Proof.
  intros Hc.
  destruct (hd_error (filter (fun h => String.eqb (name h) (hb_name heartbeat))
                             (table db))) as [h0|] eqn:E.
  - destruct (processHeartbeat_known heartbeat now db h0 E
                (proj1 (proj2 Hc))) as (db' & -> & Ht & Hn).
    cbn [snd]. destruct db' as [t n l]. cbn in *. subst t n.
    apply (consistent_map _ _ _ (log db));
      [intros h; now destruct (id h =? id h0)
      | intros h; now destruct (id h =? id h0)
      | now destruct db].
  - destruct (filter (fun h => String.eqb (name h) (hb_name heartbeat))
                     (table db)) as [|x xs] eqn:F; [|discriminate E].
    pose proof (proj2 (lookup_name_absent _ _) F) as Hout.
    destruct (processHeartbeat_unknown heartbeat now db Hout)
      as (h & db' & -> & Ht & Hn & Hi & Hname & _).
    cbn [snd]. destruct db' as [t n l]. cbn in *. subst t n.
    apply consistent_append; [exact Hc | now rewrite Hname | exact Hi].
Qed.

Lemma processHeartbeat_row (heartbeat : HostHeartbeat) (now : Z) (db : Db) :
  NoDup (map id (table db)) ->
  exists h db',
    processHeartbeat heartbeat now db = (Return (Some h), db')
    /\ name h = hb_name heartbeat
    /\ status h = "online"
    /\ lastHeartbeat h = Some now
    /\ In h (table db').
Proof.
  intros Hnd.
  destruct (hd_error (filter (fun h => String.eqb (name h) (hb_name heartbeat))
                             (table db))) as [h0|] eqn:E.
  - destruct (processHeartbeat_known heartbeat now db h0 E Hnd)
      as (db' & Ep & Ht & _).
    destruct (lookup_name_in _ _ _ E) as [Hin Hn].
    exists (heartbeat_update heartbeat now h0), db'.
    split; [exact Ep|]. cbn. split; [exact Hn|].
    split; [reflexivity|]. split; [reflexivity|].
    rewrite Ht. apply in_map_iff. exists h0. split; [|exact Hin].
    now rewrite Z.eqb_refl.
  - destruct (filter (fun h => String.eqb (name h) (hb_name heartbeat))
                     (table db)) as [|x xs] eqn:F; [|discriminate E].
    pose proof (proj2 (lookup_name_absent _ _) F) as Hout.
    destruct (processHeartbeat_unknown heartbeat now db Hout)
      as (h & db' & Ep & Ht & _ & _ & Hn & Hs & Hl & _).
    exists h, db'. split; [exact Ep|]. split; [exact Hn|].
    split; [exact Hs|]. split; [exact Hl|].
    rewrite Ht. apply in_or_app. right. now left.
Qed.

(** The service keeps names and keys unique: [createHost],
    [updateHost], [processHeartbeat] and [deleteHost] take a table in
    which names are distinct, keys are distinct and every key was handed
    out to a table in the same state, whether they succeed or raise. *)
Theorem host_service_keeps_names_unique (db : Db) :
  consistent db ->
  (forall hostInfo now, consistent (snd (createHost hostInfo now db)))
  /\ (forall i update now, consistent (snd (updateHost i update now db)))
  /\ (forall heartbeat now, consistent (snd (processHeartbeat heartbeat now db)))
  /\ (forall referenced i, consistent (snd (deleteHost referenced i db))).
Proof.
  intros Hc.
  assert (Hlog : forall l,
             consistent {| table := table db; nextId := nextId db; log := l |}).
  { intros l. exact Hc. }
  split; [|split; [|split]].
  - intros hostInfo now.
    destruct (createHost_table hostInfo now db)
      as [(e & db' & -> & Ht & Hn) | (h & db' & -> & Hout & Ht & Hn & Hi)];
      cbn [snd]; destruct db' as [t n l]; cbn in *; subst t n.
    + apply Hlog.
    + now apply consistent_append.
  - intros i update now.
    destruct (updateHost_table i update now db)
      as [[_ ->] | (updated & db' & -> & _ & Ht & Hn)]; [exact Hc|].
    cbn [snd]. destruct db' as [t n l]. cbn in *. subst t n.
    apply (consistent_map _ _ _ (log db));
      [intros h; now destruct (id h =? i)
      | intros h; now destruct (id h =? i)
      | now destruct db].
  - intros heartbeat now. now apply processHeartbeat_consistent.
  - intros referenced i. unfold deleteHost, delete_where_id. run_db.
    destruct (existsb (fun h => referenced (id h))
                      (filter (fun h => id h =? i) (table db)));
      cbn; [apply Hlog|].
    destruct Hc as (H1 & H2 & H3).
    destruct (filter (fun h => id h =? i) (table db)); cbn;
      (split; [now apply rows_kept_distinct|]);
      (split; [now apply rows_kept_distinct|]);
      apply Forall_forall; intros x Hx; apply filter_In in Hx as [Hx _];
      rewrite Forall_forall in H3; now apply H3.
Qed.

Lemma host_service_keeps_names_unique_witness :
  consistent empty_db
  /\ consistent (snd (processHeartbeat (example_heartbeat "vps-1" 95) 1000
                        empty_db)).
Proof.
  assert (H : consistent empty_db) by (repeat constructor).
  split; [exact H|].
  exact (proj1 (proj2 (proj2 (host_service_keeps_names_unique empty_db H)))
               (example_heartbeat "vps-1" 95) 1000).
Defined.

(** A heartbeat keeps the host out of the next sweeps: after
    [processHeartbeat] at time [now] on a consistent table, a monitor
    sweep over the stored hosts that marks at a time at most
    [hostHeartbeatTimeout] seconds later leaves the host's row online and
    attempts no offline notification for it, whatever its row said
    before. *)
Theorem heartbeat_then_sweep
        (config : Monitor.MonitorConfig)
        (usageAtLeast : number -> number -> Z -> bool)
        (heartbeat : HostHeartbeat) (now t t_mark : Z) (db : Db)
        (enabled : bool) (tr : list Monitor.Event) :
  consistent db ->
  t <= t_mark ->
  t_mark - now <= Monitor.hostHeartbeatTimeout config ->
  exists h db',
    processHeartbeat heartbeat now db = (Return (Some h), db')
    /\ let w := {| Monitor.hosts := map monitor_row (table db');
                   Monitor.telegramEnabled := enabled;
                   Monitor.trace := tr |} in
       let w' := snd (Monitor.runCheck config usageAtLeast t t_mark w) in
       In (monitor_row h) (Monitor.hosts w')
       /\ Monitor.status (monitor_row h) = "online"
       /\ exists added,
           Monitor.trace w' = (tr ++ added)%list
           /\ filter (Monitor.is_offline_notice (hb_name heartbeat)) added = [].
Proof.
  intros Hc Ht Hfresh.
  destruct (processHeartbeat_row heartbeat now db (proj1 (proj2 Hc)))
    as (h & db' & E & Hn & Hs & Hl & Hin).
  exists h, db'. split; [exact E|]. cbv zeta.
  assert (Hc' : consistent db').
  { pose proof (processHeartbeat_consistent heartbeat now db Hc) as H.
    now rewrite E in H. }
  assert (Hnames : NoDup (map Monitor.name (map monitor_row (table db')))).
  { rewrite map_map. cbn. exact (proj1 Hc'). }
  assert (Hrow : In (monitor_row h) (map monitor_row (table db')))
    by now apply in_map.
  assert (Hlast : Monitor.lastHeartbeat (monitor_row h) = Val now)
    by (cbn; now rewrite Hl).
  split; [|split; [exact Hs|]].
  - apply (fresh_host_kept config usageAtLeast t t_mark _ _ now);
      [exact Hrow | exact Hlast | exact Hfresh].
  - destruct (fresh_host_silent config usageAtLeast t t_mark
                {| Monitor.hosts := map monitor_row (table db');
                   Monitor.telegramEnabled := enabled;
                   Monitor.trace := tr |}
                (monitor_row h) now Hnames Hrow Hlast) as (added & Ha & Hq);
      [lia|].
    exists added. split; [exact Ha|]. cbn in Hq. now rewrite Hn in Hq.
Qed.

Lemma heartbeat_then_sweep_witness :
  exists h db',
    processHeartbeat (example_heartbeat "vps-1" 95) 1000 empty_db
    = (Return (Some h), db')
    /\ let w := {| Monitor.hosts := map monitor_row (table db');
                   Monitor.telegramEnabled := true;
                   Monitor.trace := [] |} in
       let w' := snd (Monitor.runCheck Monitor.defaultConfig
                        Monitor.usageAtLeast_exact 1200 1300 w) in
       In (monitor_row h) (Monitor.hosts w')
       /\ Monitor.status (monitor_row h) = "online"
       /\ exists added,
           Monitor.trace w' = ([] ++ added)%list
           /\ filter (Monitor.is_offline_notice "vps-1") added = [].
Proof.
  apply (heartbeat_then_sweep Monitor.defaultConfig Monitor.usageAtLeast_exact
           (example_heartbeat "vps-1" 95) 1000 1200 1300 empty_db true []).
  - repeat constructor.
  - discriminate.
  - discriminate.
Defined.

(** [diskTotal] is set at creation only: [updateHost] and
    [processHeartbeat] leave the key, the name, [diskTotal] and the
    creation time of every stored row as they are.  A host created from a
    heartbeat has [diskTotal] 0, so the monitor's disk check passes it
    over, whatever usage it reports. *)
Theorem disk_total_is_fixed (db : Db) :
  NoDup (map id (table db)) ->
  let same := fun h h' : Host =>
                id h' = id h /\ name h' = name h
                /\ diskTotal h' = diskTotal h /\ createdAt h' = createdAt h in
  (forall i update now,
      Forall2 same (table db) (table (snd (updateHost i update now db))))
  /\ (forall heartbeat now,
        Forall2 same (table db)
          (firstn (List.length (table db))
                  (table (snd (processHeartbeat heartbeat now db)))))
  /\ (forall heartbeat now,
        ~ In (hb_name heartbeat) (map name (table db)) ->
        exists h db',
          processHeartbeat heartbeat now db = (Return (Some h), db')
          /\ diskTotal h = 0
          /\ forall config usageAtLeast enabled,
              Monitor.disk_events config usageAtLeast enabled (monitor_row h)
              = []).
Proof.
  intros Hnd same.
  assert (Hrefl : forall hs, Forall2 same hs hs)
    by (induction hs; constructor; unfold same; auto).
  assert (Hmap : forall g hs,
             (forall h, same h (g h)) -> Forall2 same hs (map g hs)).
  { intros g hs Hg. induction hs; cbn; constructor; auto. }
  split; [|split].
  - intros i update now.
    destruct (updateHost_table i update now db)
      as [[_ E] | (updated & db' & E & _ & Et & _)];
      rewrite E; cbn [snd]; [apply Hrefl|].
    rewrite Et. apply Hmap. intros h. unfold same. now destruct (id h =? i).
  - intros heartbeat now.
    destruct (hd_error (filter (fun h => String.eqb (name h) (hb_name heartbeat))
                               (table db))) as [h0|] eqn:E.
    + destruct (processHeartbeat_known heartbeat now db h0 E Hnd)
        as (db' & Ep & Et & _).
      rewrite Ep. cbn [snd]. rewrite Et. rewrite <- (length_map
        (fun h => if id h =? id h0 then heartbeat_update heartbeat now h else h)),
        firstn_all.
      apply Hmap. intros h. unfold same. now destruct (id h =? id h0).
    + destruct (filter (fun h => String.eqb (name h) (hb_name heartbeat))
                       (table db)) as [|x xs] eqn:F; [|discriminate E].
      pose proof (proj2 (lookup_name_absent _ _) F) as Hout.
      destruct (processHeartbeat_unknown heartbeat now db Hout)
        as (h & db' & Ep & Et & _).
      rewrite Ep. cbn [snd]. rewrite Et. rewrite firstn_app, firstn_all, Nat.sub_diag. cbn.
      rewrite app_nil_r. apply Hrefl.
  - intros heartbeat now Hout.
    destruct (processHeartbeat_unknown heartbeat now db Hout)
      as (h & db' & E & _ & _ & _ & _ & _ & _ & _ & Hd & _).
    exists h, db'. split; [exact E|]. split; [exact Hd|].
    intros config usageAtLeast enabled.
    unfold Monitor.disk_events. cbn. now rewrite Hd.
Qed.

Lemma disk_total_is_fixed_witness :
  exists h db',
    processHeartbeat (example_heartbeat "vps-1" 95) 1000 empty_db
    = (Return (Some h), db')
    /\ diskTotal h = 0
    /\ diskUsed h = Some 95
    /\ Monitor.disk_events Monitor.defaultConfig Monitor.usageAtLeast_exact true
         (monitor_row h) = [].
Proof.
  destruct (proj2 (proj2 (disk_total_is_fixed empty_db (NoDup_nil _)))
                  (example_heartbeat "vps-1" 95) 1000 (fun H => H))
    as (h & db' & E & Hd & Hq).
  exists h, db'. split; [exact E|]. split; [exact Hd|]. split; [|apply Hq].
  apply (f_equal fst) in E. cbn in E. injection E as <-. reflexivity.
Defined.

Lemma NoDup_map_same {A B : Type} (f : A -> B) (l : list A) (a b : A) :
  NoDup (map f l) -> In a l -> In b l -> f a = f b -> a = b.
Proof.
  induction l as [|x l IH]; cbn; [contradiction|].
  intros Hnd [->|Ha] [->|Hb] E; inversion_clear Hnd as [|? ? Hx Hl].
  - reflexivity.
  - exfalso. apply Hx. rewrite E. now apply in_map.
  - exfalso. apply Hx. rewrite <- E. now apply in_map.
  - now apply IH.
Qed.

Lemma int_or_zero (z : Z) : int_or (Some z) 0 = z.
Proof. unfold int_or, truthy_int. now destruct (Z.eqb_spec z 0); cbn. Qed.

Lemma count_hosts_fold (hs : list Host) (s : HostStats) :
  fold_left (count_host Z.add) hs s
  = {| totalHosts := totalHosts s;
       onlineHosts :=
         onlineHosts s
         + Z.of_nat (List.length
                       (filter (fun h => String.eqb (status h) "online") hs));
       offlineHosts :=
         offlineHosts s
         + Z.of_nat (List.length
                       (filter (fun h => String.eqb (status h) "offline") hs));
       unknownHosts :=
         unknownHosts s
         + Z.of_nat (List.length
                       (filter (fun h => negb (String.eqb (status h) "online")
                                         && negb (String.eqb (status h) "offline"))
                               hs));
       totalTrafficUpload :=
         totalTrafficUpload s + fold_right Z.add 0 (map uploadTotal hs);
       totalTrafficDownload :=
         totalTrafficDownload s + fold_right Z.add 0 (map downloadTotal hs) |}.
Proof.
  revert s. induction hs as [|h hs IH]; intros s.
  - destruct s. cbn. f_equal; lia.
  - cbn [fold_left]. rewrite IH. unfold count_host.
    rewrite !int_or_zero. cbn [filter map fold_right].
    destruct (String.eqb_spec (status h) "online") as [E|E].
    + rewrite E. cbn. f_equal; lia.
    + destruct (String.eqb (status h) "offline"); cbn; f_equal; lia.
Qed.

Lemma column_sum_nonneg (column : Host -> Z) (hs : list Host) :
  Forall (fun h => 0 <= column h) hs ->
  0 <= fold_right Z.add 0 (map column hs).
Proof. induction 1; cbn; lia. Qed.

(** Within the bound, the loop run with the doubles' addition computes
    what it computes with the integers' addition. *)
Lemma count_hosts_exact (plus : Z -> Z -> Z) (hs : list Host) :
  exact_below_two_53 plus ->
  Forall (fun h => 0 <= uploadTotal h /\ 0 <= downloadTotal h) hs ->
  forall s,
    0 <= onlineHosts s -> 0 <= offlineHosts s -> 0 <= unknownHosts s ->
    0 <= totalTrafficUpload s -> 0 <= totalTrafficDownload s ->
    onlineHosts s + Z.of_nat (List.length hs) <= two_53 ->
    offlineHosts s + Z.of_nat (List.length hs) <= two_53 ->
    unknownHosts s + Z.of_nat (List.length hs) <= two_53 ->
    totalTrafficUpload s + fold_right Z.add 0 (map uploadTotal hs) <= two_53 ->
    totalTrafficDownload s + fold_right Z.add 0 (map downloadTotal hs)
    <= two_53 ->
    fold_left (count_host plus) hs s = fold_left (count_host Z.add) hs s.
Proof.
  intros Hplus Hnn. induction Hnn as [|h hs [Hu Hd] Hnn IH];
    intros s H1 H2 H3 H4 H5 B1 B2 B3 B4 B5; [reflexivity|].
  cbn [fold_left List.length map fold_right] in *.
  assert (Su : 0 <= fold_right Z.add 0 (map uploadTotal hs))
    by (apply column_sum_nonneg;
        apply (Forall_impl _ (P := fun h => 0 <= uploadTotal h
                                            /\ 0 <= downloadTotal h));
        [tauto | exact Hnn]).
  assert (Sd : 0 <= fold_right Z.add 0 (map downloadTotal hs))
    by (apply column_sum_nonneg;
        apply (Forall_impl _ (P := fun h => 0 <= uploadTotal h
                                            /\ 0 <= downloadTotal h));
        [tauto | exact Hnn]).
  assert (E : count_host plus s h = count_host Z.add s h).
  { unfold count_host. rewrite !int_or_zero.
    destruct (String.eqb (status h) "online");
      [|destruct (String.eqb (status h) "offline")];
      cbn; f_equal; apply Hplus; lia. }
  rewrite E. apply IH; unfold count_host; rewrite !int_or_zero;
    (destruct (String.eqb (status h) "online");
     [|destruct (String.eqb (status h) "offline")]); cbn; lia.
Qed.

Lemma Permutation_filter_length {A : Type} (f : A -> bool) (xs ys : list A) :
  Permutation xs ys ->
  List.length (filter f xs) = List.length (filter f ys).
Proof.
  induction 1 as [|x xs ys _ IH|x y xs|xs ys zs _ IH1 _ IH2]; cbn.
  - reflexivity.
  - destruct (f x); cbn; now rewrite IH.
  - destruct (f x), (f y); reflexivity.
  - now rewrite IH1.
Qed.

Lemma Permutation_sum (xs ys : list Z) :
  Permutation xs ys -> fold_right Z.add 0 xs = fold_right Z.add 0 ys.
Proof.
  induction 1 as [|x xs ys _ IH|x y xs|xs ys zs _ IH1 _ IH2]; cbn; lia.
Qed.

Lemma status_classes (hs : list Host) :
  (List.length (filter (fun h => String.eqb (status h) "online") hs)
   + List.length (filter (fun h => String.eqb (status h) "offline") hs)
   + List.length (filter (fun h => negb (String.eqb (status h) "online")
                                   && negb (String.eqb (status h) "offline")) hs)
   = List.length hs)%nat.
Proof.
  induction hs as [|h hs IH]; [reflexivity|]. cbn [filter].
  destruct (String.eqb_spec (status h) "online") as [E|E].
  - rewrite E. cbn. lia.
  - destruct (String.eqb (status h) "offline"); cbn; lia.
Qed.

Lemma countable_Permutation (xs ys : list Host) :
  Permutation xs ys -> countable xs -> countable ys.
Proof.
  intros Hp (Hl & Hn & Hu & Hd). unfold countable.
  rewrite <- (Permutation_length Hp),
    <- (Permutation_sum _ _ (Permutation_map uploadTotal Hp)),
    <- (Permutation_sum _ _ (Permutation_map downloadTotal Hp)).
  repeat split; try assumption.
  apply Forall_forall. intros h Hh. rewrite Forall_forall in Hn.
  apply Hn. apply (Permutation_in _ (Permutation_sym Hp) Hh).
Qed.

Lemma stats_of_exact (plus : Z -> Z -> Z) (hs : list Host) :
  exact_below_two_53 plus -> countable hs ->
  stats_of plus hs = stats_of Z.add hs.
Proof.
  intros Hplus (Hl & Hn & Hu & Hd). unfold stats_of.
  apply count_hosts_exact; cbn; try assumption; try lia.
Qed.

(** [getHostStats] reads only.  For a table a double can count, with
    non-negative traffic columns whose sums are at most 2^53, where the
    additions of the loop are exact: every stored host is counted in
    exactly one of the three status classes (anything that is neither
    [online] nor [offline] counts as unknown), so the three counts add up
    to [totalHosts]; the traffic totals are the sums of the columns; and
    the statistics do not depend on the order in which the rows are
    listed. *)
Theorem getHostStats_counts_every_host (plus : Z -> Z -> Z) (db : Db) :
  exact_below_two_53 plus ->
  countable (table db) ->
  exists stats,
    getHostStats plus db = (Return stats, db)
    /\ totalHosts stats = Z.of_nat (List.length (table db))
    /\ onlineHosts stats + offlineHosts stats + unknownHosts stats
       = totalHosts stats
    /\ onlineHosts stats
       = Z.of_nat (List.length
                     (filter (fun h => String.eqb (status h) "online") (table db)))
    /\ offlineHosts stats
       = Z.of_nat (List.length
                     (filter (fun h => String.eqb (status h) "offline") (table db)))
    /\ totalTrafficUpload stats = fold_right Z.add 0 (map uploadTotal (table db))
    /\ totalTrafficDownload stats
       = fold_right Z.add 0 (map downloadTotal (table db))
    /\ forall db2,
        Permutation (table db) (table db2) ->
        fst (getHostStats plus db2) = Return stats.
Proof.
  intros Hplus Hc. exists (stats_of plus (table db)).
  split; [unfold getHostStats, getAllHosts; run_db; reflexivity|].
  rewrite (stats_of_exact plus _ Hplus Hc).
  unfold stats_of. rewrite count_hosts_fold.
  cbn [totalHosts onlineHosts offlineHosts unknownHosts totalTrafficUpload
       totalTrafficDownload].
  split; [reflexivity|]. split.
  - pose proof (status_classes (table db)). lia.
  - do 4 (split; [reflexivity|]).
    intros db2 Hp. unfold getHostStats, getAllHosts. run_db.
    rewrite (stats_of_exact plus _ Hplus (countable_Permutation _ _ Hp Hc)).
    unfold stats_of. rewrite count_hosts_fold. cbn. f_equal.
    rewrite <- (Permutation_length Hp),
      <- !(Permutation_filter_length _ _ _ Hp),
      <- (Permutation_sum _ _ (Permutation_map uploadTotal Hp)),
      <- (Permutation_sum _ _ (Permutation_map downloadTotal Hp)).
    reflexivity.
Qed.

Lemma getHostStats_counts_every_host_witness :
  let db1 := snd (processHeartbeat (example_heartbeat "vps-1" 95) 1000 empty_db) in
  let db2 := snd (processHeartbeat (example_heartbeat "vps-2" 40) 1001 db1) in
  exists stats,
    getHostStats Z.add db2 = (Return stats, db2)
    /\ totalHosts stats = 2
    /\ onlineHosts stats = 2
    /\ totalTrafficDownload stats = 40
    /\ fst (getHostStats Z.add {| table := rev (table db2); nextId := nextId db2;
                                  log := log db2 |})
       = Return stats.
Proof.
  cbv zeta.
  destruct (getHostStats_counts_every_host Z.add
              (snd (processHeartbeat (example_heartbeat "vps-2" 40) 1001
                      (snd (processHeartbeat (example_heartbeat "vps-1" 95) 1000
                              empty_db)))))
    as (stats & E & Ht & _ & Ho & _ & _ & Hd & Hp).
  - intros a b _ _ _. reflexivity.
  - unfold countable. cbn. repeat split; try discriminate;
      repeat constructor; discriminate.
  - exists stats. split; [exact E|].
    split; [rewrite Ht; reflexivity|].
    split; [rewrite Ho; reflexivity|].
    split; [rewrite Hd; reflexivity|].
    apply Hp. cbn [table]. apply Permutation_rev.
Defined.

(** [deleteHost] removes the row with the key and nothing else.  When
    no node references the key it answers [true] exactly when the key was
    stored, the other rows stay as they were, and afterwards the key is not
    found, an update of it answers [null] without touching the store, and
    the name of the removed host is free again.  When a node still
    references a stored key the call raises and every row is kept. *)
Theorem deleteHost_removes_the_row (referenced : Z -> bool) (i : Z) (db : Db) :
  consistent db ->
  (referenced i = false ->
   exists b db',
     deleteHost referenced i db = (Return b, db')
     /\ (b = true <-> In i (map id (table db)))
     /\ table db' = filter (fun h => negb (id h =? i)) (table db)
     /\ consistent db'
     /\ getHostById i db' = (Return None, db')
     /\ (forall update now, updateHost i update now db' = (Return None, db'))
     /\ (forall h, In h (table db) -> id h = i ->
                   getHostByName (name h) db' = (Return None, db')))
  /\ (referenced i = true -> In i (map id (table db)) ->
      exists db',
        deleteHost referenced i db
        = (Throw "FOREIGN KEY constraint failed", db')
        /\ table db' = table db).
Proof.
  intros (Hn & Hi & Hlt).
  assert (Hgone : forall l : list Host,
             filter (fun h => id h =? i)
                    (filter (fun h => negb (id h =? i)) l) = []).
  { intros l. induction l as [|h l IH]; [reflexivity|]. cbn.
    destruct (id h =? i) eqn:E; cbn; [exact IH|]. now rewrite E. }
  assert (Hcons : forall lg,
             consistent {| table := filter (fun h => negb (id h =? i)) (table db);
                           nextId := nextId db; log := lg |}).
  { intros lg. unfold consistent. cbn. repeat split.
    - now apply rows_kept_distinct.
    - now apply rows_kept_distinct.
    - rewrite Forall_forall in *. intros h Hh. apply filter_In in Hh.
      now apply Hlt. }
  assert (Hname : forall lg h, In h (table db) -> id h = i ->
             getHostByName (name h)
               {| table := filter (fun h => negb (id h =? i)) (table db);
                  nextId := nextId db; log := lg |}
             = (Return None,
                {| table := filter (fun h => negb (id h =? i)) (table db);
                   nextId := nextId db; log := lg |})).
  { intros lg h Hh Ei. unfold getHostByName. run_db.
    rewrite (proj1 (lookup_name_absent _ _)); [reflexivity|].
    intros Hin. apply in_map_iff in Hin. destruct Hin as (h' & En & Hh').
    apply filter_In in Hh'. destruct Hh' as [Hh' Hne].
    assert (h' = h) by (eapply (NoDup_map_same name); eauto).
    subst h'. rewrite Ei, Z.eqb_refl in Hne. discriminate. }
  assert (Hupd : forall lg update now,
             updateHost i update now
               {| table := filter (fun h => negb (id h =? i)) (table db);
                  nextId := nextId db; log := lg |}
             = (Return None,
                {| table := filter (fun h => negb (id h =? i)) (table db);
                   nextId := nextId db; log := lg |})).
  { intros lg update now.
    destruct (updateHost_table i update now
                {| table := filter (fun h => negb (id h =? i)) (table db);
                   nextId := nextId db; log := lg |})
      as [[_ E] | (u & d & _ & Hne & _)]; [exact E|].
    cbn in Hne. now rewrite Hgone in Hne. }
  assert (Hrows : forall h,
             In h (filter (fun h => id h =? i) (table db)) -> id h = i).
  { intros h Hh. apply filter_In in Hh. now apply Z.eqb_eq. }
  split.
  - intros Hfree.
    assert (Hex : existsb (fun h => referenced (id h))
                          (filter (fun h => id h =? i) (table db)) = false).
    { apply not_true_is_false. intros Hex. apply existsb_exists in Hex.
      destruct Hex as (h & Hh & Hr). rewrite (Hrows h Hh), Hfree in Hr.
      discriminate. }
    destruct (filter (fun h => id h =? i) (table db)) as [|x xs] eqn:E.
    + exists false. eexists. split.
      { unfold deleteHost, delete_where_id. run_db. rewrite E. cbn.
        reflexivity. }
      split.
      { split; [discriminate|]. intros Hin. exfalso.
        apply in_map_iff in Hin. destruct Hin as (h & Eh & Hh).
        assert (In h (filter (fun h => id h =? i) (table db)))
          by (apply filter_In; split; [exact Hh | now apply Z.eqb_eq]).
        rewrite E in H. contradiction. }
      split; [reflexivity|]. split; [apply Hcons|].
      split; [unfold getHostById; run_db; now rewrite Hgone|].
      split; [apply Hupd | apply Hname].
    + exists true. eexists. split.
      { unfold deleteHost, delete_where_id. run_db. rewrite E, Hex. cbn.
        reflexivity. }
      split.
      { split; [intros _|reflexivity].
        rewrite <- (Hrows x) by now left.
        apply in_map. assert (Hx : In x (filter (fun h => id h =? i) (table db)))
          by (rewrite E; now left).
        now apply filter_In in Hx. }
      split; [reflexivity|]. split; [apply Hcons|].
      split; [unfold getHostById; run_db; now rewrite Hgone|].
      split; [apply Hupd | apply Hname].
  - intros Hused Hin.
    assert (Hex : existsb (fun h => referenced (id h))
                          (filter (fun h => id h =? i) (table db)) = true).
    { apply in_map_iff in Hin. destruct Hin as (h & Eh & Hh).
      apply existsb_exists. exists h. split.
      - apply filter_In. split; [exact Hh | now apply Z.eqb_eq].
      - now rewrite Eh. }
    eexists. split.
    { unfold deleteHost, delete_where_id. run_db. rewrite Hex. cbn.
      reflexivity. }
    reflexivity.
Qed.

Lemma deleteHost_removes_the_row_witness :
  exists db0 h,
    processHeartbeat (example_heartbeat "vps-1" 95) 1000 empty_db
    = (Return (Some h), db0)
    /\ (exists db',
           deleteHost (fun _ => false) (id h) db0 = (Return true, db')
           /\ table db' = []
           /\ getHostById (id h) db' = (Return None, db'))
    /\ (exists db',
           deleteHost (fun _ => true) (id h) db0
           = (Throw "FOREIGN KEY constraint failed", db')
           /\ table db' = [h]).
Proof.
  destruct (processHeartbeat (example_heartbeat "vps-1" 95) 1000 empty_db)
    as [r db0] eqn:E.
  vm_compute in E. injection E as <- <-.
  do 2 eexists. split; [reflexivity|].
  assert (Hc : forall d h, table d = [h] -> id h < nextId d -> consistent d).
  { intros d h Et Hl. unfold consistent. rewrite Et. cbn.
    repeat split; repeat constructor; try (intros []). exact Hl. }
  split.
  - match goal with
    | |- exists db', deleteHost ?r ?i ?d = _ /\ _ =>
        destruct (proj1 (deleteHost_removes_the_row r i d
                           (Hc d _ eq_refl eq_refl)) eq_refl)
          as (b & db' & Ed & Hb & Ht & _ & Hg & _)
    end.
    exists db'. cbn in Hb. rewrite (proj2 Hb (or_introl eq_refl)) in Ed.
    split; [exact Ed|]. split; [exact Ht | exact Hg].
  - match goal with
    | |- exists db', deleteHost ?r ?i ?d = _ /\ _ =>
        destruct (proj2 (deleteHost_removes_the_row r i d
                           (Hc d _ eq_refl eq_refl)) eq_refl
                        (or_introl eq_refl))
          as (db' & Ed & Ht)
    end.
    exists db'. split; [exact Ed | exact Ht].
Defined.

End HostService.

(** ** Templates on disk and generated configurations *)

Section Rendered.
Import Js Template.

Lemma split_from_absent (k s : string) :
  includes k s = false -> split_from k 0 s = (s, []).
Proof.
  induction s as [|c s IH]; intros H; [reflexivity|].
  cbn [includes] in H. apply orb_false_iff in H as [Hp Hs].
  cbn [split_from]. rewrite Hp, (IH Hs). reflexivity.
Qed.

Lemma replace_all_absent (k v s : string) :
  includes k s = false -> replace_all k v s = s.
Proof.
  intros H. unfold replace_all, split. now rewrite (split_from_absent _ _ H).
Qed.

Lemma substitute_absent (entries : list (string * string)) (s : string) :
  (forall e, In e entries -> includes (fst e) s = false) ->
  substitute entries s = s.
Proof.
  unfold substitute. induction entries as [|e entries IH]; intros H;
    [reflexivity|].
  cbn [fold_left]. rewrite replace_all_absent by (apply H; now left).
  apply IH. intros e' He'. apply H. now right.
Qed.

Lemma replaceVariables_brace_safe (t : string) (context : NodeConfigContext) :
  brace_safe t = true -> replaceVariables t context = t.
Proof.
  intros H. unfold replaceVariables. apply substitute_absent.
  rewrite replacements_entries. intros e He.
  apply in_map_iff in He as (k & <- & _). cbn [entry fst].
  destruct (token_opens k) as [k' ->]. now apply includes_open_false.
Qed.

(** Text without [{{] is returned as it is, for every context; and a
    rendered configuration is such text when the template's literal text
    and the context's strings are brace-safe, so rendering it again, for
    any context, changes nothing. *)
Theorem rendering_twice_is_rendering_once
        (context context' : NodeConfigContext) (segs : list segment)
        (t : string) :
  safe_context context = true ->
  forallb safe_segment segs = true ->
  brace_safe t = true ->
  replaceVariables t context' = t
  /\ replaceVariables (replaceVariables (flat segs) context) context'
     = replaceVariables (flat segs) context.
Proof.
  intros Hc Hs Ht. split; [now apply replaceVariables_brace_safe|].
  assert (E : replaceVariables (flat segs) context = simultaneous context segs)
    by (apply substitute_any_order; auto using Permutation_refl).
  rewrite E. apply replaceVariables_brace_safe. now apply simultaneous_safe.
Qed.

Lemma rendering_twice_is_rendering_once_witness :
  let segs := [Lit "listen "; Var PORT; Lit "; # {x} "; Var NODE_NAME] in
  let other := {| id := Int 2; name := "node-2"; domain := "b.example.com";
                  port := Int 80; additionalPorts := []; proxyType := "trojan";
                  host := None |} in
  replaceVariables "return 200 {ok};" other = "return 200 {ok};"
  /\ replaceVariables (replaceVariables (flat segs) scenario_context) other
     = replaceVariables (flat segs) scenario_context.
Proof.
  apply (rendering_twice_is_rendering_once scenario_context); reflexivity.
Defined.

End Rendered.

Section TemplateScan.
Import Js Template Config.

Lemma match_at_literal (c : ascii) (l rest : string) :
  brace_safe (String c l) = true -> match_at (String c (l ++ rest)) = None.
Proof.
  intros H. unfold match_at.
  now rewrite (prefix_open_false c l EmptyString rest H).
Qed.

Lemma scan_literal (l rest : string) :
  brace_safe l = true -> scan 0 (l ++ rest) = scan 0 rest.
Proof.
  induction l as [|c l IH]; intros H; [reflexivity|].
  change (String c l ++ rest) with (String c (l ++ rest)).
  cbn [scan]. rewrite (match_at_literal _ _ _ H). apply IH.
  cbn [brace_safe] in H. now apply andb_true_iff in H.
Qed.

(** The class [[A-Z_]] holds no digit: the placeholder of
    [HOST_IPV6] is not a match. *)
Lemma scan_token (k : key) (rest : string) :
  scan 0 (token k ++ rest)
  = ((if key_eqb k HOST_IPV6 then [] else [key_name k]) ++ scan 0 rest)%list.
Proof. destruct k, rest; vm_compute; reflexivity. Qed.

Lemma scan_flat (segs : list segment) :
  forallb safe_segment segs = true ->
  scan 0 (flat segs)
  = map key_name
        (filter (fun k => negb (key_eqb k HOST_IPV6)) (keys_of segs)).
Proof.
  induction segs as [|seg segs IH]; intros H; [reflexivity|].
  cbn [forallb] in H. apply andb_true_iff in H as [Hseg H].
  cbn [flat]. destruct seg as [l|k]; cbn [text keys_of map filter].
  - rewrite (scan_literal _ _ Hseg). now apply IH.
  - rewrite scan_token, (IH H). now destruct (key_eqb k HOST_IPV6).
Qed.

Lemma set_add_spec (x : string) (set : list string) (v : string) :
  In v (set_add x set) <-> In v set \/ v = x.
Proof.
  unfold set_add. destruct (existsb (String.eqb x) set) eqn:E.
  - split; [tauto|]. intros [H| ->]; [exact H|].
    apply existsb_exists in E as (y & Hy & Ey).
    apply String.eqb_eq in Ey. now subst.
  - rewrite in_app_iff. cbn. intuition congruence.
Qed.

Lemma set_add_NoDup (x : string) (set : list string) :
  NoDup set -> NoDup (set_add x set).
Proof.
  intros H. unfold set_add. destruct (existsb (String.eqb x) set) eqn:E;
    [exact H|].
  apply NoDup_app; [exact H | repeat constructor; tauto|].
  intros y Hy [Hx|[]]. subst y.
  assert (existsb (String.eqb x) set = true); [|congruence].
  apply existsb_exists. exists x. split; [exact Hy | apply String.eqb_refl].
Qed.

Lemma set_of_spec (xs set : list string) :
  NoDup set ->
  NoDup (fold_left (fun set x => set_add x set) xs set)
  /\ forall v, In v (fold_left (fun set x => set_add x set) xs set)
               <-> In v set \/ In v xs.
Proof.
  revert set. induction xs as [|x xs IH]; intros set H; cbn [fold_left].
  - split; [exact H|]. intros v. cbn. tauto.
  - destruct (IH _ (set_add_NoDup x set H)) as [Hn Hi].
    split; [exact Hn|]. intros v. rewrite Hi, set_add_spec. cbn.
    intuition congruence.
Qed.

Lemma keys_of_spec (segs : list segment) (k : key) :
  In k (keys_of segs) <-> In (Var k) segs.
Proof.
  induction segs as [|[l|k'] segs IH]; cbn [keys_of In]; [tauto| |].
  - rewrite IH. split; [tauto|]. intros [H|H]; [discriminate | exact H].
  - rewrite IH. split; intros [H|H]; auto; [left; now f_equal|].
    left. now injection H.
Qed.

Lemma token_of_name (k : key) : token k = "{{" ++ key_name k ++ "}}".
Proof. now destruct k. Qed.

End TemplateScan.

Section ConfigService.
Import Js Eff Template Config.

Variable cwd : string.
Variable resolve_path : list string -> string.
Variable parsePort : string -> number.

Ltac run_cfg :=
  unfold try_catch, bind, gets, modify, ret, throw, readFile, readdir; cbn.

Lemma cache_get_set (k v : string) (cache : Cache) :
  cache_get k (cache_set k v cache) = Some v.
Proof.
  unfold cache_get, cache_set.
  destruct (existsb (fun e => String.eqb (fst e) k) cache) eqn:E.
  - induction cache as [|e cache IH]; [discriminate E|].
    cbn [map find]. cbn [existsb] in E.
    destruct (String.eqb (fst e) k) eqn:Ee.
    + cbn [fst]. now rewrite String.eqb_refl.
    + rewrite Ee. apply IH. exact E.
  - induction cache as [|e cache IH].
    + cbn. now rewrite String.eqb_refl.
    + cbn [existsb] in E. apply orb_false_iff in E as [Ee E].
      cbn [app find]. rewrite Ee. now apply IH.
Qed.

Lemma loadTemplate_hit (configType : ConfigType) (templateName : option string)
      (content : string) (w : World) :
  cache_get (cacheKey configType (or_string templateName "default"))
            (templateCache w) = Some content ->
  loadTemplate cwd resolve_path configType templateName w = (Return content, w).
Proof. intros H. unfold loadTemplate. run_cfg. now rewrite H. Qed.

Lemma loadTemplate_miss (configType : ConfigType) (templateName : option string)
      (w : World) :
  cache_get (cacheKey configType (or_string templateName "default"))
            (templateCache w) = None ->
  loadTemplate cwd resolve_path configType templateName w
  = match files w (templatePath cwd resolve_path configType
                                (or_string templateName "default")) with
    | Some content =>
        (Return content,
         with_cache (cache_set (cacheKey configType
                                         (or_string templateName "default"))
                               content) w)
    | None =>
        (Throw ("Template not found: " ++ type_name configType ++ "/"
                ++ or_string templateName "default"), w)
    end.
Proof.
  intros H. unfold loadTemplate. run_cfg. rewrite H.
  now destruct (files w _).
Qed.

Lemma loadTemplate_cached (configType : ConfigType)
      (templateName : option string) (content : string) (w w1 : World) :
  loadTemplate cwd resolve_path configType templateName w = (Return content, w1) ->
  cache_get (cacheKey configType (or_string templateName "default"))
            (templateCache w1) = Some content
  /\ store w1 = store w.
Proof.
  destruct (cache_get (cacheKey configType (or_string templateName "default"))
                      (templateCache w)) as [c|] eqn:E.
  - rewrite (loadTemplate_hit _ _ _ _ E). intros [= <- <-]. now split.
  - rewrite (loadTemplate_miss _ _ _ E).
    destruct (files w _); [|discriminate].
    intros [= <- <-]. cbn. split; [apply cache_get_set | reflexivity].
Qed.

(** A loaded template is served from the cache: once [loadTemplate] has
    returned a content, later calls for the same type and name return that
    content and touch nothing, whatever has happened to the files since;
    after [reloadTemplates] the next call reads the file as it then is,
    and a missing file is reported without being cached. *)
Theorem loadTemplate_cached_until_reload
        (configType : ConfigType) (templateName : option string)
        (content : string) (w w1 : World) :
  loadTemplate cwd resolve_path configType templateName w = (Return content, w1) ->
  (forall fs,
      loadTemplate cwd resolve_path configType templateName (with_files fs w1)
      = (Return content, with_files fs w1))
  /\ (forall fs,
         let w2 := snd (reloadTemplates (with_files fs w1)) in
         let templateNameSafe := or_string templateName "default" in
         templateCache w2 = []
         /\ loadTemplate cwd resolve_path configType templateName w2
            = match fs (templatePath cwd resolve_path configType
                                     templateNameSafe) with
              | Some current =>
                  (Return current,
                   with_cache (fun _ => [(cacheKey configType templateNameSafe,
                                          current)]) w2)
              | None =>
                  (Throw ("Template not found: " ++ type_name configType ++ "/"
                          ++ templateNameSafe), w2)
              end).
Proof.
  intros H. apply loadTemplate_cached in H as [Hc _]. split.
  - intros fs. now apply loadTemplate_hit.
  - intros fs. cbv zeta. split; [reflexivity|].
    rewrite loadTemplate_miss by reflexivity. cbn.
    now destruct (fs _).
Qed.

(** The template is loaded before the node is looked up: when the
    template is neither cached nor on disk, [generateConfig] raises
    'Template not found', whether the node exists or not, and changes
    nothing; when the template is there and the lookup of the node raises,
    that error is passed on and the template stays cached. *)
Theorem generateConfig_loads_template_first
        (request : ConfigRequest) (w : World) :
  let templateNameSafe := or_string (template request) "default" in
  let key := cacheKey (configType request) templateNameSafe in
  let path := templatePath cwd resolve_path (configType request)
                           templateNameSafe in
  cache_get key (templateCache w) = None ->
  (files w path = None ->
   generateConfig cwd resolve_path parsePort request w
   = (Throw ("Template not found: " ++ type_name (configType request) ++ "/"
             ++ templateNameSafe), w))
  /\ (forall content error,
         files w path = Some content ->
         getNodeContext parsePort (store w) (nodeId request) = Throw error ->
         generateConfig cwd resolve_path parsePort request w
         = (Throw error, with_cache (cache_set key content) w)
         /\ cache_get key
              (templateCache
                 (snd (generateConfig cwd resolve_path parsePort request w)))
            = Some content).
Proof.
  cbv zeta. intros Hmiss. split.
  - intros Hf. unfold generateConfig.
    unfold try_catch at 1, bind at 1.
    rewrite (loadTemplate_miss _ _ _ Hmiss), Hf. reflexivity.
  - intros content error Hf Hn.
    assert (E : generateConfig cwd resolve_path parsePort request w
                = (Throw error,
                   with_cache (cache_set
                                 (cacheKey (configType request)
                                    (or_string (template request) "default"))
                                 content) w)).
    { unfold generateConfig. unfold try_catch at 1, bind at 1.
      rewrite (loadTemplate_miss _ _ _ Hmiss), Hf.
      unfold bind. cbn [store with_cache]. rewrite Hn. reflexivity. }
    rewrite E. split; [reflexivity|]. cbn. apply cache_get_set.
Qed.

(** From disk to answer: for a stored node whose context is brace-safe
    and a template made of known placeholders and brace-safe text,
    [getNodeConfig] answers with every placeholder resolved at once, no
    known placeholder left, and the content type of the configuration
    type; the only change is the cached template. *)
Theorem getNodeConfig_renders_stored_template
        (nodeId : Z) (configType : ConfigType) (templateName : option string)
        (segs : list segment) (context : NodeConfigContext) (w w1 : World) :
  loadTemplate cwd resolve_path configType templateName w
  = (Return (flat segs), w1) ->
  getNodeContext parsePort (store w) nodeId = Return context ->
  safe_context context = true ->
  forallb safe_segment segs = true ->
  getNodeConfig cwd resolve_path parsePort nodeId configType templateName w
  = (Return (simultaneous context segs, contentType configType), w1)
  /\ (forall k, includes (token k) (simultaneous context segs) = false)
  /\ (contentType configType = "application/json" <-> configType = xray).
Proof.
  intros Hl Hn Hc Hs. split; [|split].
  - destruct (loadTemplate_cached _ _ _ _ _ Hl) as [_ Hst].
    unfold getNodeConfig, generateConfig.
    unfold try_catch at 1, bind at 1, try_catch at 1, bind at 1.
    cbn [Config.configType Config.template Config.nodeId].
    rewrite Hl. unfold bind at 1. rewrite Hst, Hn. unfold ret.
    do 3 f_equal. apply substitute_any_order; auto using Permutation_refl.
  - intros k. destruct (token_opens k) as [k' ->].
    apply includes_open_false. now apply simultaneous_safe.
  - destruct configType; cbn; split; intros; congruence.
Qed.

Lemma substring_whole (s : string) : substring 0 (String.length s) s = s.
Proof. induction s as [|c s IH]; cbn; [reflexivity | now rewrite IH]. Qed.

Lemma substring_suffix (n suf : string) :
  substring (String.length n) (String.length suf) (n ++ suf) = suf.
Proof.
  induction n as [|c n IH]; cbn [String.length append substring].
  - apply substring_whole.
  - exact IH.
Qed.

Lemma length_of_append (a b : string) :
  String.length (a ++ b) = (String.length a + String.length b)%nat.
Proof. induction a as [|c a IH]; cbn; [reflexivity | now rewrite IH]. Qed.

Lemma endsWith_append (n suf : string) : endsWith suf (n ++ suf) = true.
Proof.
  unfold endsWith. rewrite length_of_append.
  replace (String.length n + String.length suf - String.length suf)%nat
    with (String.length n) by lia.
  rewrite substring_suffix, String.eqb_refl, andb_true_r.
  apply Nat.leb_le. lia.
Qed.

(** Neither ['.json'] nor ['.conf'] overlaps itself: an occurrence that
    starts in [m] lies within [m]. *)
Lemma suffix_within (configType : ConfigType) (c : ascii) (m : string) :
  String.prefix (suffix configType) (String c m ++ suffix configType) = true ->
  String.prefix (suffix configType) (String c m) = true.
Proof.
  destruct configType; cbn [suffix];
    repeat (match goal with
            | m : string |- _ =>
                destruct m; cbn [String.prefix append];
                repeat (match goal with
                        | |- context [ascii_dec ?a ?b] =>
                            destruct (ascii_dec a b); try discriminate; subst
                        end);
                try discriminate; try reflexivity
            end).
Qed.

Lemma replace_first_suffix (configType : ConfigType) (n : string) :
  includes (suffix configType) n = false ->
  replace_first (suffix configType) EmptyString (n ++ suffix configType) = n.
Proof.
  induction n as [|c n IH]; intros H.
  - now destruct configType.
  - cbn [includes] in H. apply orb_false_iff in H as [Hp Hn].
    cbn [append replace_first].
    destruct (String.prefix (suffix configType)
                            (String c (n ++ suffix configType))) eqn:E.
    + apply (suffix_within configType c n) in E. congruence.
    + now rewrite (IH Hn).
Qed.

(** A listed template can be loaded under its listed name: for a file
    [n.json] (or [n.conf]) of the template directory whose name [n] is not
    empty and holds no further ['.json'] (['.conf']), [listTemplates]
    lists [n], and [loadTemplate] of [n] reads that very file. *)
Theorem listed_template_loads
        (configType : ConfigType) (n content : string) (names : list string)
        (w : World) :
  directories w (templateDir cwd resolve_path configType) = Some names ->
  In (n ++ suffix configType) names ->
  includes (suffix configType) n = false ->
  n <> EmptyString ->
  files w (resolve_path [templateDir cwd resolve_path configType;
                         n ++ suffix configType]) = Some content ->
  cache_get (cacheKey configType n) (templateCache w) = None ->
  (exists listed,
      listTemplates cwd resolve_path configType w = (Return listed, w)
      /\ In n listed)
  /\ fst (loadTemplate cwd resolve_path configType (Some n) w) = Return content.
Proof.
  intros Hd Hin Hn Hne Hf Hc.
  assert (Hsafe : or_string (Some n) "default" = n)
    by (destruct n; [contradiction | reflexivity]).
  split.
  - eexists. split.
    + unfold listTemplates. run_cfg. rewrite Hd. reflexivity.
    + apply in_map_iff. exists (n ++ suffix configType). split.
      * now apply replace_first_suffix.
      * apply filter_In. split; [exact Hin | apply endsWith_append].
  - rewrite loadTemplate_miss; rewrite Hsafe; [|exact Hc].
    replace (templatePath cwd resolve_path configType n)
      with (resolve_path [templateDir cwd resolve_path configType;
                          n ++ suffix configType])
      by (unfold templatePath; now destruct configType).
    now rewrite Hf.
Qed.

(** The variables [getTemplate] reports for a template made of known
    placeholders and brace-safe text are the names of its placeholders
    other than [HOST_IPV6], once each, in the order of their first
    occurrence; [HOST_IPV6] is never reported, its digit not being matched
    by [[A-Z_]+]; and no reported variable is left in a configuration
    rendered from the template for a context whose strings are
    brace-safe. *)
Theorem getTemplate_reports_placeholders
        (configType : ConfigType) (templateName : string)
        (segs : list segment) (w w1 : World) :
  loadTemplate cwd resolve_path configType (Some templateName) w
  = (Return (flat segs), w1) ->
  forallb safe_segment segs = true ->
  exists t,
    getTemplate cwd resolve_path configType templateName w = (Return t, w1)
    /\ Config.name t = templateName
    /\ content t = flat segs
    /\ variables t
       = fold_left (fun set x => set_add x set)
           (map key_name
                (filter (fun k => negb (key_eqb k HOST_IPV6)) (keys_of segs)))
           []
    /\ NoDup (variables t)
    /\ (forall v, In v (variables t)
                  <-> exists k, In (Var k) segs /\ k <> HOST_IPV6
                                /\ v = key_name k)
    /\ ~ In "HOST_IPV6" (variables t)
    /\ (forall context v,
           safe_context context = true ->
           In v (variables t) ->
           includes ("{{" ++ v ++ "}}") (replaceVariables (flat segs) context)
           = false).
Proof.
  intros Hl Hs.
  destruct (set_of_spec
              (map key_name
                   (filter (fun k => negb (key_eqb k HOST_IPV6)) (keys_of segs)))
              [] (NoDup_nil _)) as [Hnd Hin].
  assert (Hvars : forall v, In v (variables_of (flat segs))
                            <-> exists k, In (Var k) segs /\ k <> HOST_IPV6
                                          /\ v = key_name k).
  { intros v. unfold variables_of. rewrite (scan_flat _ Hs), Hin. cbn.
    rewrite in_map_iff. split.
    - intros [[]|(k & <- & Hk)]. apply filter_In in Hk as [Hk Hne].
      exists k. rewrite <- keys_of_spec. split; [exact Hk|].
      split; [|reflexivity]. intros ->. discriminate Hne.
    - intros (k & Hk & Hne & ->). right. exists k. split; [reflexivity|].
      apply filter_In. rewrite keys_of_spec. split; [exact Hk|].
      now destruct k. }
  eexists. split; [|split; [|split; [|split; [|split; [|split; [|split]]]]]].
  - unfold getTemplate. unfold try_catch, bind. rewrite Hl. reflexivity.
  - reflexivity.
  - reflexivity.
  - cbn [variables]. unfold variables_of. now rewrite (scan_flat _ Hs).
  - cbn [variables]. unfold variables_of. now rewrite (scan_flat _ Hs).
  - exact Hvars.
  - cbn [variables]. intros Hv. apply Hvars in Hv as (k & _ & Hne & E).
    now destruct k.
  - intros context v Hc Hv. cbn [variables] in Hv.
    apply Hvars in Hv as (k & _ & _ & ->). rewrite <- token_of_name.
    assert (E : replaceVariables (flat segs) context
                = simultaneous context segs)
      by (apply substitute_any_order; auto using Permutation_refl).
    rewrite E. destruct (token_opens k) as [k' ->].
    apply includes_open_false. now apply simultaneous_safe.
Qed.

End ConfigService.

Section ConfigWitnesses.
Import Js Eff Config Template.

Lemma loadTemplate_cached_until_reload_witness :
  exists w1,
    loadTemplate "/app" example_resolve nginx None example_world
    = (Return "listen {{PORT}};", w1)
    /\ loadTemplate "/app" example_resolve nginx None
         (with_files (fun _ => None) w1)
       = (Return "listen {{PORT}};", with_files (fun _ => None) w1)
    /\ fst (loadTemplate "/app" example_resolve nginx None
              (snd (reloadTemplates (with_files (fun _ => None) w1))))
       = Throw "Template not found: nginx/default".
Proof.
  eexists. split; [reflexivity|].
  destruct (loadTemplate_cached_until_reload "/app" example_resolve nginx None
              "listen {{PORT}};" example_world _ eq_refl) as [Hhit Hreload].
  split; [apply Hhit|].
  destruct (Hreload (fun _ => None)) as [_ E]. cbv zeta in E.
  now rewrite E.
Defined.

Lemma generateConfig_loads_template_first_witness :
  generateConfig "/app" example_resolve (fun _ => NaN)
    {| nodeId := 7; configType := xray; template := Some "edge" |}
    example_world
  = (Throw "Template not found: xray/edge", example_world).
Proof.
  apply (proj1 (generateConfig_loads_template_first "/app" example_resolve
                  (fun _ => NaN)
                  {| nodeId := 7; configType := xray; template := Some "edge" |}
                  example_world eq_refl)).
  reflexivity.
Defined.

Lemma getNodeConfig_renders_stored_template_witness :
  exists w1,
    getNodeConfig "/app" example_resolve (fun _ => NaN) 1 nginx None
      example_world
    = (Return ("listen 443;", "text/plain"), w1)
    /\ templateCache w1 = [("nginx:default", "listen {{PORT}};")].
Proof.
  eexists. split.
  - apply (getNodeConfig_renders_stored_template "/app" example_resolve
             (fun _ => NaN) 1 nginx None [Lit "listen "; Var PORT; Lit ";"]
             {| id := Int 1; name := "node-1"; domain := "a.example.com";
                port := Int 443; additionalPorts := []; proxyType := "vless";
                host := None |});
      reflexivity.
  - reflexivity.
Defined.

Lemma listed_template_loads_witness :
  (exists listed,
      listTemplates "/app" example_resolve nginx example_world
      = (Return listed, example_world)
      /\ In "default" listed)
  /\ fst (loadTemplate "/app" example_resolve nginx (Some "default")
            example_world)
     = Return "listen {{PORT}};".
Proof.
  apply (listed_template_loads "/app" example_resolve nginx "default"
           "listen {{PORT}};" ["default.conf"; "README.md"; "edge.conf.d.conf"]);
    try reflexivity.
  - now left.
  - discriminate.
Defined.

(** A file name that holds the extension twice is listed under a name
    that does not lead back to it: [replace] removes the first
    occurrence. *)
Example listed_name_of_doubled_extension :
  fst (listTemplates "/app" example_resolve nginx example_world)
  = Return ["default"; "edge.d.conf"]
  /\ templatePath "/app" example_resolve nginx "edge.d.conf"
     = "/app/templates/nginx/edge.d.conf.conf".
Proof. split; reflexivity. Qed.

Lemma getTemplate_reports_placeholders_witness :
  let files := fun path : string =>
                 if String.eqb path "/app/templates/nginx/edge.conf"
                 then Some "listen {{PORT}}; # {{HOST_IPV6}} {{NODE_NAME}} on {{PORT}}"
                 else None in
  exists t w1,
    getTemplate "/app" example_resolve nginx "edge"
      (with_files files example_world)
    = (Return t, w1)
    /\ variables t = ["PORT"; "NODE_NAME"].
Proof.
  cbv zeta.
  destruct (getTemplate_reports_placeholders "/app" example_resolve nginx "edge"
              [Lit "listen "; Var PORT; Lit "; # "; Var HOST_IPV6; Lit " ";
               Var NODE_NAME; Lit " on "; Var PORT]
              (with_files
                 (fun path : string =>
                    if String.eqb path "/app/templates/nginx/edge.conf"
                    then Some "listen {{PORT}}; # {{HOST_IPV6}} {{NODE_NAME}} on {{PORT}}"
                    else None) example_world)
              _ eq_refl eq_refl) as (t & E & _ & _ & Hv & _).
  exists t. eexists. split; [exact E | exact Hv].
Defined.

(** An upper-case name in double braces that is not one of the nine
    keys is reported as a variable and left in the rendered text. *)
Example unknown_placeholder_reported_not_resolved :
  variables_of "{{FOO}} {{PORT}} {{port}}" = ["FOO"; "PORT"]
  /\ replaceVariables "{{FOO}} {{PORT}} {{port}}" scenario_context
     = "{{FOO}} 443 {{port}}".
Proof. split; reflexivity. Qed.

End ConfigWitnesses.

(** ** Nodes and their hosts *)

Section NodeService.
Import Js Eff Template Nodes.

Variable parsePort : string -> number.

Ltac run_nodes :=
  unfold try_catch, bind, gets, modify, ret, throw; cbn.

Lemma filter_updated_rows (i : Z) (update : NodeUpdate) (rows : list NodeRow) :
  filter (fun n => node_id n =? i)
         (map (fun n => if node_id n =? i then apply_update update n else n) rows)
  = map (apply_update update) (filter (fun n => node_id n =? i) rows).
Proof.
  induction rows as [|n rows IH]; [reflexivity|]. cbn [map filter].
  destruct (node_id n =? i) eqn:E.
  - cbn [apply_update node_id]. rewrite E. cbn [map]. now rewrite IH.
  - rewrite E. exact IH.
Qed.

Lemma existsb_filter_head {A : Type} (f : A -> bool) (l : list A) (a : A) :
  hd_error (filter f l) = Some a -> existsb f l = true.
Proof.
  intros H. apply existsb_exists. exists a.
  apply filter_In. destruct (filter f l) as [|x xs] eqn:E; [discriminate|].
  cbn in H. injection H as ->. now left.
Qed.

(** Linking makes the host's address available to the templates: when
    the host and the node are stored, [linkNodeToHost] answers with the
    node now pointing to the host, leaves the host table alone, and the
    context built for the node afterwards carries the host's address, so
    that is what [{{HOST_IP}}] is replaced by.  The host is checked first:
    without it the call raises 'Host with ID ... not found' and changes
    nothing, whether the node exists or not. *)
Theorem linkNodeToHost_gives_host_context
        (nodeId hostId : Z) (st : Store) :
  (filter (fun h => host_id h =? hostId) (hosts st) = [] ->
   linkNodeToHost nodeId hostId st
   = (Throw ("Host with ID " ++ String_ (Int hostId) ++ " not found"), st))
  /\ (forall n h,
         hd_error (filter (fun n => node_id n =? nodeId) (nodes st)) = Some n ->
         hd_error (filter (fun h => host_id h =? hostId) (hosts st)) = Some h ->
         hostId <> 0 ->
         exists st' context,
           linkNodeToHost nodeId hostId st
           = (Return (apply_update
                        {| u_name := None; u_hostId := Some hostId;
                           u_domain := None; u_port := None;
                           u_additionalPorts := None; u_proxyType := None |} n),
              st')
           /\ hosts st' = hosts st
           /\ getNodeContext parsePort st' nodeId = Return context
           /\ host context
              = Some {| ip := host_ip_column h;
                        ipv6 := or_undefined (host_ipv6_column h);
                        region := or_undefined (host_region_column h) |}
           /\ name context = node_name n
           /\ host_ip context = host_ip_column h).
Proof.
  split.
  - intros Hh. unfold linkNodeToHost. run_nodes. now rewrite Hh.
  - intros n h Hn Hh Hz.
    pose proof (existsb_filter_head _ _ _ Hn) as Hn'.
    pose proof (existsb_filter_head _ _ _ Hh) as Hh'.
    destruct (filter (fun h => host_id h =? hostId) (hosts st))
      as [|h0 hs] eqn:Eh; [discriminate Hh|]. cbn in Hh. injection Hh as ->.
    destruct (filter (fun n => node_id n =? nodeId) (nodes st))
      as [|n0 ns] eqn:En; [discriminate Hn|]. cbn in Hn. injection Hn as ->.
    do 2 eexists. split; [|split; [|split; [|split; [|split]]]].
    + unfold linkNodeToHost, updateNode, getNodeById, update_where_id.
      run_nodes. rewrite Eh. cbn. rewrite En. cbn. rewrite Hh'. cbn.
      rewrite En. cbn. reflexivity.
    + reflexivity.
    + unfold getNodeContext. cbn [nodes hosts].
      rewrite filter_updated_rows, En. cbn [map apply_update node_hostId
        set_column u_hostId].
      unfold truthy_int. destruct (Z.eqb_spec hostId 0) as [|_];
        [contradiction|]. cbn [negb]. rewrite Eh. reflexivity.
    + reflexivity.
    + reflexivity.
    + unfold host_ip. cbn. now destruct (host_ip_column h).
Qed.

End NodeService.

Section NodeWitnesses.
Import Js Eff Template Nodes.

Lemma linkNodeToHost_gives_host_context_witness :
  linkNodeToHost 1 9 example_store
  = (Throw "Host with ID 9 not found", example_store)
  /\ exists context,
      getNodeContext (fun _ => NaN) (snd (linkNodeToHost 1 5 example_store)) 1
      = Return context
      /\ host context = Some {| ip := "203.0.113.5"; ipv6 := None;
                                region := Some "US" |}.
Proof.
  destruct (linkNodeToHost_gives_host_context (fun _ => NaN) 1 9 example_store)
    as [Hmiss _].
  split; [apply Hmiss; reflexivity|].
  destruct (linkNodeToHost_gives_host_context (fun _ => NaN) 1 5 example_store)
    as [_ Hlink].
  destruct (Hlink _ _ eq_refl eq_refl) as (st' & context & E & _ & Hc & Hh & _);
    [discriminate|].
  exists context. rewrite E. split; [exact Hc | exact Hh].
Defined.

End NodeWitnesses.
